(** * bondnet: reaction-graph construction of the gated reaction network

    A shallow embedding of [bondnet/model/gated_reaction_network.py]:
    [create_rxn_graph], [mol_graph_to_rxn_graph], [_split_batched_output] and
    the three entry points of [GatedGCNReactionNetwork].

    Tensors are two-dimensional and carry their device; their entries range
    over an arbitrary scalar type with a zero, an addition and a subtraction.
    Python exceptions are values of [exn]; a computation that may raise has
    type [result A]. *)

From Stdlib Require Import ZArith.
From stdpp Require Import base numbers list strings gmap.

Open Scope Z_scope.
Open Scope nat_scope.
Open Scope string_scope.
Open Scope list_scope.

(** ** Exceptions *)

Inductive exn : Type :=
  | AssertionError   (* a failed [assert] *)
  | IndexError       (* a position outside a list or a tensor *)
  | KeyError         (* a key absent from a dict *)
  | RuntimeError     (* raised by torch: shapes or devices do not fit *)
  | TypeError        (* an argument of a type the callee does not take *)
  | DGLError.        (* raised by dgl *)

Inductive result (A : Type) : Type :=
  | Ok (a : A)
  | Raise (e : exn).
Arguments Ok {A} a.
Arguments Raise {A} e.

#[global] Instance result_ret : MRet result := @Ok.
#[global] Instance result_bind : MBind result := λ A B f m,
  match m with
  | Ok a => f a
  | Raise e => Raise e
  end.
#[global] Instance result_fmap : FMap result := λ A B f m,
  match m with
  | Ok a => Ok (f a)
  | Raise e => Raise e
  end.

Definition raises {A} (m : result A) : Prop := ∃ e, m = Raise e.

(** [assert cond] *)
Definition py_assert (cond : bool) : result unit :=
  if cond then Ok () else Raise AssertionError.

(** [l[i]] on a Python list: a negative position counts from the end. *)
Definition py_index {A} (l : list A) (i : Z) : result A :=
  let n := Z.of_nat (length l) in
  let j := if bool_decide (i < 0)%Z then (i + n)%Z else i in
  if bool_decide (0 ≤ j < n)%Z then
    match l !! Z.to_nat j with
    | Some x => Ok x
    | None => Raise IndexError
    end
  else Raise IndexError.

(** [itertools.compress(data, selectors)]: stops at the shorter argument. *)
Fixpoint compress {A} (data : list A) (selectors : list bool) : list A :=
  match data, selectors with
  | d :: data', s :: selectors' =>
      if s then d :: compress data' selectors' else compress data' selectors'
  | _, _ => []
  end.

(** ** Python dicts whose iteration order is observed

    Keys are unique and keep the position of their first insertion. *)

Definition dict (V : Type) : Type := list (string * V).

Definition dict_keys {V} (d : dict V) : list string := fst <$> d.

Fixpoint dict_get {V} (d : dict V) (k : string) : result V :=
  match d with
  | [] => Raise KeyError
  | (k', v) :: d' => if decide (k' = k) then Ok v else dict_get d' k
  end.

Fixpoint dict_set {V} (k : string) (v : V) (d : dict V) : dict V :=
  match d with
  | [] => [(k, v)]
  | (k', v') :: d' =>
      if decide (k' = k) then (k, v) :: d' else (k', v') :: dict_set k v d'
  end.

(** ** Devices and tensors *)

Inductive Device : Type :=
  | cpu
  | cuda (index : nat).

#[global] Instance Device_eq_dec : EqDecision Device.
Proof. solve_decision. Defined.

Class Scalar (R : Type) : Type := {
  tzero : R;
  tadd : R → R → R;
  tsub : R → R → R
}.

#[global] Instance Z_Scalar : Scalar Z := {|
  tzero := 0%Z;
  tadd := Z.add;
  tsub := Z.sub
|}.

(** A 2D tensor of shape [(length rows, ncols)]. *)
Record Tensor (R : Type) : Type := mkTensor {
  device : Device;
  ncols : nat;
  rows : list (list R)
}.
Arguments mkTensor {R} device ncols rows.
Arguments device {R} t.
Arguments ncols {R} t.
Arguments rows {R} t.

Definition nrows {R} (t : Tensor R) : nat := length (rows t).

(** Every row has [ncols] entries. *)
Definition wf_tensor {R} (t : Tensor R) : Prop :=
  Forall (λ r, length r = ncols t) (rows t).

Section Torch.
Context `{Scalar R}.

Definition compatible (a b : Tensor R) : bool :=
  bool_decide (device b = device a ∧ ncols b = ncols a).

(** [torch.cat(ts)] along dimension 0 *)
Definition cat (ts : list (Tensor R)) : result (Tensor R) :=
  match ts with
  | [] => Raise RuntimeError
  | t :: ts' =>
      if forallb (compatible t) ts'
      then Ok (mkTensor (device t) (ncols t) (concat (rows <$> ts)))
      else Raise RuntimeError
  end.

(** [t.new_zeros((n, d))] *)
Definition new_zeros (t : Tensor R) (n d : nat) : Tensor R :=
  mkTensor (device t) d (replicate n (replicate d tzero)).

Definition row_add (a b : list R) : list R := zip_with tadd a b.
Definition row_sub (a b : list R) : list R := zip_with tsub a b.

(** [torch.sum(t, dim=0, keepdim=True)] *)
Definition sum_dim0 (t : Tensor R) : Tensor R :=
  mkTensor (device t) (ncols t)
    [foldl row_add (replicate (ncols t) tzero) (rows t)].

(** [t[idx]] for a Python list [idx] of integers: selects rows. *)
Definition index_rows (t : Tensor R) (idx : list Z) : result (Tensor R) :=
  rs ← mapM (py_index (rows t)) idx;
  Ok (mkTensor (device t) (ncols t) rs).

(** Broadcasting of one dimension: equal sizes, or one of them is 1. *)
Definition broadcast_dim (n m : nat) : option nat :=
  if decide (n = m) then Some n
  else if decide (n = 1) then Some m
  else if decide (m = 1) then Some n
  else None.

Definition expand {A} (n : nat) (l : list A) : list A :=
  match l with
  | [x] => replicate n x
  | _ => l
  end.

(** [a - b] with broadcasting *)
Definition sub (a b : Tensor R) : result (Tensor R) :=
  if decide (device a = device b) then
    match broadcast_dim (nrows a) (nrows b),
          broadcast_dim (ncols a) (ncols b) with
    | Some n, Some d =>
        Ok (mkTensor (device a) d
              (zip_with (λ ra rb, row_sub (expand d ra) (expand d rb))
                 (expand n (rows a)) (expand n (rows b))))
    | _, _ => Raise RuntimeError
    end
  else Raise RuntimeError.

(** Rows [off, off + n) of [t]. *)
Definition slice_rows (t : Tensor R) (off n : nat) : Tensor R :=
  mkTensor (device t) (ncols t) (take n (drop off (rows t))).

(** [torch.split(value, sizes)] with a Python list of sizes *)
Fixpoint split_rows (rs : list (list R)) (sizes : list nat) : list (list (list R)) :=
  match sizes with
  | [] => []
  | n :: sizes' => take n rs :: split_rows (drop n rs) sizes'
  end.

Definition split (value : Tensor R) (sizes : list nat) : result (list (Tensor R)) :=
  if decide (sum_list sizes = nrows value)
  then Ok (mkTensor (device value) (ncols value) <$> split_rows (rows value) sizes)
  else Raise RuntimeError.

(** [torch.split(value, size)] with an int: chunks of [size] rows, the last
    one shorter when the rows do not divide evenly, and always at least one
    chunk; a size of zero is accepted for a tensor without rows only. *)
Definition split_size (value : Tensor R) (size : nat) : result (list (Tensor R)) :=
  if decide (size = 0) then
    if decide (nrows value = 0) then Ok [value] else Raise RuntimeError
  else
    let num_splits := ((nrows value + size - 1) `div` size) `max` 1 in
    Ok ((λ i, slice_rows value (i * size) size) <$> seq 0 num_splits).

(** [torch.split(value, sizes)] with a 1-D tensor of ints.  [Tensor.split]
    tries [int(sizes)], which only a tensor of one element allows, and
    otherwise passes the tensor on to [split_with_sizes], which takes a
    tuple of ints and refuses a tensor. *)
Definition split_tensor (value : Tensor R) (sizes : list nat) : result (list (Tensor R)) :=
  match sizes with
  | [size] => split_size value size
  | _ => Raise TypeError
  end.

Definition to_device (dev : Device) (t : Tensor R) : Tensor R :=
  mkTensor dev (ncols t) (rows t).
End Torch.

(** ** Heterogeneous graphs (dgl)

    A batched graph is the disjoint union of its components [mols], in
    batching order.  Node features live in [ndata], keyed by node type and
    feature name; dgl keeps every feature on the graph's device and with as
    many rows as the graph has nodes of that type, and checks both when a
    feature is assigned. *)

Record Mol : Type := mkMol {
  node_counts : gmap string nat;   (* nodes of each type *)
  a2b : list (nat * nat)           (* atom-bond incidences *)
}.

Definition num_nodes (m : Mol) (nt : string) : nat :=
  default 0 (node_counts m !! nt).

Record Graph (R : Type) : Type := mkGraph {
  gdevice : Device;
  gntypes : list string;
  mols : list Mol;
  ndata : gmap (string * string) (Tensor R)
}.
Arguments mkGraph {R} gdevice gntypes mols ndata.
Arguments gdevice {R} g.
Arguments gntypes {R} g.
Arguments mols {R} g.
Arguments ndata {R} g.

(** [rxn.reactants], [rxn.products], [rxn.bond_mapping] and the two
    flattened correspondence maps of a reaction descriptor. *)
Record Reaction : Type := mkReaction {
  reactants : list Z;
  products : list Z;
  bond_mapping : list (gmap nat nat);
  atom_mapping_as_list : list Z;
  bond_mapping_as_list : list Z
}.

(** What [graph.to] is given: a [torch.device], or a str that names one, as
    in [graph.to('cuda:0')]. *)
Inductive DeviceArg : Type :=
  | device_obj (d : Device)
  | device_str (d : Device).

Definition named (target : DeviceArg) : Device :=
  match target with
  | device_obj d | device_str d => d
  end.

Record HasBonds : Type := mkHasBonds {
  hb_reactants : list bool;
  hb_products : list bool
}.

Section DGL.
Context `{Scalar R}.

(** Number of CUDA devices of the machine. *)
Variable cuda_count : nat.

Definition available (dev : Device) : bool :=
  match dev with
  | cpu => true
  | cuda i => bool_decide (i < cuda_count)
  end.

(** [graph.batch_num_nodes(nt)]: a 1-D tensor of ints, one per graph of the
    batch. *)
Definition batch_num_nodes (g : Graph R) (nt : string) : list nat :=
  (λ m, num_nodes m nt) <$> mols g.

Definition num_nodes_of (g : Graph R) (nt : string) : nat :=
  sum_list (batch_num_nodes g nt).

(** The test [self.device == device] of [DGLGraph.to]: a [torch.device] is
    equal to another [torch.device] only, never to a str. *)
Definition same_device (d : Device) (target : DeviceArg) : bool :=
  match target with
  | device_obj d' => bool_decide (d = d')
  | device_str _ => false
  end.

(** A copy of [g] on [dev], with frames of its own. *)
Definition copy_to (dev : Device) (g : Graph R) : Graph R :=
  mkGraph dev (gntypes g) (mols g) (to_device dev <$> ndata g).

(** [dev] can be copied to from [g]: it is a device of the machine, which a
    graph that lives on it shows. *)
Definition reachable (g : Graph R) (dev : Device) : bool :=
  bool_decide (gdevice g = dev) || available dev.

(** [graph.to(target)]: the graph itself when the device test succeeds (the
    flag says so), a copy on the target device otherwise. *)
Definition graph_to (g : Graph R) (target : DeviceArg) : result (bool * Graph R) :=
  if same_device (gdevice g) target then Ok (true, g)
  else
    let dev := named target in
    if reachable g dev then Ok (false, copy_to dev g) else Raise DGLError.

(** [graph.nodes[nt].data.update({key: ft})] *)
Definition set_ndata (g : Graph R) (nt key : string) (ft : Tensor R) : result (Graph R) :=
  if decide (nt ∈ gntypes g) then
    if decide (device ft = gdevice g ∧ nrows ft = num_nodes_of g nt)
    then Ok (mkGraph (gdevice g) (gntypes g) (mols g) (<[(nt, key) := ft]> (ndata g)))
    else Raise DGLError
  else Raise DGLError.

(** [p.nodes[nt].data[key]] *)
Definition get_ndata (key nt : string) (p : Graph R) : result (Tensor R) :=
  if decide (nt ∈ gntypes p) then
    match ndata p !! (nt, key) with
    | Some t => Ok t
    | None => Raise KeyError
    end
  else Raise DGLError.

(** [dgl.unbatch(graph)]: one graph per component, each feature cut at the
    component's node counts. *)
Definition node_offset (g : Graph R) (i : nat) (nt : string) : nat :=
  sum_list (take i (batch_num_nodes g nt)).

Definition component (g : Graph R) (i : nat) (m : Mol) : Graph R :=
  mkGraph (gdevice g) (gntypes g) [m]
    (map_imap (λ k t, Some (slice_rows t (node_offset g i k.1) (num_nodes m k.1)))
       (ndata g)).

Definition unbatch (g : Graph R) : list (Graph R) :=
  imap (component g) (mols g).

(** [dgl.batch(gs)]: the graphs must agree on device, node types and
    feature names and widths. *)
Definition batchable (g h : Graph R) : bool :=
  bool_decide (gdevice h = gdevice g ∧ gntypes h = gntypes g
               ∧ dom (ndata h) = dom (ndata g)
               ∧ map_Forall (λ k t, ncols <$> ndata h !! k = Some (ncols t)) (ndata g)).

Definition rows_at (k : string * string) (g : Graph R) : list (list R) :=
  default [] (rows <$> ndata g !! k).

Definition batch (gs : list (Graph R)) : result (Graph R) :=
  match gs with
  | [] => Raise DGLError
  | g :: rest =>
      if forallb (batchable g) rest
      then Ok (mkGraph (gdevice g) (gntypes g) (gs ≫= mols)
                 (map_imap (λ k t, Some (mkTensor (device t) (ncols t)
                                           (concat (rows_at k <$> gs))))
                    (ndata g)))
      else Raise DGLError
  end.

(** ** [create_rxn_graph] *)

(** The loop over node types, first half of its body: the reactants' and the
    products' features of type [nt], each concatenated ([reactants_ft] and
    [products_ft] after the two [torch.cat]). *)
Definition gather_ft (reactants products : list (Graph R))
    (has_bonds : HasBonds) (ft_name nt : string)
    : result (Tensor R * Tensor R) :=
  reactants_ft ← mapM (get_ndata ft_name nt) reactants;
  products_ft ← mapM (get_ndata ft_name nt) products;
  products_ft ←
    (if decide (nt = "bond") then
       r0 ← py_index reactants_ft 0;
       Ok (compress products_ft (hb_products has_bonds)
             ++ [new_zeros r0 1 (ncols r0)])
     else Ok products_ft);
  reactants_ft ← cat reactants_ft;
  products_ft ← cat products_ft;
  Ok (reactants_ft, products_ft).

(** Second half: pooling or reordering, then the difference. *)
Definition diff_ft (mappings : gmap string (list Z)) (nt : string)
    (reactants_ft products_ft : Tensor R) : result (Tensor R) :=
  if decide (nt = "global") then
    sub (sum_dim0 products_ft) (sum_dim0 reactants_ft)
  else
    idx ← (match mappings !! nt with
           | Some idx =>
               _ ← py_assert (bool_decide (nrows products_ft = length idx));
               Ok idx
           | None => Raise KeyError
           end);
    products_ft ← index_rows products_ft idx;
    sub products_ft reactants_ft.

(** The reaction feature of type [nt]: [feats[nt]]. *)
Definition rxn_ft (reactants products : list (Graph R))
    (mappings : gmap string (list Z)) (has_bonds : HasBonds)
    (ft_name nt : string) : result (Tensor R) :=
  '(reactants_ft, products_ft) ← gather_ft reactants products has_bonds ft_name nt;
  diff_ft mappings nt reactants_ft products_ft.

Fixpoint rxn_feats (step : string → result (Tensor R)) (ntypes : list string)
    (feats : dict (Tensor R)) : result (dict (Tensor R)) :=
  match ntypes with
  | [] => Ok feats
  | nt :: ntypes' =>
      ft ← step nt;
      rxn_feats step ntypes' (dict_set nt ft feats)
  end.

Definition create_rxn_graph (reactants products : list (Graph R))
    (mappings : gmap string (list Z)) (has_bonds : HasBonds)
    (ntypes : list string) (ft_name : string)
    : result (Graph R * dict (Tensor R)) :=
  _ ← py_assert (bool_decide (length reactants = 1));
  graph ← py_index reactants 0;
  feats ← rxn_feats (rxn_ft reactants products mappings has_bonds ft_name) ntypes [];
  Ok (graph, feats).
End DGL.

(** ** [mol_graph_to_rxn_graph]

    The caller's graph object is the state: the first component of the
    result is that object when the call ends, by return or by exception. *)

Section Builder.
Context `{Scalar R}.
Variable cuda_count : nat.

(** [for nt, ft in feats.items(): graph.nodes[nt].data.update({"ft": ft})];
    the writes made before an exception stay. *)
Fixpoint assign_feats (graph : Graph R) (items : dict (Tensor R))
    : Graph R * result unit :=
  match items with
  | [] => (graph, Ok ())
  | (nt, ft) :: items' =>
      match set_ndata graph nt "ft" ft with
      | Ok graph' => assign_feats graph' items'
      | Raise e => (graph, Raise e)
      end
  end.

(** The body of the loop over [reactions]. *)
Definition rxn_graph_of (graphs : list (Graph R)) (ntypes : list string)
    (rxn : Reaction) : result (Graph R * dict (Tensor R)) :=
  reactants ← mapM (py_index graphs) (reactants rxn);
  products ← mapM (py_index graphs) (products rxn);
  let has_bonds :=
    {| hb_reactants := (λ _, true) <$> reactants;
       hb_products := (λ mp, bool_decide (0 < size mp)) <$> bond_mapping rxn |} in
  let mappings : gmap string (list Z) :=
    <["bond" := bond_mapping_as_list rxn]>
      {["atom" := atom_mapping_as_list rxn]} in
  create_rxn_graph reactants products mappings has_bonds ntypes "ft".

(** [for nt in feats: batched_feats[nt] = torch.cat([ft[nt] for ft in reaction_feats])] *)
Fixpoint batch_feats (reaction_feats : list (dict (Tensor R)))
    (ntypes : list string) (batched_feats : dict (Tensor R))
    : result (dict (Tensor R)) :=
  match ntypes with
  | [] => Ok batched_feats
  | nt :: ntypes' =>
      fts ← mapM (λ ft, dict_get ft nt) reaction_feats;
      ft ← cat fts;
      batch_feats reaction_feats ntypes' (dict_set nt ft batched_feats)
  end.

(** From [dgl.unbatch] on: the reaction graphs of the working graph, batched. *)
Definition rxn_graphs_of (graph : Graph R) (feats : dict (Tensor R))
    (reactions : list Reaction) : result (Graph R * dict (Tensor R)) :=
  let graphs := unbatch graph in
  rs ← mapM (rxn_graph_of graphs (dict_keys feats)) reactions;
  batched_graph ← batch (fst <$> rs);
  batched_feats ← batch_feats (snd <$> rs) (dict_keys feats) [];
  Ok (batched_graph, batched_feats).

Definition mol_graph_to_rxn_graph (graph : Graph R) (feats : dict (Tensor R))
    (reactions : list Reaction)
    : Graph R * result (Graph R * dict (Tensor R)) :=
  match graph_to cuda_count graph (device_str (cuda 0)) with
  | Raise e => (graph, Raise e)
  | Ok (same_object, graph0) =>
      let '(graph1, assigned) := assign_feats graph0 feats in
      (if same_object then graph1 else graph,
       _ ← assigned;
       rxn_graphs_of graph1 feats reactions)
  end.

(** ** [GatedGCNReactionNetwork]

    The layers are attributes of the parent class [GatedGCNMol], defined
    outside this file: they are parameters here, any function that may
    raise. *)

Definition Norm : Type := option (Tensor R).
Definition GatedLayer : Type :=
  Graph R → dict (Tensor R) → Norm → Norm → result (dict (Tensor R)).

Variable embedding : dict (Tensor R) → result (dict (Tensor R)).
Variable gated_layers : list GatedLayer.
Variable readout_layer : Graph R → dict (Tensor R) → result (Tensor R).
Variable fc_layers : list (Tensor R → result (Tensor R)).

(** [for layer in self.gated_layers: feats = layer(graph, feats, norm_atom, norm_bond)] *)
Fixpoint run_gated (layers : list GatedLayer) (graph : Graph R)
    (feats : dict (Tensor R)) (norm_atom norm_bond : Norm)
    : result (dict (Tensor R)) :=
  match layers with
  | [] => Ok feats
  | layer :: layers' =>
      feats ← layer graph feats norm_atom norm_bond;
      run_gated layers' graph feats norm_atom norm_bond
  end.

(** [for layer in self.fc_layers: feats = layer(feats)] *)
Fixpoint run_fc (layers : list (Tensor R → result (Tensor R))) (feats : Tensor R)
    : result (Tensor R) :=
  match layers with
  | [] => Ok feats
  | layer :: layers' => feats ← layer feats; run_fc layers' feats
  end.

Definition feature_before_fc (graph : Graph R) (feats : dict (Tensor R))
    (reactions : list Reaction) (norm_atom norm_bond : Norm)
    : Graph R * result (Tensor R) :=
  match feats ← embedding feats;
        run_gated gated_layers graph feats norm_atom norm_bond with
  | Raise e => (graph, Raise e)
  | Ok feats =>
      let '(graph_after, built) := mol_graph_to_rxn_graph graph feats reactions in
      (graph_after, '(graph, feats) ← built; readout_layer graph feats)
  end.

Definition forward (graph : Graph R) (feats : dict (Tensor R))
    (reactions : list Reaction) (norm_atom norm_bond : Norm)
    : Graph R * result (Tensor R) :=
  match feats ← embedding feats;
        run_gated gated_layers graph feats norm_atom norm_bond with
  | Raise e => (graph, Raise e)
  | Ok feats =>
      let '(graph_after, built) := mol_graph_to_rxn_graph graph feats reactions in
      (graph_after,
       '(graph, feats) ← built;
       feats ← readout_layer graph feats;
       run_fc fc_layers feats)
  end.

Definition _split_batched_output (graph : Graph R) (value : Tensor R)
    : result (list (Tensor R)) :=
  let nbonds := batch_num_nodes graph "bond" in
  split_tensor value nbonds.

(** The loop of [feature_at_each_layer] over the gated layers. *)
Fixpoint trace_gated (layers : list GatedLayer) (graph : Graph R)
    (feats : dict (Tensor R)) (norm_atom norm_bond : Norm)
    (layer_idx : nat) (all_feats : gmap nat (list (Tensor R)))
    : result (gmap nat (list (Tensor R))) :=
  match layers with
  | [] => Ok all_feats
  | layer :: layers' =>
      feats ← layer graph feats norm_atom norm_bond;
      bond ← dict_get feats "bond";
      fts ← _split_batched_output graph bond;
      trace_gated layers' graph feats norm_atom norm_bond
        (layer_idx + 1) (<[layer_idx := fts]> all_feats)
  end.

Definition feature_at_each_layer (graph : Graph R) (feats : dict (Tensor R))
    (reactions : list Reaction) (norm_atom norm_bond : Norm)
    : result (gmap nat (list (Tensor R))) :=
  let layer_idx := 0 in
  let all_feats : gmap nat (list (Tensor R)) := ∅ in
  feats ← embedding feats;
  bond ← dict_get feats "bond";
  fts ← _split_batched_output graph bond;
  let all_feats := <[layer_idx := fts]> all_feats in
  let layer_idx := layer_idx + 1 in
  trace_gated gated_layers graph feats norm_atom norm_bond layer_idx all_feats.
End Builder.

(** ** Frames and contracts used in the statements *)

(** [g] and [h] are the same graph except, possibly, for the feature ["ft"]
    of the node types in [K]. *)
Definition same_but_ft {R} (K : list string) (g h : Graph R) : Prop :=
  gdevice g = gdevice h ∧ gntypes g = gntypes h ∧ mols g = mols h
  ∧ ∀ nt key, ¬ (key = "ft" ∧ nt ∈ K) → ndata g !! (nt, key) = ndata h !! (nt, key).

(** [feats] has, for every node type, as many rows as [g] has nodes of that
    type. *)
Definition aligned {R} (g : Graph R) (feats : dict (Tensor R)) : Prop :=
  ∀ nt ft, dict_get feats nt = Ok ft → nrows ft = num_nodes_of g nt.

(** Modelled from the spec: the readout layer belongs to the parent class
    [GatedGCNMol], which is not part of the sources.  Section 4.2 says that it
    pools per graph, turning the node rows into one fixed-size vector per
    graph in the batch, and that it must use the reaction graph's node
    counts.  So it gives one row per graph; and for graphs batched together
    with their features, each with as many feature rows as it has nodes, the
    row of a graph is the one the readout gives for that graph alone, in
    batch order. *)
Definition readout_contract {R}
    (readout_layer : Graph R → dict (Tensor R) → result (Tensor R)) : Prop :=
  (∀ graph feats t, readout_layer graph feats = Ok t → nrows t = length (mols graph))
  ∧ ∀ (gfs : list (Graph R * dict (Tensor R))) ntypes bg bf t,
      Forall (λ gf, length (mols gf.1) = 1 ∧ aligned gf.1 gf.2) gfs →
      batch (fst <$> gfs) = Ok bg →
      batch_feats (snd <$> gfs) ntypes [] = Ok bf →
      readout_layer bg bf = Ok t →
      Forall2 (λ gf row, ∃ pooled, readout_layer gf.1 gf.2 = Ok pooled
                                   ∧ rows pooled = [row])
        gfs (rows t).

(** Modelled from the spec: the fully connected layers of [GatedGCNMol] are
    ordinary feed-forward transforms with no graph-structure dependency
    (section 4.2): layer by layer, every row of the output is a function of
    the matching row of the input. *)
Definition fc_contract {R} (fs : list (list R → list R))
    (fc_layers : list (Tensor R → result (Tensor R))) : Prop :=
  Forall2 (λ f layer, ∀ t t', layer t = Ok t' → rows t' = f <$> rows t) fs fc_layers.

(** A row through the functions of the layers, in order. *)
Definition fc_row {R} (fs : list (list R → list R)) (row : list R) : list R :=
  foldl (λ v f, f v) row fs.

(** The descriptor fits the batch: its reactant has one global node, and its
    maps have one entry per atom and per bond of the reactant. *)
Definition reaction_fits {R} (graph : Graph R) (rxn : Reaction) : Prop :=
  ∀ i m, reactants rxn = [i] → py_index (mols graph) i = Ok m →
    num_nodes m "global" = 1
    ∧ length (atom_mapping_as_list rxn) = num_nodes m "atom"
    ∧ length (bond_mapping_as_list rxn) = num_nodes m "bond".

(** ** The features after the embedding and the first [i] gated layers *)

Definition layer_feats {R} (embedding : dict (Tensor R) → result (dict (Tensor R)))
    (gated_layers : list (@GatedLayer R)) (graph : Graph R) (feats : dict (Tensor R))
    (norm_atom norm_bond : @Norm R) (i : nat) : result (dict (Tensor R)) :=
  feats ← embedding feats;
  run_gated (take i gated_layers) graph feats norm_atom norm_bond.

(** ** The zero law of a reaction that changes nothing

    A tensor all of whose entries are zero, and the law itself: the reactant
    is also the only product, and every node type of [ntypes] gets a zero
    reaction feature. *)

Definition zero_tensor `{Scalar R} (t : Tensor R) : Prop :=
  Forall (Forall (λ x, x = tzero)) (rows t).

Definition zero_law `{Scalar R} (r : Graph R) (mappings : gmap string (list Z))
    (has_bonds : HasBonds) (ntypes : list string) (ft_name : string) : Prop :=
  ∃ feats,
    create_rxn_graph [r] [r] mappings has_bonds ntypes ft_name = Ok (r, feats)
    ∧ ∀ nt, nt ∈ ntypes → ∃ ft, dict_get feats nt = Ok ft ∧ zero_tensor ft.

(** The identity permutation of [n] positions. *)
Definition identity_map (n : nat) : list Z := Z.of_nat <$> seq 0 n.

(** ** [parse_args] of the training script, after [parser.parse_args()]

    The fields that the function reads or writes once the command line is
    parsed; Python integers are unbounded. *)

Record Args : Type := mkArgs {
  gated_num_layers : Z;
  gated_hidden_size : list Z;
  fc_num_layers : Z;
  fc_hidden_size : list Z
}.

(** [l * n] on a Python list: empty for [n <= 0]. *)
Definition py_repeat {A} (l : list A) (n : Z) : list A :=
  mjoin (replicate (Z.to_nat n) l).

(** [len(l) == n] for a Python integer [n] *)
Definition len_is {A} (l : list A) (n : Z) : bool :=
  bool_decide (Z.of_nat (length l) = n).

Definition parse_args (args : Args) : result Args :=
  gated ←
    (if len_is (gated_hidden_size args) 1
     then Ok (py_repeat (gated_hidden_size args) (gated_num_layers args))
     else
       _ ← py_assert (len_is (gated_hidden_size args) (gated_num_layers args));
       Ok (gated_hidden_size args));
  fc ←
    (if len_is (fc_hidden_size args) 1
     then
       last ← py_index gated (-1);
       let val := (2 * last)%Z in
       Ok ((λ i, (val `div` 2 ^ i) `max` 8)%Z <$> seqZ 0 (fc_num_layers args))
     else
       _ ← py_assert (len_is (fc_hidden_size args) (fc_num_layers args));
       Ok (fc_hidden_size args));
  Ok (mkArgs (gated_num_layers args) gated (fc_num_layers args) fc).

(** ** [main] of the prediction script: "in case some entry fail"

    [predictions] holds one value per entry that did not fail; [failed] has
    one flag per entry.  The loop puts [None] at the failed entries. *)

Fixpoint fill_failed {A} (predictions : list A) (failed : list bool) (idx : nat)
    (pred : list (option A)) : result (list (option A)) :=
  match failed with
  | [] => Ok pred
  | flag :: failed' =>
      if flag then fill_failed predictions failed' idx (pred ++ [None])
      else
        x ← py_index predictions (Z.of_nat idx);
        fill_failed predictions failed' (idx + 1) (pred ++ [Some x])
  end.

Definition align_predictions {A} (predictions : list A) (failed : list bool)
    : result (list (option A)) :=
  if decide (length predictions ≠ length failed)
  then fill_failed predictions failed 0 []
  else Ok (Some <$> predictions).

(** The number of entries that did not fail. *)
Definition succeeded (failed : list bool) : nat :=
  length (filter (λ flag, flag = false) failed).

(** ** A worked batch: H2O -> OH + H

    Three molecules in one batch: water (3 atoms, 2 bonds), hydroxyl (2 atoms,
    1 bond) and a lone hydrogen, which has no bond and carries one factitious
    bond node.  Features are integer valued and two wide. *)

Module Example.
Definition counts (atoms bonds globals : nat) : gmap string nat :=
  {[ "atom" := atoms; "bond" := bonds; "global" := globals ]}.

Definition water : Mol := mkMol (counts 3 2 1) [(0, 0); (1, 0); (1, 1); (2, 1)].
Definition hydroxyl : Mol := mkMol (counts 2 1 1) [(0, 0); (1, 0)].
Definition hydrogen : Mol := mkMol (counts 1 1 1) [].

Definition batch0 (dev : Device) : Graph Z :=
  mkGraph dev ["atom"; "bond"; "global"] [water; hydroxyl; hydrogen] ∅.

Definition feats0 (dev : Device) : dict (Tensor Z) :=
  [("atom", mkTensor dev 2 [[1; 2]; [3; 4]; [5; 6]; [10; 20]; [30; 40]; [50; 60]]%Z);
   ("bond", mkTensor dev 2 [[1; 1]; [2; 2]; [7; 7]; [0; 0]]%Z);
   ("global", mkTensor dev 2 [[1; 0]; [2; 0]; [3; 0]]%Z)].

(** Water gives hydroxyl and hydrogen; its second bond breaks. *)
Definition dissociation : Reaction :=
  mkReaction [0%Z] [1%Z; 2%Z] [{[0 := 0]}; ∅] [0; 1; 2]%Z [0; 1]%Z.

(** A descriptor that names two reactants. *)
Definition two_reactants : Reaction :=
  mkReaction [1%Z; 2%Z] [0%Z] [{[0 := 0]}] [0; 1; 2]%Z [0; 1]%Z.

(** The batch with the features attached, and its molecules. *)
Definition working : Graph Z := (assign_feats (batch0 (cuda 0)) (feats0 (cuda 0))).1.
Definition molecules : list (Graph Z) := unbatch working.
Definition reactant : Graph Z := component working 0 water.
Definition product1 : Graph Z := component working 1 hydroxyl.
Definition product2 : Graph Z := component working 2 hydrogen.

Definition mappings0 : gmap string (list Z) :=
  <["bond" := [0; 1]%Z]> {["atom" := [0; 1; 2]%Z]}.
Definition has_bonds0 : HasBonds := mkHasBonds [true] [true; false].

(** Layers to run the network on the batch: an embedding and gated layers
    that keep the features, a readout that sums each graph's global rows, and
    a fully connected layer that sums each row. *)
Definition embedding0 (feats : dict (Tensor Z)) : result (dict (Tensor Z)) :=
  Ok feats.
Definition gated0 : @GatedLayer Z := λ graph feats norm_atom norm_bond, Ok feats.
Definition readout0 (graph : Graph Z) (feats : dict (Tensor Z)) : result (Tensor Z) :=
  glob ← dict_get feats "global";
  chunks ← split glob (batch_num_nodes graph "global");
  Ok (mkTensor (device glob) (ncols glob) (chunks ≫= (rows ∘ sum_dim0))).
Definition fc0 (t : Tensor Z) : result (Tensor Z) :=
  Ok (mkTensor (device t) 1 ((λ r, [foldr Z.add 0%Z r]) <$> rows t)).

(** A second batch, with a lone oxygen as fourth molecule, and a second
    reaction on it: OH -> O + H, whose only bond breaks. *)
Definition oxygen : Mol := mkMol (counts 1 1 1) [].

Definition batch1 (dev : Device) : Graph Z :=
  mkGraph dev ["atom"; "bond"; "global"] [water; hydroxyl; hydrogen; oxygen] ∅.

Definition feats1 (dev : Device) : dict (Tensor Z) :=
  [("atom", mkTensor dev 2
              [[1; 2]; [3; 4]; [5; 6]; [10; 20]; [30; 40]; [50; 60]; [70; 80]]%Z);
   ("bond", mkTensor dev 2 [[1; 1]; [2; 2]; [7; 7]; [0; 0]; [0; 0]]%Z);
   ("global", mkTensor dev 2 [[1; 0]; [2; 0]; [3; 0]; [5; 0]]%Z)].

Definition hydroxyl_dissociation : Reaction :=
  mkReaction [1%Z] [3%Z; 2%Z] [∅; ∅] [0; 1]%Z [0%Z].
End Example.

(** * Properties *)

(** ** The exception monad, lists and dicts *)

Lemma bind_Ok {A B} (m : result A) (f : A → result B) b :
  m ≫= f = Ok b ↔ ∃ a, m = Ok a ∧ f a = Ok b.
Proof.
  destruct m as [a|e]; simpl; split.
  - intros Hf. by exists a.
  - by intros (a' & [= <-] & Hf).
  - done.
  - by intros (a' & ? & _).
Qed.

Lemma bind_raises {A B} (m : result A) (f : A → result B) :
  raises m → raises (m ≫= f).
Proof. intros [e ->]. by exists e. Qed.

Lemma bind_raises_inv {A B} (m : result A) (f : A → result B) :
  raises (m ≫= f) → raises m ∨ ∃ a, m = Ok a ∧ raises (f a).
Proof. destruct m as [a|e]; [right|left]; [by exists a | by exists e]. Qed.

Lemma not_Ok_raises {A} (m : result A) : (∀ a, m ≠ Ok a) ↔ raises m.
Proof.
  split.
  - destruct m as [a|e]; [intros Hm; by destruct (Hm a) | by exists e].
  - by intros [e ->] a.
Qed.

Lemma mapM_Ok {A B} (f : A → result B) l k :
  mapM f l = Ok k ↔ Forall2 (λ x y, f x = Ok y) l k.
Proof.
  revert k. induction l as [|x l IH]; intros k; simpl.
  - split; [intros [= <-]; constructor | by inversion 1].
  - split.
    + intros (y & Hy & (k' & Hk' & [= <-])%bind_Ok)%bind_Ok.
      constructor; [done | by apply IH].
    + inversion 1 as [|? y ? k' Hy Hk']; subst.
      apply bind_Ok. exists y. split; [done|].
      apply bind_Ok. exists k'. split; [by apply IH | done].
Qed.

Lemma mapM_Ok_length {A B} (f : A → result B) l k :
  mapM f l = Ok k → length k = length l.
Proof. intros Hk%mapM_Ok. by rewrite (Forall2_length _ _ _ Hk). Qed.

Lemma mapM_raises {A B} (f : A → result B) l x :
  x ∈ l → raises (f x) → raises (mapM f l).
Proof.
  intros Hx Hf. apply not_Ok_raises. intros k Hk%mapM_Ok.
  destruct (proj1 (list_elem_of_lookup l x) Hx) as [i Hi].
  destruct (Forall2_lookup_l _ _ _ _ _ Hk Hi) as (y & _ & Hy).
  destruct Hf as [e He]. congruence.
Qed.

Lemma py_index_Ok {A} (l : list A) (i : Z) x :
  py_index l i = Ok x → x ∈ l.
Proof.
  unfold py_index. case_bool_decide; [|done].
  destruct (l !! _) eqn:Hl; [|done]. intros [= <-].
  by eapply list_elem_of_lookup_2.
Qed.

Lemma py_index_nat {A} (l : list A) (i : nat) x :
  l !! i = Some x → py_index l (Z.of_nat i) = Ok x.
Proof.
  intros Hi. pose proof (lookup_lt_Some _ _ _ Hi). unfold py_index.
  rewrite (bool_decide_eq_false_2 (Z.of_nat i < 0)%Z) by lia.
  rewrite bool_decide_eq_true_2 by lia.
  by rewrite Nat2Z.id, Hi.
Qed.

Lemma dict_get_set_eq {V} (d : dict V) k v : dict_get (dict_set k v d) k = Ok v.
Proof.
  induction d as [|[k' v'] d IH]; simpl.
  - by rewrite decide_True.
  - destruct (decide (k' = k)) as [->|Hne]; simpl.
    + by rewrite decide_True.
    + by rewrite decide_False.
Qed.

Lemma dict_get_set_ne {V} (d : dict V) k k' v :
  k ≠ k' → dict_get (dict_set k v d) k' = dict_get d k'.
Proof.
  intros Hne. induction d as [|[k0 v0] d IH]; simpl.
  - by rewrite decide_False.
  - destruct (decide (k0 = k)) as [->|Hne0]; simpl.
    + by rewrite !decide_False.
    + by rewrite IH.
Qed.

Lemma dict_keys_set {V} (d : dict V) k v k' :
  k' ∈ dict_keys (dict_set k v d) ↔ k' = k ∨ k' ∈ dict_keys d.
Proof.
  unfold dict_keys. induction d as [|[k0 v0] d IH]; simpl.
  - rewrite elem_of_cons, elem_of_nil. tauto.
  - destruct (decide (k0 = k)) as [->|Hne]; simpl.
    + rewrite !elem_of_cons. tauto.
    + rewrite !elem_of_cons, IH. tauto.
Qed.

(** ** The loop over node types *)

Section CreateRxnGraph.
Context `{Scalar R}.
Implicit Types (step : string → result (Tensor R)) (ntypes : list string).

Lemma rxn_feats_Ok step ntypes acc feats :
  rxn_feats step ntypes acc = Ok feats →
  (∀ nt, nt ∈ ntypes → ∃ t, step nt = Ok t ∧ dict_get feats nt = Ok t)
  ∧ (∀ nt, nt ∉ ntypes → dict_get feats nt = dict_get acc nt).
Proof.
  revert acc. induction ntypes as [|nt0 ntypes IH]; intros acc; simpl.
  - intros [= <-]. split; [by intros nt ?%elem_of_nil | done].
  - intros (t & Ht & Hrest)%bind_Ok.
    destruct (IH _ Hrest) as [IHin IHout]. split.
    + intros nt Hnt. destruct (decide (nt ∈ ntypes)) as [Hin|Hnin]; [by apply IHin|].
      apply elem_of_cons in Hnt as [->|?]; [|done].
      exists t. split; [done|]. rewrite (IHout _ Hnin). apply dict_get_set_eq.
    + intros nt [Hne Hnin]%not_elem_of_cons.
      rewrite (IHout _ Hnin). by apply dict_get_set_ne.
Qed.

Lemma rxn_feats_total step ntypes acc :
  (∀ nt, nt ∈ ntypes → ∃ t, step nt = Ok t) →
  ∃ feats, rxn_feats step ntypes acc = Ok feats.
Proof.
  revert acc. induction ntypes as [|nt0 ntypes IH]; intros acc Hall; simpl.
  - by eexists.
  - destruct (Hall nt0) as [t Ht]; [by left|]. rewrite Ht. simpl.
    apply IH. intros nt Hnt. apply Hall. by right.
Qed.

Lemma rxn_feats_raises step ntypes acc nt :
  nt ∈ ntypes → raises (step nt) → raises (rxn_feats step ntypes acc).
Proof.
  intros Hnt [e He]. apply not_Ok_raises. intros feats Hfeats.
  destruct (rxn_feats_Ok _ _ _ _ Hfeats) as [Hin _].
  destruct (Hin _ Hnt) as (t & Ht & _). congruence.
Qed.

Lemma create_rxn_graph_one (r : Graph R) products mappings has_bonds ntypes ft_name :
  create_rxn_graph [r] products mappings has_bonds ntypes ft_name
  = (feats ← rxn_feats (rxn_ft [r] products mappings has_bonds ft_name) ntypes [];
     Ok (r, feats)).
Proof. reflexivity. Qed.

Lemma create_rxn_graph_arity (reactants products : list (Graph R))
    mappings has_bonds ntypes ft_name :
  length reactants ≠ 1 →
  create_rxn_graph reactants products mappings has_bonds ntypes ft_name
  = Raise AssertionError.
Proof.
  intros Hlen. unfold create_rxn_graph.
  by rewrite bool_decide_eq_false_2.
Qed.

Lemma create_rxn_graph_raises (reactants products : list (Graph R))
    mappings has_bonds ntypes ft_name nt :
  nt ∈ ntypes →
  raises (rxn_ft reactants products mappings has_bonds ft_name nt) →
  raises (create_rxn_graph reactants products mappings has_bonds ntypes ft_name).
Proof.
  intros Hnt Hstep. unfold create_rxn_graph.
  destruct (py_assert _) as [[]|e]; [|by exists e]. simpl.
  destruct (py_index reactants 0) as [g|e]; [|by exists e]. simpl.
  by apply bind_raises, (rxn_feats_raises _ _ _ nt).
Qed.
End CreateRxnGraph.

(** ** Arity of a reaction *)

Section Arity.
Context `{Scalar R}.

Lemma rxn_graph_of_arity (graphs : list (Graph R)) ntypes rxn :
  length (reactants rxn) ≠ 1 → raises (rxn_graph_of graphs ntypes rxn).
Proof.
  intros Hlen. unfold rxn_graph_of.
  destruct (mapM _ (reactants rxn)) as [rs|e] eqn:Hrs; [|by exists e]. simpl.
  destruct (mapM _ (products rxn)) as [ps|e]; [|by exists e]. simpl.
  exists AssertionError. apply create_rxn_graph_arity.
  by rewrite (mapM_Ok_length _ _ _ Hrs).
Qed.

Lemma mol_graph_to_rxn_graph_raises cuda_count (graph : Graph R) feats reactions rxn :
  rxn ∈ reactions →
  (∀ graphs, raises (rxn_graph_of graphs (dict_keys feats) rxn)) →
  raises (snd (mol_graph_to_rxn_graph cuda_count graph feats reactions)).
Proof.
  intros Hin Hrxn. unfold mol_graph_to_rxn_graph.
  destruct (graph_to _ _ _) as [[same graph0]|e]; [|by exists e].
  destruct (assign_feats graph0 feats) as [graph1 [[]|e]]; simpl; [|by exists e].
  unfold rxn_graphs_of. apply bind_raises. by eapply mapM_raises.
Qed.
End Arity.

(** C5. A reaction descriptor that names more than one reactant makes the
    builder fail: [create_rxn_graph] raises [AssertionError] at its first line
    for every list of reactants of that length, whatever the other arguments,
    so neither the loop body nor [mol_graph_to_rxn_graph] ever returns a
    result computed from the first reactant alone. *)
Theorem arity_violation_aborts `{Scalar R} cuda_count (graph : Graph R) feats
    reactions rxn :
  rxn ∈ reactions →
  1 < length (reactants rxn) →
  (∀ rs ps mappings has_bonds ntypes ft_name,
     length rs = length (reactants rxn) →
     create_rxn_graph rs ps mappings has_bonds ntypes ft_name = Raise AssertionError)
  ∧ (∀ graphs ntypes, raises (rxn_graph_of graphs ntypes rxn))
  ∧ raises (snd (mol_graph_to_rxn_graph cuda_count graph feats reactions)).
Proof.
  intros Hin Hlen. split; [|split].
  - intros rs ps mappings has_bonds ntypes ft_name Hrs.
    apply create_rxn_graph_arity. lia.
  - intros graphs ntypes. apply rxn_graph_of_arity. lia.
  - apply (mol_graph_to_rxn_graph_raises _ _ _ _ rxn); [done|].
    intros graphs. apply rxn_graph_of_arity. lia.
Qed.

Lemma arity_violation_aborts_witness :
  let rxn := Example.two_reactants in
  (rxn ∈ [Example.dissociation; rxn] ∧ 1 < length (reactants rxn))
  ∧ (∀ graphs ntypes, raises (rxn_graph_of (R:=Z) graphs ntypes rxn))
  ∧ raises (snd (mol_graph_to_rxn_graph 1 (Example.batch0 (cuda 0))
                   (Example.feats0 (cuda 0)) [Example.dissociation; rxn])).
Proof.
  assert (Hin : Example.two_reactants ∈ [Example.dissociation; Example.two_reactants])
    by (right; left).
  assert (Hlen : 1 < length (reactants Example.two_reactants)) by (simpl; lia).
  split; [done|].
  apply (arity_violation_aborts 1 (Example.batch0 (cuda 0)) (Example.feats0 (cuda 0))
           _ _ Hin Hlen).
Defined.

(** ** Reordering and difference *)

Section Diff.
Context `{Scalar R}.

Lemma py_index_in_range {A} (l : list A) (i : Z) :
  (- Z.of_nat (length l) ≤ i < Z.of_nat (length l))%Z → ∃ x, py_index l i = Ok x.
Proof.
  intros Hi. unfold py_index.
  rewrite bool_decide_eq_true_2 by (case_bool_decide; lia).
  destruct (l !! _) as [x|] eqn:Hl; [by exists x|].
  apply lookup_ge_None in Hl. case_bool_decide; lia.
Qed.

Lemma mapM_py_index_total {A} (l : list A) (idx : list Z) :
  Forall (λ i, (- Z.of_nat (length l) ≤ i < Z.of_nat (length l))%Z) idx →
  ∃ sel, mapM (py_index l) idx = Ok sel.
Proof.
  induction 1 as [|i idx Hi _ [sel IH]]; simpl; [by eexists|].
  destruct (py_index_in_range l i Hi) as [x ->]. rewrite IH. by eexists.
Qed.

Lemma expand_id {A} (n : nat) (l : list A) : length l = n → expand n l = l.
Proof. destruct l as [|x [|y l]]; simpl; try done. by intros <-. Qed.

Lemma index_rows_no_assert (t : Tensor R) idx :
  index_rows t idx ≠ Raise AssertionError.
Proof.
  unfold index_rows. destruct (mapM _ idx) as [sel|e] eqn:Hsel; [done|]. simpl.
  intros [= ->]. revert Hsel. clear. induction idx as [|i idx IH]; simpl; [done|].
  destruct (py_index (rows t) i) as [x|e] eqn:Hx; simpl.
  - destruct (mapM _ idx); [done|]. simpl. intros [= ->]. by apply IH.
  - intros [= ->]. revert Hx. unfold py_index.
    case_bool_decide; [|done]. by destruct (rows t !! _).
Qed.

Lemma sub_no_assert (a b : Tensor R) : sub a b ≠ Raise AssertionError.
Proof.
  unfold sub. case_decide; [|done].
  by destruct (broadcast_dim (nrows a) (nrows b)), (broadcast_dim (ncols a) (ncols b)).
Qed.

Lemma sub_same_shape (a b : Tensor R) :
  device a = device b → nrows a = nrows b → ncols a = ncols b →
  sub a b = Ok (mkTensor (device a) (ncols a)
                  (zip_with (λ ra rb, row_sub (expand (ncols a) ra) (expand (ncols a) rb))
                     (rows a) (rows b))).
Proof.
  intros Hdev Hrows Hcols. unfold sub, broadcast_dim.
  rewrite decide_True by done. rewrite !decide_True by done.
  by rewrite !expand_id.
Qed.

(** With a map of the right length the assertion passes and the body goes on
    to index and subtract. *)
Lemma diff_ft_checked mappings nt (reactants_ft products_ft : Tensor R) idx :
  nt ≠ "global" → mappings !! nt = Some idx →
  diff_ft mappings nt reactants_ft products_ft
  = if decide (nrows products_ft = length idx)
    then products_ft' ← index_rows products_ft idx; sub products_ft' reactants_ft
    else Raise AssertionError.
Proof.
  intros Hnt Hidx. unfold diff_ft. rewrite decide_False by done. rewrite Hidx.
  case_decide.
  - by rewrite bool_decide_eq_true_2.
  - by rewrite bool_decide_eq_false_2.
Qed.

Lemma rxn_ft_gathered (reactants products : list (Graph R)) mappings has_bonds
    ft_name nt reactants_ft products_ft :
  gather_ft reactants products has_bonds ft_name nt = Ok (reactants_ft, products_ft) →
  rxn_ft reactants products mappings has_bonds ft_name nt
  = diff_ft mappings nt reactants_ft products_ft.
Proof. intros Hg. unfold rxn_ft. by rewrite Hg. Qed.
End Diff.

(** C4. For the atom and the bond type, once the products' rows of that type
    are concatenated ([gather_ft]), a correspondence map of another length
    makes the loop body raise [AssertionError], and with it
    [create_rxn_graph] raises whenever the type is among [ntypes]: nothing is
    truncated or padded.  With a map of the same length the assertion passes:
    the body is the reordering followed by the difference, and whatever it
    then returns or raises is not the assertion. *)
Theorem mapping_length_checked `{Scalar R} (reactants products : list (Graph R))
    mappings has_bonds ntypes ft_name nt idx reactants_ft products_ft :
  nt = "atom" ∨ nt = "bond" →
  mappings !! nt = Some idx →
  gather_ft reactants products has_bonds ft_name nt = Ok (reactants_ft, products_ft) →
  (length idx ≠ nrows products_ft →
     rxn_ft reactants products mappings has_bonds ft_name nt = Raise AssertionError
     ∧ (nt ∈ ntypes →
        raises (create_rxn_graph reactants products mappings has_bonds ntypes ft_name)))
  ∧ (length idx = nrows products_ft →
     rxn_ft reactants products mappings has_bonds ft_name nt
     = (products_ft' ← index_rows products_ft idx; sub products_ft' reactants_ft)
     ∧ rxn_ft reactants products mappings has_bonds ft_name nt ≠ Raise AssertionError).
Proof.
  intros Hnt Hidx Hg.
  assert (nt ≠ "global") as Hng by (by destruct Hnt as [-> | ->]).
  rewrite (rxn_ft_gathered _ _ _ _ _ _ _ _ Hg), (diff_ft_checked _ _ _ _ _ Hng Hidx).
  split; intros Hlen.
  - rewrite decide_False by done. split; [done|]. intros Hin.
    apply (create_rxn_graph_raises _ _ _ _ _ _ nt Hin). exists AssertionError.
    rewrite (rxn_ft_gathered _ _ _ _ _ _ _ _ Hg), (diff_ft_checked _ _ _ _ _ Hng Hidx).
    by rewrite decide_False.
  - rewrite decide_True by done. split; [done|].
    destruct (index_rows products_ft idx) as [p|e] eqn:Hp; simpl.
    + apply sub_no_assert.
    + intros [= ->]. by apply (index_rows_no_assert products_ft idx).
Qed.

Lemma mapping_length_checked_witness :
  let reactants_ft := mkTensor (cuda 0) 2 [[1; 1]; [2; 2]]%Z in
  let products_ft := mkTensor (cuda 0) 2 [[7; 7]; [0; 0]]%Z in
  (Example.mappings0 !! "bond" = Some [0; 1]%Z
   ∧ gather_ft (take 1 Example.molecules) (drop 1 Example.molecules)
       Example.has_bonds0 "ft" "bond" = Ok (reactants_ft, products_ft))
  ∧ rxn_ft (take 1 Example.molecules) (drop 1 Example.molecules)
      Example.mappings0 Example.has_bonds0 "ft" "bond"
    = (products_ft' ← index_rows products_ft [0; 1]%Z; sub products_ft' reactants_ft).
Proof.
  assert (Hidx : Example.mappings0 !! "bond" = Some [0; 1]%Z)
    by (vm_compute; reflexivity).
  assert (Hg : gather_ft (take 1 Example.molecules) (drop 1 Example.molecules)
                 Example.has_bonds0 "ft" "bond"
               = Ok (mkTensor (cuda 0) 2 [[1; 1]; [2; 2]]%Z,
                     mkTensor (cuda 0) 2 [[7; 7]; [0; 0]]%Z))
    by (vm_compute; reflexivity).
  split; [split; [exact Hidx | exact Hg]|].
  exact (proj1 (proj2 (mapping_length_checked _ _ _ _ ["atom"; "bond"; "global"]
                         _ _ _ _ _ (or_intror eq_refl) Hidx Hg) eq_refl)).
Defined.

(** ** Concatenation and the zero row of the bond type *)

Section Padding.
Context `{Scalar R}.

Lemma length_concat_rows (ts : list (Tensor R)) :
  length (concat (rows <$> ts)) = sum_list (nrows <$> ts).
Proof.
  induction ts as [|t ts IH]; [done|].
  rewrite !fmap_cons. cbn [concat sum_list_with].
  by rewrite length_app, IH.
Qed.

Lemma cat_Ok (ts : list (Tensor R)) t :
  cat ts = Ok t →
  rows t = concat (rows <$> ts)
  ∧ Forall (λ x, device x = device t ∧ ncols x = ncols t) ts.
Proof.
  destruct ts as [|t0 ts]; simpl; [done|].
  destruct (forallb _ ts) eqn:Hall; [|done]. intros [= <-]. simpl.
  split; [done|]. constructor; [done|].
  apply Is_true_true, forallb_True in Hall.
  eapply Forall_impl; [exact Hall|]. intros x Hx.
  by apply bool_decide_unpack in Hx.
Qed.

Lemma cat_total (t0 : Tensor R) ts :
  Forall (λ x, device x = device t0 ∧ ncols x = ncols t0) ts →
  cat (t0 :: ts)
  = Ok (mkTensor (device t0) (ncols t0) (concat (rows <$> t0 :: ts))).
Proof.
  intros Hall. simpl.
  assert (forallb (compatible t0) ts = true) as ->; [|done].
  apply Is_true_true, forallb_True.
  eapply Forall_impl; [exact Hall|]. intros x Hx.
  by apply bool_decide_pack.
Qed.

Lemma py_index_0 {A} (l : list A) x : py_index l 0 = Ok x → ∃ l', l = x :: l'.
Proof.
  unfold py_index. rewrite (bool_decide_eq_false_2 (0 < 0)%Z) by lia.
  case_bool_decide; [|done]. destruct l as [|y l]; simpl; [done|].
  intros [= ->]. by exists l.
Qed.

Lemma py_index_nat_inv {A} (l : list A) (i : nat) x :
  py_index l (Z.of_nat i) = Ok x → l !! i = Some x.
Proof.
  unfold py_index. rewrite (bool_decide_eq_false_2 (Z.of_nat i < 0)%Z) by lia.
  case_bool_decide; [|done]. rewrite Nat2Z.id.
  by destruct (l !! i); intros [= ->].
Qed.

(** What [gather_ft] returns for the bond type. *)
Lemma gather_ft_bond (reactants products : list (Graph R)) has_bonds ft_name
    reactants_ft products_ft :
  gather_ft reactants products has_bonds ft_name "bond" = Ok (reactants_ft, products_ft) →
  ∃ r0 rfs pfs,
    mapM (get_ndata ft_name "bond") reactants = Ok (r0 :: rfs)
    ∧ mapM (get_ndata ft_name "bond") products = Ok pfs
    ∧ cat (r0 :: rfs) = Ok reactants_ft
    ∧ cat (compress pfs (hb_products has_bonds) ++ [new_zeros r0 1 (ncols r0)])
      = Ok products_ft.
Proof.
  unfold gather_ft.
  intros (rfs0 & Hrfs & (pfs & Hpfs & (padded & Hpad & Hcat)%bind_Ok)%bind_Ok)%bind_Ok.
  rewrite decide_True in Hpad by done.
  apply bind_Ok in Hpad as (r0 & Hr0 & [= <-]).
  apply bind_Ok in Hcat as (rf & Hrf & (pf & Hpf & [= <- <-])%bind_Ok).
  apply py_index_0 in Hr0 as [rfs ->].
  by exists r0, rfs, pfs.
Qed.

Lemma padded_rows (kept : list (Tensor R)) (r0 products_ft : Tensor R) :
  cat (kept ++ [new_zeros r0 1 (ncols r0)]) = Ok products_ft →
  rows products_ft = concat (rows <$> kept) ++ [replicate (ncols products_ft) tzero]
  ∧ nrows products_ft = sum_list (nrows <$> kept) + 1
  ∧ ncols products_ft = ncols r0 ∧ device products_ft = device r0.
Proof.
  intros [Hrows Hall]%cat_Ok.
  apply Forall_app in Hall as [_ Hz]. apply Forall_singleton in Hz as [Hdev Hcols].
  simpl in Hdev, Hcols. unfold nrows.
  rewrite Hrows, fmap_app, concat_app, length_app, length_concat_rows.
  simpl. by rewrite Hcols.
Qed.
End Padding.

(** C9. For the bond type the products' rows are those of the products that
    have bonds, followed by one zero row, whatever the reaction: the row is
    appended without a test.  So the loop body returns only with a bond map
    one longer than the rows of the bond-having products, and with a map of
    exactly that many entries (a permutation of the product bonds) it raises:
    [AssertionError] as soon as the features could be gathered. *)
Theorem zero_row_always_appended `{Scalar R} (reactants products : list (Graph R))
    mappings has_bonds ft_name pfs :
  mapM (get_ndata ft_name "bond") products = Ok pfs →
  let kept := compress pfs (hb_products has_bonds) in
  (∀ reactants_ft products_ft,
     gather_ft reactants products has_bonds ft_name "bond"
     = Ok (reactants_ft, products_ft) →
     rows products_ft
     = concat (rows <$> kept) ++ [replicate (ncols products_ft) tzero]
     ∧ nrows products_ft = sum_list (nrows <$> kept) + 1)
  ∧ (∀ ft, rxn_ft reactants products mappings has_bonds ft_name "bond" = Ok ft →
       ∃ idx, mappings !! "bond" = Some idx
              ∧ length idx = sum_list (nrows <$> kept) + 1)
  ∧ (∀ idx, mappings !! "bond" = Some idx →
       length idx = sum_list (nrows <$> kept) →
       raises (rxn_ft reactants products mappings has_bonds ft_name "bond")
       ∧ (∀ reactants_ft products_ft,
            gather_ft reactants products has_bonds ft_name "bond"
            = Ok (reactants_ft, products_ft) →
            rxn_ft reactants products mappings has_bonds ft_name "bond"
            = Raise AssertionError)).
Proof.
  intros Hpfs kept.
  assert (Hgather : ∀ reactants_ft products_ft,
     gather_ft reactants products has_bonds ft_name "bond"
     = Ok (reactants_ft, products_ft) →
     rows products_ft
     = concat (rows <$> kept) ++ [replicate (ncols products_ft) tzero]
     ∧ nrows products_ft = sum_list (nrows <$> kept) + 1).
  { intros rf pf (r0 & rfs & pfs' & _ & Hpfs' & _ & Hcat)%gather_ft_bond.
    assert (pfs' = pfs) as -> by congruence.
    by destruct (padded_rows _ _ _ Hcat) as (? & ? & _). }
  assert (Hlen : ∀ ft,
     rxn_ft reactants products mappings has_bonds ft_name "bond" = Ok ft →
     ∃ idx, mappings !! "bond" = Some idx
            ∧ length idx = sum_list (nrows <$> kept) + 1).
  { intros ft Hft. unfold rxn_ft in Hft.
    apply bind_Ok in Hft as ([rf pf] & Hg & Hdiff).
    destruct (Hgather _ _ Hg) as [_ Hn].
    destruct (mappings !! "bond") as [idx|] eqn:Hidx.
    - exists idx. split; [done|].
      rewrite (diff_ft_checked _ _ _ _ idx) in Hdiff by done.
      case_decide; [lia | done].
    - unfold diff_ft in Hdiff. rewrite decide_False, Hidx in Hdiff by done. done. }
  split; [done|]. split; [done|]. intros idx Hidx Hshort. split.
  - apply not_Ok_raises. intros ft (idx' & Hidx' & Hlong)%Hlen.
    assert (idx' = idx) as -> by congruence. lia.
  - intros rf pf Hg. destruct (Hgather _ _ Hg) as [_ Hn].
    rewrite (rxn_ft_gathered _ _ _ _ _ _ _ _ Hg).
    rewrite (diff_ft_checked _ _ _ _ idx) by done.
    rewrite decide_False by lia. done.
Qed.

Lemma zero_row_always_appended_witness :
  let pfs := [mkTensor (cuda 0) 2 [[7; 7]]%Z; mkTensor (cuda 0) 2 [[0; 0]]%Z] in
  let permutation : gmap string (list Z) := {["bond" := [0%Z]]} in
  mapM (get_ndata "ft" "bond") (drop 1 Example.molecules) = Ok pfs
  ∧ rxn_ft (take 1 Example.molecules) (drop 1 Example.molecules)
      permutation Example.has_bonds0 "ft" "bond" = Raise AssertionError.
Proof.
  assert (Hpfs : mapM (get_ndata "ft" "bond") (drop 1 Example.molecules)
                 = Ok [mkTensor (cuda 0) 2 [[7; 7]]%Z; mkTensor (cuda 0) 2 [[0; 0]]%Z])
    by (vm_compute; reflexivity).
  assert (Hg : gather_ft (take 1 Example.molecules) (drop 1 Example.molecules)
                 Example.has_bonds0 "ft" "bond"
               = Ok (mkTensor (cuda 0) 2 [[1; 1]; [2; 2]]%Z,
                     mkTensor (cuda 0) 2 [[7; 7]; [0; 0]]%Z))
    by (vm_compute; reflexivity).
  split; [exact Hpfs|].
  exact (proj2 (proj2 (proj2 (zero_row_always_appended
                                (take 1 Example.molecules) (drop 1 Example.molecules)
                                {["bond" := [0%Z]]} Example.has_bonds0 "ft" _ Hpfs))
                  [0%Z] (lookup_singleton_eq _ _) eq_refl) _ _ Hg).
Defined.

(** ** A reaction that breaks one bond *)

Section BondPadding.
Context `{Scalar R}.

Lemma cat_singleton (t : Tensor R) : cat [t] = Ok t.
Proof. destruct t as [dev d rs]. simpl. by rewrite app_nil_r. Qed.

Lemma cat_padded_total (kept : list (Tensor R)) (r0 : Tensor R) :
  Forall (λ t, device t = device r0 ∧ ncols t = ncols r0) kept →
  ∃ products_ft, cat (kept ++ [new_zeros r0 1 (ncols r0)]) = Ok products_ft.
Proof.
  intros Hkept. destruct kept as [|k0 kept]; [by eexists|].
  apply Forall_cons in Hkept as [[Hdev Hcols] Hkept].
  rewrite <-app_comm_cons, cat_total; [by eexists|].
  apply Forall_app. split.
  - eapply Forall_impl; [exact Hkept|]. intros x [-> ->]. by rewrite Hdev, Hcols.
  - apply Forall_singleton. simpl. by rewrite Hdev, Hcols.
Qed.

Lemma gather_ft_bond_total (r : Graph R) products has_bonds ft_name rt pfs :
  get_ndata ft_name "bond" r = Ok rt →
  mapM (get_ndata ft_name "bond") products = Ok pfs →
  Forall (λ t, device t = device rt ∧ ncols t = ncols rt)
    (compress pfs (hb_products has_bonds)) →
  ∃ products_ft,
    gather_ft [r] products has_bonds ft_name "bond" = Ok (rt, products_ft)
    ∧ cat (compress pfs (hb_products has_bonds) ++ [new_zeros rt 1 (ncols rt)])
      = Ok products_ft.
Proof.
  intros Hrt Hpfs Hkept.
  destruct (cat_padded_total _ _ Hkept) as [pf Hpf]. exists pf. split; [|done].
  unfold gather_ft. simpl. rewrite Hrt. simpl. rewrite Hpfs. simpl.
  rewrite Hpf. simpl. rewrite app_nil_r. by destruct rt.
Qed.

Lemma diff_ft_aligned mappings nt (reactants_ft products_ft : Tensor R) idx sel :
  nt ≠ "global" → mappings !! nt = Some idx →
  nrows products_ft = length idx →
  mapM (py_index (rows products_ft)) idx = Ok sel →
  device products_ft = device reactants_ft →
  ncols products_ft = ncols reactants_ft →
  nrows reactants_ft = length idx →
  diff_ft mappings nt reactants_ft products_ft
  = Ok (mkTensor (device products_ft) (ncols products_ft)
          (zip_with (λ ra rb, row_sub (expand (ncols products_ft) ra)
                                (expand (ncols products_ft) rb))
             sel (rows reactants_ft))).
Proof.
  intros Hnt Hidx Hlen Hsel Hdev Hcols Hrows.
  rewrite (diff_ft_checked _ _ _ _ idx) by done. rewrite decide_True by done.
  unfold index_rows. rewrite Hsel. simpl.
  rewrite sub_same_shape; simpl; try done.
  unfold nrows in *. simpl. by rewrite (mapM_Ok_length _ _ _ Hsel).
Qed.

Lemma row_sub_expand (d : nat) (a b : list R) :
  length a = d → length b = d →
  row_sub (expand d a) (expand d b) = row_sub a b.
Proof. intros Ha Hb. by rewrite !expand_id. Qed.
End BondPadding.

(** C1. A reaction one of whose products has no bond (its feature rows are
    dropped) and whose bond map has one entry per reactant bond, each within
    the padded product rows: [create_rxn_graph] returns, provided the other
    node types go through, and at every reactant bond that the map sends to
    the appended row (the broken bond) the reaction's bond feature is the
    zero row minus the reactant's row. *)
Theorem bond_padding `{Scalar R} (r : Graph R) products mappings has_bonds
    ntypes ft_name rt pfs idx :
  length (hb_products has_bonds) = length products →
  length (filter (λ b, b = false) (hb_products has_bonds)) = 1 →
  get_ndata ft_name "bond" r = Ok rt →
  wf_tensor rt →
  mapM (get_ndata ft_name "bond") products = Ok pfs →
  let kept := compress pfs (hb_products has_bonds) in
  let n := sum_list (nrows <$> kept) in
  Forall (λ t, device t = device rt ∧ ncols t = ncols rt) kept →
  mappings !! "bond" = Some idx →
  length idx = n + 1 →
  nrows rt = n + 1 →
  Forall (λ i, (- Z.of_nat (n + 1) ≤ i < Z.of_nat (n + 1))%Z) idx →
  (∀ nt, nt ∈ ntypes → nt ≠ "bond" →
     ∃ ft, rxn_ft [r] products mappings has_bonds ft_name nt = Ok ft) →
  ∃ feats ft,
    create_rxn_graph [r] products mappings has_bonds ntypes ft_name = Ok (r, feats)
    ∧ rxn_ft [r] products mappings has_bonds ft_name "bond" = Ok ft
    ∧ ("bond" ∈ ntypes → dict_get feats "bond" = Ok ft)
    ∧ nrows ft = nrows rt
    ∧ ∀ i row, idx !! i = Some (Z.of_nat n) → rows rt !! i = Some row →
        rows ft !! i = Some (row_sub (replicate (ncols rt) tzero) row).
Proof.
  intros _ _ Hrt Hwf Hpfs kept n Hkept Hidx Hlen Hrows Hrange Hothers.
  destruct (gather_ft_bond_total r products has_bonds ft_name rt pfs Hrt Hpfs Hkept)
    as (pf & Hg & Hcat).
  destruct (padded_rows _ _ _ Hcat) as (Hpf & Hn & Hcols & Hdev).
  fold kept in Hpf, Hn. fold n in Hn.
  destruct (mapM_py_index_total (rows pf) idx) as [sel Hsel].
  { unfold nrows in Hn. by rewrite Hn. }
  pose proof (mapM_Ok_length _ _ _ Hsel) as Hsel_len.
  pose proof (diff_ft_aligned mappings "bond" rt pf idx sel) as Hdiff.
  rewrite <-(rxn_ft_gathered _ _ mappings _ _ _ _ _ Hg) in Hdiff.
  specialize (Hdiff ltac:(done) Hidx ltac:(lia) Hsel Hdev Hcols ltac:(lia)).
  set (ft := mkTensor _ _ _) in Hdiff.
  destruct (rxn_feats_total (rxn_ft [r] products mappings has_bonds ft_name) ntypes [])
    as [feats Hfeats].
  { intros nt Hnt. destruct (decide (nt = "bond")) as [->|Hne]; [by exists ft | eauto]. }
  exists feats, ft. rewrite create_rxn_graph_one, Hfeats. simpl.
  split; [done|]. split; [done|]. split; [|split].
  - intros Hin. destruct (rxn_feats_Ok _ _ _ _ Hfeats) as [Hget _].
    destruct (Hget _ Hin) as (ft' & Hft' & ->). congruence.
  - unfold nrows, ft. simpl. rewrite length_zip_with_l_eq; unfold nrows in *; lia.
  - intros i row Hi Hrow. unfold ft. simpl. rewrite lookup_zip_with, Hrow.
    apply mapM_Ok in Hsel.
    destruct (Forall2_lookup_l _ _ _ _ _ Hsel Hi) as (zrow & -> & Hz).
    apply py_index_nat_inv in Hz. simpl. f_equal.
    assert (zrow = replicate (ncols pf) tzero) as ->.
    { rewrite Hpf in Hz. rewrite list_lookup_middle in Hz; [congruence|].
      by rewrite length_concat_rows. }
    rewrite Hcols. apply row_sub_expand; [apply length_replicate|].
    by apply (proj1 (Forall_lookup _ _) Hwf i).
Qed.

Lemma bond_padding_witness :
  let products := drop 1 Example.molecules in
  let rt := mkTensor (cuda 0) 2 [[1; 1]; [2; 2]]%Z in
  let pfs := [mkTensor (cuda 0) 2 [[7; 7]]%Z; mkTensor (cuda 0) 2 [[0; 0]]%Z] in
  (get_ndata "ft" "bond" Example.reactant = Ok rt
   ∧ mapM (get_ndata "ft" "bond") products = Ok pfs
   ∧ Example.mappings0 !! "bond" = Some [0; 1]%Z)
  ∧ ∃ feats ft,
      create_rxn_graph [Example.reactant] products Example.mappings0
        Example.has_bonds0 ["atom"; "bond"; "global"] "ft"
      = Ok (Example.reactant, feats)
      ∧ dict_get feats "bond" = Ok ft
      ∧ rows ft !! 1 = Some [-2; -2]%Z.
Proof.
  intros products rt pfs.
  assert (Hrt : get_ndata "ft" "bond" Example.reactant = Ok rt)
    by (vm_compute; reflexivity).
  assert (Hpfs : mapM (get_ndata "ft" "bond") products = Ok pfs)
    by (vm_compute; reflexivity).
  assert (Hidx : Example.mappings0 !! "bond" = Some [0; 1]%Z)
    by (vm_compute; reflexivity).
  split; [exact (conj Hrt (conj Hpfs Hidx))|].
  destruct (bond_padding Example.reactant products Example.mappings0
              Example.has_bonds0 ["atom"; "bond"; "global"] "ft" rt pfs [0; 1]%Z)
    as (feats & ft & Hcreate & _ & Hget & _ & Hrow).
  - vm_compute; reflexivity.
  - vm_compute; reflexivity.
  - exact Hrt.
  - repeat constructor.
  - exact Hpfs.
  - repeat constructor.
  - exact Hidx.
  - vm_compute; reflexivity.
  - vm_compute; reflexivity.
  - cbn. repeat constructor; lia.
  - intros nt Hnt Hne.
    apply elem_of_cons in Hnt as [->|Hnt]; [eexists; vm_compute; reflexivity|].
    apply elem_of_cons in Hnt as [->|Hnt]; [exfalso; apply Hne; reflexivity|].
    apply elem_of_cons in Hnt as [->|Hnt]; [eexists; vm_compute; reflexivity|].
    exfalso. exact (proj1 (elem_of_nil _) Hnt).
  - exists feats, ft. split; [exact Hcreate|]. split; [apply Hget; right; left|].
    apply (Hrow 1 [2; 2]%Z); reflexivity.
Defined.

(** ** Pooling of the global type *)

Section GlobalPooling.
Context `{Scalar R}.

Lemma row_add_zero (d : nat) (a : list R) :
  (∀ x, tadd tzero x = x) → length a = d → row_add (replicate d tzero) a = a.
Proof.
  intros Hzero. revert d. induction a as [|x a IH]; intros d <-; simpl; [done|].
  unfold row_add in *. simpl. by rewrite Hzero, IH.
Qed.

Lemma length_row_add (a b : list R) :
  length a = length b → length (row_add a b) = length a.
Proof. intros Hlen. unfold row_add. by rewrite length_zip_with_l_eq. Qed.

(** [gather_ft] away from the bond type: plain concatenation. *)
Lemma gather_ft_plain (reactants products : list (Graph R)) has_bonds ft_name nt
    rfs pfs reactants_ft products_ft :
  nt ≠ "bond" →
  mapM (get_ndata ft_name nt) reactants = Ok rfs →
  mapM (get_ndata ft_name nt) products = Ok pfs →
  cat rfs = Ok reactants_ft → cat pfs = Ok products_ft →
  gather_ft reactants products has_bonds ft_name nt = Ok (reactants_ft, products_ft).
Proof.
  intros Hnt Hrfs Hpfs Hrf Hpf. unfold gather_ft.
  rewrite Hrfs. simpl. rewrite Hpfs. simpl.
  rewrite decide_False by done. simpl. rewrite Hrf. simpl. by rewrite Hpf.
Qed.
End GlobalPooling.

(** C2. With one reactant and two products, each carrying one global row,
    the reaction's global feature is the sum of the two products' rows minus
    the reactant's row; no correspondence map is consulted.  Sums start from
    zero, so the statement needs [0 + x = x] of the scalars. *)
Theorem global_pooling `{Scalar R} (r p1 p2 : Graph R) mappings has_bonds ntypes
    ft_name dev d (a b c : list R) :
  (∀ x, tadd tzero x = x) →
  length a = d → length b = d → length c = d →
  get_ndata ft_name "global" r = Ok (mkTensor dev d [c]) →
  get_ndata ft_name "global" p1 = Ok (mkTensor dev d [a]) →
  get_ndata ft_name "global" p2 = Ok (mkTensor dev d [b]) →
  let pooled := mkTensor dev d [row_sub (row_add a b) c] in
  rxn_ft [r] [p1; p2] mappings has_bonds ft_name "global" = Ok pooled
  ∧ ((∀ nt, nt ∈ ntypes → nt ≠ "global" →
        ∃ ft, rxn_ft [r] [p1; p2] mappings has_bonds ft_name nt = Ok ft) →
     ∃ feats,
       create_rxn_graph [r] [p1; p2] mappings has_bonds ntypes ft_name = Ok (r, feats)
       ∧ ("global" ∈ ntypes → dict_get feats "global" = Ok pooled)).
Proof.
  intros Hzero Ha Hb Hc Hr Hp1 Hp2 pooled.
  assert (Hft : rxn_ft [r] [p1; p2] mappings has_bonds ft_name "global" = Ok pooled).
  { unfold rxn_ft.
    rewrite (gather_ft_plain [r] [p1; p2] has_bonds ft_name "global"
               [mkTensor dev d [c]] [mkTensor dev d [a]; mkTensor dev d [b]]
               (mkTensor dev d [c]) (mkTensor dev d [a; b])).
    - simpl. unfold diff_ft. rewrite decide_True by done.
      rewrite sub_same_shape by done. unfold sum_dim0, pooled. simpl.
      rewrite !row_add_zero by done.
      rewrite row_sub_expand; [done| |done].
      rewrite length_row_add; congruence.
    - done.
    - simpl. by rewrite Hr.
    - simpl. by rewrite Hp1, Hp2.
    - apply cat_singleton.
    - by rewrite cat_total by (by repeat constructor).
  }
  split; [done|]. intros Hothers.
  destruct (rxn_feats_total (rxn_ft [r] [p1; p2] mappings has_bonds ft_name) ntypes [])
    as [feats Hfeats].
  { intros nt Hnt. destruct (decide (nt = "global")) as [->|Hne]; [by exists pooled | eauto]. }
  exists feats. rewrite create_rxn_graph_one, Hfeats. split; [done|].
  intros Hin. destruct (rxn_feats_Ok _ _ _ _ Hfeats) as [Hget _].
  destruct (Hget _ Hin) as (ft' & Hft' & ->). congruence.
Qed.

Lemma global_pooling_witness :
  (get_ndata "ft" "global" Example.reactant = Ok (mkTensor (cuda 0) 2 [[1; 0]]%Z)
   ∧ get_ndata "ft" "global" Example.product1 = Ok (mkTensor (cuda 0) 2 [[2; 0]]%Z)
   ∧ get_ndata "ft" "global" Example.product2 = Ok (mkTensor (cuda 0) 2 [[3; 0]]%Z))
  ∧ rxn_ft [Example.reactant] [Example.product1; Example.product2]
      Example.mappings0 Example.has_bonds0 "ft" "global"
    = Ok (mkTensor (cuda 0) 2 [[4; 0]]%Z).
Proof.
  assert (Hr : get_ndata "ft" "global" Example.reactant
               = Ok (mkTensor (cuda 0) 2 [[1; 0]]%Z)) by (vm_compute; reflexivity).
  assert (Hp1 : get_ndata "ft" "global" Example.product1
                = Ok (mkTensor (cuda 0) 2 [[2; 0]]%Z)) by (vm_compute; reflexivity).
  assert (Hp2 : get_ndata "ft" "global" Example.product2
                = Ok (mkTensor (cuda 0) 2 [[3; 0]]%Z)) by (vm_compute; reflexivity).
  split; [exact (conj Hr (conj Hp1 Hp2))|].
  exact (proj1 (global_pooling Example.reactant Example.product1 Example.product2
                  Example.mappings0 Example.has_bonds0 ["atom"; "bond"; "global"]
                  "ft" (cuda 0) 2 [2; 0]%Z [3; 0]%Z [1; 0]%Z
                  (λ x, eq_refl) eq_refl eq_refl eq_refl Hr Hp1 Hp2)).
Defined.

(** ** A reaction that changes nothing *)

Section ZeroLaw.
Context `{Scalar R}.

Lemma mapM_identity_map {A} (l : list A) :
  mapM (py_index l) (identity_map (length l)) = Ok l.
Proof.
  apply mapM_Ok, Forall2_same_length_lookup_2.
  - unfold identity_map. by rewrite length_fmap, length_seq.
  - intros i z x Hz Hx. unfold identity_map in Hz.
    rewrite list_lookup_fmap in Hz.
    destruct (seq 0 (length l) !! i) as [j|] eqn:Hj; [|done].
    apply lookup_seq in Hj as [-> _]. simpl in Hz. injection Hz as <-.
    by apply py_index_nat.
Qed.

Lemma length_identity_map (n : nat) : length (identity_map n) = n.
Proof. unfold identity_map. by rewrite length_fmap, length_seq. Qed.

Lemma row_sub_diag (d : nat) (a : list R) :
  Forall (λ x, tsub x x = tzero) a →
  Forall (λ x, x = tzero) (row_sub (expand d a) (expand d a)).
Proof.
  intros Hsub. unfold row_sub. rewrite zip_with_diag. apply Forall_fmap.
  destruct a as [|x [|y a]]; simpl.
  - constructor.
  - apply Forall_replicate. exact (proj1 (Forall_singleton _ _) Hsub).
  - exact Hsub.
Qed.

Lemma zero_tensor_diag dev (d : nat) (rs : list (list R)) :
  Forall (Forall (λ x, tsub x x = tzero)) rs →
  zero_tensor (mkTensor dev d
                 (zip_with (λ ra rb, row_sub (expand d ra) (expand d rb)) rs rs)).
Proof.
  intros Hsub. unfold zero_tensor. simpl. rewrite zip_with_diag.
  apply Forall_fmap. eapply Forall_impl; [exact Hsub|].
  intros a Ha. by apply row_sub_diag.
Qed.

(** Integers subtract exactly. *)
Lemma Z_rows_exact (rs : list (list Z)) :
  Forall (Forall (λ x : Z, tsub x x = tzero)) rs.
Proof. apply Forall_true. intros a. apply Forall_true. intros x. apply Z.sub_diag. Qed.
End ZeroLaw.

(** C3, as the code has it.  The reactant is also the only product and the
    maps are the identity on its atom rows and on its bond rows.  Where the
    entries [x] subtracted from themselves give zero (the atom entries and
    the pooled global sums), the atom and the global reaction features are
    zero.  The bond feature is not the difference of the identical rows: one
    zero row is appended to the product's bond rows.  With the product
    flagged as having bonds these are one more than the map's entries, the
    length check fails, and [create_rxn_graph] raises when bond is among the
    node types.  With the product flagged as bond-free its rows are dropped
    and the zero row alone is left: the check fails unless there is exactly
    one bond row, and then the feature is zero minus the reactant's row. *)
Theorem zero_law_atom_global `{Scalar R} (r : Graph R) mappings has_bonds ntypes
    ft_name ta tb tg flag :
  Forall (Forall (λ x, tsub x x = tzero)) (rows ta) →
  Forall (Forall (λ x, tsub x x = tzero)) (rows (sum_dim0 tg)) →
  hb_products has_bonds = [flag] →
  get_ndata ft_name "atom" r = Ok ta →
  get_ndata ft_name "bond" r = Ok tb →
  get_ndata ft_name "global" r = Ok tg →
  mappings !! "atom" = Some (identity_map (nrows ta)) →
  mappings !! "bond" = Some (identity_map (nrows tb)) →
  (∃ fa, rxn_ft [r] [r] mappings has_bonds ft_name "atom" = Ok fa
         ∧ nrows fa = nrows ta ∧ zero_tensor fa)
  ∧ (∃ fg, rxn_ft [r] [r] mappings has_bonds ft_name "global" = Ok fg
           ∧ nrows fg = 1 ∧ zero_tensor fg)
  ∧ (ntypes ⊆ ["atom"; "global"] → zero_law r mappings has_bonds ntypes ft_name)
  ∧ (flag = true →
     rxn_ft [r] [r] mappings has_bonds ft_name "bond" = Raise AssertionError
     ∧ ("bond" ∈ ntypes →
        raises (create_rxn_graph [r] [r] mappings has_bonds ntypes ft_name)))
  ∧ (flag = false →
     (nrows tb ≠ 1 →
      rxn_ft [r] [r] mappings has_bonds ft_name "bond" = Raise AssertionError)
     ∧ (nrows tb = 1 →
        rxn_ft [r] [r] mappings has_bonds ft_name "bond"
        = sub (new_zeros tb 1 (ncols tb)) tb)).
Proof.
  intros Hsuba Hsubg Hhb Hta Htb Htg Hatom Hbond.
  assert (Ha : ∃ fa, rxn_ft [r] [r] mappings has_bonds ft_name "atom" = Ok fa
                     ∧ nrows fa = nrows ta ∧ zero_tensor fa).
  { eexists. split; [|split].
    - unfold rxn_ft.
      rewrite (gather_ft_plain [r] [r] has_bonds ft_name "atom" [ta] [ta] ta ta);
        [|done|simpl; by rewrite Hta|simpl; by rewrite Hta|apply cat_singleton|apply cat_singleton].
      simpl. apply (diff_ft_aligned _ _ _ _ (identity_map (nrows ta)) (rows ta));
        try done; rewrite ?length_identity_map; try done.
      apply mapM_identity_map.
    - unfold nrows. simpl. by rewrite length_zip_with_l_eq.
    - by apply zero_tensor_diag. }
  assert (Hg : ∃ fg, rxn_ft [r] [r] mappings has_bonds ft_name "global" = Ok fg
                     ∧ nrows fg = 1 ∧ zero_tensor fg).
  { eexists. split; [|split].
    - unfold rxn_ft.
      rewrite (gather_ft_plain [r] [r] has_bonds ft_name "global" [tg] [tg] tg tg);
        [|done|simpl; by rewrite Htg|simpl; by rewrite Htg|apply cat_singleton|apply cat_singleton].
      simpl. unfold diff_ft. rewrite decide_True by done.
      by apply sub_same_shape.
    - done.
    - by apply zero_tensor_diag. }
  assert (Hgather : ∃ pf,
            gather_ft [r] [r] has_bonds ft_name "bond" = Ok (tb, pf)
            ∧ cat (compress [tb] [flag] ++ [new_zeros tb 1 (ncols tb)]) = Ok pf).
  { destruct (gather_ft_bond_total r [r] has_bonds ft_name tb [tb]) as (pf & Hpf & Hcat).
    - done.
    - simpl. by rewrite Htb.
    - rewrite Hhb. destruct flag; simpl; by repeat constructor.
    - exists pf. by rewrite Hhb in Hcat. }
  destruct Hgather as (pf & Hgather & Hcat).
  split; [done|]. split; [done|]. split; [|split].
  - intros Hsubset.
    assert (Hzero : ∀ nt, nt ∈ ntypes →
              ∃ ft, rxn_ft [r] [r] mappings has_bonds ft_name nt = Ok ft
                    ∧ zero_tensor ft).
    { intros nt Hnt. apply Hsubset in Hnt.
      apply elem_of_cons in Hnt as [->|Hnt].
      { destruct Ha as (fa & ? & _ & ?). by exists fa. }
      apply list_elem_of_singleton in Hnt as ->.
      destruct Hg as (fg & ? & _ & ?). by exists fg. }
    destruct (rxn_feats_total (rxn_ft [r] [r] mappings has_bonds ft_name) ntypes [])
      as [feats Hfeats].
    { intros nt Hnt. destruct (Hzero nt Hnt) as (ft & ? & _). by exists ft. }
    exists feats. rewrite create_rxn_graph_one, Hfeats. split; [done|].
    intros nt Hnt. destruct (rxn_feats_Ok _ _ _ _ Hfeats) as [Hget _].
    destruct (Hget _ Hnt) as (ft & Hft & ->).
    destruct (Hzero nt Hnt) as (ft' & Hft' & Hz). exists ft.
    split; [done|]. congruence.
  - intros ->.
    assert (Hb : rxn_ft [r] [r] mappings has_bonds ft_name "bond"
                 = Raise AssertionError).
    { simpl in Hcat.
      destruct (padded_rows [tb] tb pf Hcat) as (_ & Hn & _). simpl in Hn.
      rewrite (rxn_ft_gathered _ _ _ _ _ _ _ _ Hgather).
      rewrite (diff_ft_checked _ _ _ _ (identity_map (nrows tb))) by done.
      rewrite decide_False; [done|]. rewrite length_identity_map. lia. }
    split; [done|].
    intros Hin. apply (create_rxn_graph_raises _ _ _ _ _ _ "bond" Hin).
    by exists AssertionError.
  - intros ->.
    change (compress [tb] [false] ++ [new_zeros tb 1 (ncols tb)])
      with [new_zeros tb 1 (ncols tb)] in Hcat.
    rewrite cat_singleton in Hcat. injection Hcat as <-.
    rewrite (rxn_ft_gathered _ _ _ _ _ _ _ _ Hgather).
    rewrite (diff_ft_checked _ _ _ _ (identity_map (nrows tb))) by done.
    rewrite length_identity_map. split.
    + intros Hne. rewrite decide_False; [done|]. unfold nrows in *. simpl. lia.
    + intros Hone. rewrite decide_True by (unfold nrows in *; simpl; lia).
      rewrite Hone. unfold index_rows.
      change (rows (new_zeros tb 1 (ncols tb))) with [replicate (ncols tb) (@tzero R _)].
      rewrite (mapM_identity_map [replicate (ncols tb) tzero]). done.
Qed.

Lemma zero_law_atom_global_witness :
  let has_bonds := mkHasBonds [true] [true] in
  let ta := mkTensor (cuda 0) 2 [[1; 2]; [3; 4]; [5; 6]]%Z in
  let tb := mkTensor (cuda 0) 2 [[1; 1]; [2; 2]]%Z in
  (get_ndata "ft" "atom" Example.reactant = Ok ta
   ∧ get_ndata "ft" "bond" Example.reactant = Ok tb
   ∧ Example.mappings0 !! "atom" = Some (identity_map (nrows ta))
   ∧ Example.mappings0 !! "bond" = Some (identity_map (nrows tb)))
  ∧ rxn_ft [Example.reactant] [Example.reactant] Example.mappings0 has_bonds
      "ft" "bond" = Raise AssertionError
  ∧ zero_law Example.reactant Example.mappings0 has_bonds ["atom"; "global"] "ft".
Proof.
  intros has_bonds ta tb.
  assert (Hta : get_ndata "ft" "atom" Example.reactant = Ok ta)
    by (vm_compute; reflexivity).
  assert (Htb : get_ndata "ft" "bond" Example.reactant = Ok tb)
    by (vm_compute; reflexivity).
  assert (Htg : get_ndata "ft" "global" Example.reactant
                = Ok (mkTensor (cuda 0) 2 [[1; 0]]%Z))
    by (vm_compute; reflexivity).
  assert (Hatom : Example.mappings0 !! "atom" = Some (identity_map (nrows ta)))
    by (vm_compute; reflexivity).
  assert (Hbond : Example.mappings0 !! "bond" = Some (identity_map (nrows tb)))
    by (vm_compute; reflexivity).
  split; [exact (conj Hta (conj Htb (conj Hatom Hbond)))|].
  pose proof (zero_law_atom_global Example.reactant Example.mappings0 has_bonds
                ["atom"; "global"] "ft" ta tb _ true (Z_rows_exact _) (Z_rows_exact _)
                eq_refl Hta Htb Htg Hatom Hbond) as (_ & _ & Hlaw & Hraise & _).
  split; [exact (proj1 (Hraise eq_refl))|]. apply Hlaw. intros nt Hnt. exact Hnt.
Defined.

(** C3 as stated fails: water as reactant and only product, identity maps on
    its three atoms and two bonds.  The bond rows of the product become three
    with the appended zero row, the assertion on the map's length fails, and
    no feature is computed.  Listing the appended row in the map as well does
    not help: three reordered rows do not subtract from two. *)
Lemma zero_law_counterexample :
  let has_bonds := mkHasBonds [true] [true] in
  let ntypes := ["atom"; "bond"; "global"] in
  (Example.mappings0 !! "atom" = Some (identity_map 3)
   ∧ Example.mappings0 !! "bond" = Some (identity_map 2))
  ∧ create_rxn_graph [Example.reactant] [Example.reactant] Example.mappings0
      has_bonds ntypes "ft" = Raise AssertionError
  ∧ ¬ zero_law Example.reactant Example.mappings0 has_bonds ntypes "ft"
  ∧ create_rxn_graph [Example.reactant] [Example.reactant]
      (<["bond" := identity_map 3]> Example.mappings0) has_bonds ntypes "ft"
    = Raise RuntimeError.
Proof.
  intros has_bonds ntypes.
  assert (Hcreate : create_rxn_graph [Example.reactant] [Example.reactant]
                      Example.mappings0 has_bonds ntypes "ft" = Raise AssertionError)
    by (vm_compute; reflexivity).
  split; [split; vm_compute; reflexivity|].
  split; [exact Hcreate|]. split; [|vm_compute; reflexivity].
  intros (feats & Hfeats & _).
  exact (eq_ind (Raise AssertionError)
           (λ m, match m with Ok _ => False | Raise _ => True end)
           I _ (eq_trans (eq_sym Hcreate) Hfeats)).
Qed.

(** ** Splitting by the molecules' bond counts *)

Section LayerTrace.
Context `{Scalar R}.

Lemma split_rows_lengths (rs : list (list R)) (sizes : list nat) :
  (sum_list sizes ≤ length rs)%nat → length <$> split_rows rs sizes = sizes.
Proof.
  revert rs. induction sizes as [|n sizes IH]; intros rs Hsum; simpl in *; [done|].
  rewrite length_take, IH by (rewrite length_drop; lia). f_equal. lia.
Qed.

Lemma split_rows_concat (rs : list (list R)) (sizes : list nat) :
  sum_list sizes = length rs → concat (split_rows rs sizes) = rs.
Proof.
  revert rs. induction sizes as [|n sizes IH]; intros rs Hsum; simpl in *.
  - by destruct rs.
  - rewrite IH by (rewrite length_drop; lia). apply take_drop.
Qed.

Lemma split_Ok (value : Tensor R) (sizes : list nat) fts :
  split value sizes = Ok fts →
  length fts = length sizes
  ∧ nrows <$> fts = sizes
  ∧ concat (rows <$> fts) = rows value.
Proof.
  unfold split. case_decide as Hsum; [|done]. intros [= <-].
  rewrite length_fmap, <-!list_fmap_compose.
  assert (Hlen : length <$> split_rows (rows value) sizes = sizes)
    by (apply split_rows_lengths; unfold nrows in Hsum; lia).
  split; [|split].
  - by rewrite <-(length_fmap length), Hlen.
  - exact Hlen.
  - rewrite (list_fmap_ext _ id (split_rows (rows value) sizes)) by done.
    rewrite list_fmap_id. by apply split_rows_concat.
Qed.

Lemma split_tensor_many (value : Tensor R) (sizes : list nat) :
  (2 ≤ length sizes)%nat → split_tensor value sizes = Raise TypeError.
Proof. destruct sizes as [|c [|c' sizes]]; simpl; [lia|lia|done]. Qed.

Lemma split_batched_output_many (graph : Graph R) (value : Tensor R) :
  (2 ≤ length (mols graph))%nat →
  _split_batched_output graph value = Raise TypeError.
Proof.
  intros Hmols. unfold _split_batched_output. apply split_tensor_many.
  unfold batch_num_nodes. by rewrite length_fmap.
Qed.

Lemma run_gated_cons (layer : GatedLayer) layers (graph : Graph R) feats
    norm_atom norm_bond :
  run_gated (layer :: layers) graph feats norm_atom norm_bond
  = (feats' ← layer graph feats norm_atom norm_bond;
     run_gated layers graph feats' norm_atom norm_bond).
Proof. done. Qed.

Lemma trace_gated_Ok (layers : list GatedLayer) (graph : Graph R) feats
    norm_atom norm_bond (k : nat) (acc all_feats : gmap nat (list (Tensor R))) :
  trace_gated layers graph feats norm_atom norm_bond k acc = Ok all_feats →
  (∀ j, (k ≤ j)%nat → acc !! j = None) →
  size all_feats = size acc + length layers
  ∧ (∀ j, j < k → all_feats !! j = acc !! j)
  ∧ (∀ j, (k + length layers ≤ j)%nat → all_feats !! j = None)
  ∧ (∀ i, i < length layers →
       ∃ feats' bond fts,
         run_gated (take (S i) layers) graph feats norm_atom norm_bond = Ok feats'
         ∧ dict_get feats' "bond" = Ok bond
         ∧ _split_batched_output graph bond = Ok fts
         ∧ all_feats !! (k + i) = Some fts).
Proof.
  revert feats k acc. induction layers as [|layer layers IH]; intros feats k acc; simpl.
  - intros [= <-] Hacc. split; [lia|]. split; [done|]. split; [|lia].
    intros j Hj. apply Hacc. lia.
  - intros (feats1 & Hlayer & (bond1 & Hbond1 & (fts1 & Hfts1 & Hrest)%bind_Ok)%bind_Ok)%bind_Ok
      Hacc.
    destruct (IH _ _ _ Hrest) as (Hsize & Hlow & Hhigh & Hmid).
    { intros j Hj. rewrite lookup_insert_ne by lia. apply Hacc. lia. }
    rewrite map_size_insert_None in Hsize by (apply Hacc; lia).
    split; [lia|]. split; [|split].
    + intros j Hj. rewrite Hlow by lia. by rewrite lookup_insert_ne by lia.
    + intros j Hj. apply Hhigh. lia.
    + intros [|i] Hi.
      * exists feats1, bond1, fts1. rewrite ?take_0. simpl. rewrite Hlayer. simpl.
        split; [done|]. split; [done|]. split; [done|].
        rewrite Nat.add_0_r, Hlow by lia. apply lookup_insert_eq.
      * destruct (Hmid i) as (feats' & bond & fts & Hrun & Hbond & Hfts & Hall); [lia|].
        exists feats', bond, fts. rewrite Hlayer. simpl.
        split; [done|]. split; [done|]. split; [done|].
        by replace (k + S i) with (k + 1 + i) by lia.
Qed.
End LayerTrace.

(** C7 fails on the code.  [_split_batched_output] hands [torch.split] the
    tensor that [batch_num_nodes] returns, not a list of sizes: for a batch
    of two or more molecules the call is refused, and
    [feature_at_each_layer] raises a TypeError at its first split, right
    after the embedding, instead of returning [1 + N] entries. *)
Theorem layer_trace_type_error `{Scalar R} embedding (gated_layers : list GatedLayer)
    (graph : Graph R) feats reactions norm_atom norm_bond :
  (2 ≤ length (mols graph))%nat →
  raises (feature_at_each_layer embedding gated_layers graph feats reactions
            norm_atom norm_bond)
  ∧ ∀ feats0 bond,
      embedding feats = Ok feats0 → dict_get feats0 "bond" = Ok bond →
      feature_at_each_layer embedding gated_layers graph feats reactions
        norm_atom norm_bond = Raise TypeError.
Proof.
  intros Hmols.
  assert (Hsplit : ∀ bond, _split_batched_output graph bond = Raise TypeError).
  { intros bond. by apply split_batched_output_many. }
  unfold feature_at_each_layer. split.
  - destruct (embedding feats) as [feats0|e]; [|by exists e]. simpl.
    destruct (dict_get feats0 "bond") as [bond|e]; [|by exists e]. simpl.
    rewrite Hsplit. by exists TypeError.
  - intros feats0 bond -> . simpl. intros ->. simpl. by rewrite Hsplit.
Qed.

Lemma layer_trace_type_error_witness :
  length (mols (Example.batch0 cpu)) = 3
  ∧ feature_at_each_layer Example.embedding0 [Example.gated0; Example.gated0]
      (Example.batch0 cpu) (Example.feats0 cpu) [Example.dissociation] None None
    = Raise TypeError.
Proof.
  split; [reflexivity|].
  refine (proj2 (layer_trace_type_error Example.embedding0
                   [Example.gated0; Example.gated0] (Example.batch0 cpu)
                   (Example.feats0 cpu) [Example.dissociation] None None _)
            (Example.feats0 cpu)
            (mkTensor cpu 2 [[1; 1]; [2; 2]; [7; 7]; [0; 0]]%Z) eq_refl eq_refl).
  simpl. lia.
Defined.

(** ** What the builder does to the caller's graph *)

Section Frame.
Context `{Scalar R}.
Implicit Types (g h graph : Graph R) (K : list string).

Lemma same_but_ft_refl K g : same_but_ft K g g.
Proof. by repeat split. Qed.

Lemma same_but_ft_sym K g h : same_but_ft K g h → same_but_ft K h g.
Proof.
  intros (? & ? & ? & Hdata). repeat split; try done.
  intros nt key Hk. symmetry. by apply Hdata.
Qed.

Lemma same_but_ft_trans K g h k :
  same_but_ft K g h → same_but_ft K h k → same_but_ft K g k.
Proof.
  intros (? & ? & ? & Hgh) (? & ? & ? & Hhk). repeat split; try congruence.
  intros nt key Hk. by rewrite Hgh, Hhk.
Qed.

Lemma same_but_ft_mono K K' g h : K ⊆ K' → same_but_ft K g h → same_but_ft K' g h.
Proof.
  intros Hsub (? & ? & ? & Hdata). repeat split; try done.
  intros nt key Hk. apply Hdata. intros [-> Hin]. apply Hk. split; [done|].
  by apply Hsub.
Qed.

Lemma same_but_ft_nil g h : same_but_ft [] g h → g = h.
Proof.
  intros (Hdev & Hnt & Hmols & Hdata). destruct g, h. simpl in *. subst. f_equal.
  apply map_eq. intros [nt key]. apply Hdata. intros [_ Hin].
  by apply elem_of_nil in Hin.
Qed.

Lemma set_ndata_Ok g nt key ft g' :
  set_ndata g nt key ft = Ok g' →
  g' = mkGraph (gdevice g) (gntypes g) (mols g) (<[(nt, key) := ft]> (ndata g))
  ∧ device ft = gdevice g.
Proof.
  unfold set_ndata. case_decide; [|done]. case_decide as Hok; [|done].
  intros [= <-]. by destruct Hok.
Qed.

(** The outcome of an assignment does not depend on the features present. *)
Lemma set_ndata_same K g h nt ft :
  same_but_ft (nt :: K) g h →
  match set_ndata g nt "ft" ft, set_ndata h nt "ft" ft with
  | Ok g', Ok h' => same_but_ft K g' h'
  | Raise e, Raise e' => e = e'
  | _, _ => False
  end.
Proof.
  intros (Hdev & Hnt & Hmols & Hdata). unfold set_ndata, num_nodes_of, batch_num_nodes.
  rewrite <-Hdev, <-Hnt, <-Hmols.
  case_decide; [|done]. case_decide; [|done].
  repeat split; try done. simpl. intros nt' key Hk.
  destruct (decide ((nt, "ft") = (nt', key))) as [[= <- <-]|Hne].
  - by rewrite !lookup_insert_eq.
  - rewrite !lookup_insert_ne by done. apply Hdata. intros [-> Hin]. apply Hk.
    split; [done|]. apply elem_of_cons in Hin as [->|Hin]; [done|exact Hin].
Qed.

Lemma assign_feats_same g h (items : dict (Tensor R)) :
  same_but_ft (dict_keys items) g h →
  (assign_feats g items).2 = (assign_feats h items).2
  ∧ ((assign_feats g items).2 = Ok () → (assign_feats g items).1 = (assign_feats h items).1).
Proof.
  revert g h. induction items as [|[nt ft] items IH]; intros g h Hsame; simpl.
  - split; [done|]. intros _. by apply same_but_ft_nil.
  - pose proof (set_ndata_same (dict_keys items) g h nt ft Hsame) as Hset.
    destruct (set_ndata g nt "ft" ft) as [g'|e], (set_ndata h nt "ft" ft) as [h'|e'];
      try done.
    + by apply IH.
    + simpl. by subst.
Qed.

(** The writes touch nothing but ["ft"] of the listed node types. *)
Lemma assign_feats_frame g (items : dict (Tensor R)) :
  same_but_ft (dict_keys items) g (assign_feats g items).1.
Proof.
  revert g. induction items as [|[nt ft] items IH]; intros g; simpl.
  - apply same_but_ft_refl.
  - destruct (set_ndata g nt "ft" ft) as [g'|e] eqn:Hset; [|apply same_but_ft_refl].
    apply set_ndata_Ok in Hset as [-> _].
    eapply same_but_ft_trans; [|eapply same_but_ft_mono; [|apply IH]].
    + repeat split; try done. simpl. intros nt' key Hk.
      rewrite lookup_insert_ne; [done|]. intros [= <- <-]. apply Hk.
      split; [done|]. by left.
    + intros x Hx. by right.
Qed.

(** After a complete assignment every feature is in place, on the graph's
    device. *)
Lemma assign_feats_Ok g (items : dict (Tensor R)) :
  (assign_feats g items).2 = Ok () →
  gdevice (assign_feats g items).1 = gdevice g
  ∧ Forall (λ item, device item.2 = gdevice g) items
  ∧ (NoDup (dict_keys items) →
     ∀ nt ft, (nt, ft) ∈ items → ndata (assign_feats g items).1 !! (nt, "ft") = Some ft).
Proof.
  revert g. induction items as [|[nt ft] items IH]; intros g; simpl.
  - intros _. split; [done|]. split; [constructor|]. by intros _ nt ft ?%elem_of_nil.
  - destruct (set_ndata g nt "ft" ft) as [g'|e] eqn:Hset; [|done].
    apply set_ndata_Ok in Hset as [-> Hdev]. intros Hok.
    destruct (IH _ Hok) as (Hdev' & Hall & Hget). simpl in *.
    split; [done|]. split; [by constructor|].
    intros [Hnotin Hnodup]%NoDup_cons nt' ft' [[= -> ->]|Hin]%elem_of_cons.
    + destruct (assign_feats_frame
                  (mkGraph (gdevice g) (gntypes g) (mols g) (<[(nt, "ft") := ft]> (ndata g)))
                  items) as (_ & _ & _ & Hframe).
      rewrite <-Hframe; [apply lookup_insert_eq|]. by intros [_ ?].
    + by apply Hget.
Qed.
End Frame.

Section Persistence.
Context `{Scalar R}.

Lemma graph_to_str cuda_count (g : Graph R) dev :
  graph_to cuda_count g (device_str dev)
  = if reachable cuda_count g dev then Ok (false, copy_to dev g) else Raise DGLError.
Proof. done. Qed.

(** With a [torch.device] for argument the graph itself comes back when it
    is on that device already; the str of the builder never has this effect. *)
Lemma graph_to_obj_same cuda_count (g : Graph R) :
  graph_to cuda_count g (device_obj (gdevice g)) = Ok (true, g).
Proof. unfold graph_to. simpl. by rewrite bool_decide_eq_true_2. Qed.

(** The builder in terms of the copy it works on. *)
Lemma mol_graph_to_rxn_graph_copy cuda_count (graph : Graph R) feats reactions :
  mol_graph_to_rxn_graph cuda_count graph feats reactions
  = (graph,
     if reachable cuda_count graph (cuda 0)
     then _ ← (assign_feats (copy_to (cuda 0) graph) feats).2;
          rxn_graphs_of (assign_feats (copy_to (cuda 0) graph) feats).1 feats reactions
     else Raise DGLError).
Proof.
  unfold mol_graph_to_rxn_graph. rewrite graph_to_str.
  destruct (reachable _ _ _); [|done]. by destruct (assign_feats _ feats).
Qed.

(** Whether the assignments succeed depends on the device, the node types and
    the node counts of the graph, not on the features it holds. *)
Lemma assign_feats_outcome (g h : Graph R) (items : dict (Tensor R)) :
  gdevice g = gdevice h → gntypes g = gntypes h → mols g = mols h →
  (assign_feats g items).2 = (assign_feats h items).2.
Proof.
  revert g h. induction items as [|[nt ft] items IH]; intros g h Hdev Hnt Hmols; simpl;
    [done|].
  unfold set_ndata, num_nodes_of, batch_num_nodes. rewrite Hdev, Hnt, Hmols.
  case_decide; [|done]. case_decide; [|done]. by apply IH.
Qed.
End Persistence.

(** C8.  The builder attaches the working features to the graph that
    [graph.to('cuda:0')] returns.  The argument is a str, which the device
    test of [DGLGraph.to] never finds equal to the graph's device, so that
    graph is always a copy with frames of its own: the caller's graph is the
    same after the call as before, whether the call returns or raises, and
    the entries written under ["ft"] exist in the copy only.  Hence nothing
    reaches a later pass over the same graph object. *)
Theorem feature_write_scoped `{Scalar R} cuda_count embedding gated_layers
    readout_layer fc_layers (graph : Graph R) feats reactions norm_atom norm_bond :
  let call := mol_graph_to_rxn_graph cuda_count graph feats reactions in
  let working := (assign_feats (copy_to (cuda 0) graph) feats).1 in
  call.1 = graph
  ∧ (∀ built, call.2 = Ok built →
       rxn_graphs_of working feats reactions = Ok built
       ∧ same_but_ft (dict_keys feats) (copy_to (cuda 0) graph) working
       ∧ (NoDup (dict_keys feats) →
          ∀ nt ft, (nt, ft) ∈ feats → ndata working !! (nt, "ft") = Some ft))
  ∧ (forward cuda_count embedding gated_layers readout_layer fc_layers
       graph feats reactions norm_atom norm_bond).1 = graph
  ∧ (feature_before_fc cuda_count embedding gated_layers readout_layer
       graph feats reactions norm_atom norm_bond).1 = graph
  ∧ ∀ feats' reactions',
      mol_graph_to_rxn_graph cuda_count call.1 feats' reactions'
      = mol_graph_to_rxn_graph cuda_count graph feats' reactions'.
Proof.
  intros call working.
  assert (Hcaller : ∀ feats0 reactions0,
            (mol_graph_to_rxn_graph cuda_count graph feats0 reactions0).1 = graph).
  { intros feats0 reactions0. by rewrite mol_graph_to_rxn_graph_copy. }
  split; [apply Hcaller|]. split; [|split; [|split]].
  - intros built. unfold call. rewrite mol_graph_to_rxn_graph_copy. simpl.
    destruct (reachable _ _ _); [|done]. fold working.
    destruct (assign_feats (copy_to (cuda 0) graph) feats).2 as [[]|e] eqn:Hassigned;
      [|done].
    simpl. intros Hbuilt. split; [done|]. split; [apply assign_feats_frame|].
    by apply (assign_feats_Ok _ feats Hassigned).
  - unfold forward. destruct (_ ≫= _) as [feats0|e]; [|done].
    pose proof (Hcaller feats0 reactions) as Hfst.
    by destruct (mol_graph_to_rxn_graph cuda_count graph feats0 reactions).
  - unfold feature_before_fc. destruct (_ ≫= _) as [feats0|e]; [|done].
    pose proof (Hcaller feats0 reactions) as Hfst.
    by destruct (mol_graph_to_rxn_graph cuda_count graph feats0 reactions).
  - intros feats' reactions'. unfold call. by rewrite Hcaller.
Qed.

Lemma feature_write_scoped_witness :
  let graph := Example.batch0 (cuda 0) in
  let feats := Example.feats0 (cuda 0) in
  let call := mol_graph_to_rxn_graph 1 graph feats [Example.dissociation] in
  (∃ built, call.2 = Ok built)
  ∧ call.1 = graph
  ∧ ndata call.1 !! ("bond", "ft") = None
  ∧ ndata (assign_feats (copy_to (cuda 0) graph) feats).1 !! ("bond", "ft")
    = Some (mkTensor (cuda 0) 2 [[1; 1]; [2; 2]; [7; 7]; [0; 0]]%Z).
Proof.
  intros graph feats call.
  assert (Hbuilt : ∃ built, call.2 = Ok built) by (eexists; vm_compute; reflexivity).
  split; [exact Hbuilt|]. destruct Hbuilt as [built Hbuilt].
  destruct (feature_write_scoped 1 Example.embedding0 [Example.gated0]
              Example.readout0 [Example.fc0] graph feats [Example.dissociation]
              None None) as (Hcaller & Hwrite & _).
  split; [exact Hcaller|]. split.
  - exact (eq_ind_r (λ g, ndata g !! ("bond", "ft") = None) eq_refl Hcaller).
  - destruct (Hwrite built Hbuilt) as (_ & _ & Hft). apply Hft.
    + apply (@bool_decide_unpack (NoDup (dict_keys feats)) _). vm_compute. exact I.
    + right. left.
Defined.

(** ** The graphs the builder works on *)

Section Batching.
Context `{Scalar R}.

Lemma unbatch_elem (g x : Graph R) :
  x ∈ unbatch g →
  gdevice x = gdevice g ∧ gntypes x = gntypes g ∧ ∃ m, mols x = [m] ∧ m ∈ mols g.
Proof.
  unfold unbatch. intros (i & m & -> & Hm)%elem_of_lookup_imap.
  split; [done|]. split; [done|]. exists m. split; [done|].
  by eapply list_elem_of_lookup_2.
Qed.

Lemma create_rxn_graph_Ok (reactants products : list (Graph R)) mappings has_bonds
    ntypes ft_name g feats :
  create_rxn_graph reactants products mappings has_bonds ntypes ft_name = Ok (g, feats) →
  reactants = [g]
  ∧ rxn_feats (rxn_ft [g] products mappings has_bonds ft_name) ntypes [] = Ok feats.
Proof.
  unfold create_rxn_graph.
  intros ([] & Hlen & (g' & Hg' & (feats' & Hfeats & [= <- <-])%bind_Ok)%bind_Ok)%bind_Ok.
  unfold py_assert in Hlen. case_bool_decide as Hone; [|done].
  destruct reactants as [|r [|r' rs]]; try done.
  apply py_index_0 in Hg' as [? [= <- <-]]. done.
Qed.

Lemma rxn_graph_of_Ok (graphs : list (Graph R)) ntypes rxn g feats :
  rxn_graph_of graphs ntypes rxn = Ok (g, feats) → g ∈ graphs.
Proof.
  unfold rxn_graph_of.
  intros (rs & Hrs & (ps & Hps & Hcreate)%bind_Ok)%bind_Ok.
  apply create_rxn_graph_Ok in Hcreate as [-> _].
  apply mapM_Ok in Hrs. inversion Hrs as [|i g' ? ? Hg _]; subst.
  by eapply py_index_Ok.
Qed.

Lemma batch_Ok (gs : list (Graph R)) bg :
  batch gs = Ok bg →
  mols bg = gs ≫= mols ∧ ∃ g rest, gs = g :: rest ∧ gdevice bg = gdevice g.
Proof.
  destruct gs as [|g rest]; simpl; [done|].
  destruct (forallb _ rest); [|done]. intros [= <-]. simpl. split; [done|].
  by exists g, rest.
Qed.

Lemma mol_graph_to_rxn_graph_Ok cuda_count (graph : Graph R) feats reactions built :
  (mol_graph_to_rxn_graph cuda_count graph feats reactions).2 = Ok built →
  ∃ working,
    gdevice working = cuda 0
    ∧ gntypes working = gntypes graph ∧ mols working = mols graph
    ∧ (gdevice graph = cuda 0 ∨ 0 < cuda_count)
    ∧ Forall (λ item, device item.2 = cuda 0) feats
    ∧ rxn_graphs_of working feats reactions = Ok built.
Proof.
  rewrite mol_graph_to_rxn_graph_copy. simpl.
  destruct (reachable _ _ _) eqn:Hreach; [|done].
  set (moved := copy_to (cuda 0) graph).
  destruct (assign_feats moved feats).2 as [[]|e] eqn:Hassigned; [|done].
  simpl. intros Hbuilt.
  destruct (assign_feats_Ok moved feats Hassigned) as (Hdev & Hall & _).
  destruct (assign_feats_frame moved feats) as (_ & Hnt & Hmols & _).
  exists (assign_feats moved feats).1.
  split; [done|]. split; [done|]. split; [done|]. split; [|done].
  unfold reachable in Hreach. apply orb_true_iff in Hreach as [Hon|Havail].
  - left. by apply bool_decide_eq_true_1 in Hon.
  - right. simpl in Havail. by apply bool_decide_eq_true_1 in Havail.
Qed.

Lemma rxn_graphs_of_device (working : Graph R) feats reactions bg bf :
  rxn_graphs_of working feats reactions = Ok (bg, bf) → gdevice bg = gdevice working.
Proof.
  unfold rxn_graphs_of.
  intros (rs & Hrs & (bg' & Hbatch & (bf' & _ & [= <- <-])%bind_Ok)%bind_Ok)%bind_Ok.
  apply batch_Ok in Hbatch as (_ & g & rest & Hgs & ->).
  destruct rs as [|[g' fts] rs]; [done|]. simpl in Hgs. injection Hgs as <- _.
  apply mapM_Ok in Hrs. inversion Hrs as [|rxn ? ? ? Hrxn _]; subst.
  apply rxn_graph_of_Ok, unbatch_elem in Hrxn as [-> _]. done.
Qed.
End Batching.

(** ** One prediction per reaction *)

Section Forward.
Context `{Scalar R}.

Lemma batch_feats_rxn_feats (reaction_feats : list (dict (Tensor R))) ntypes acc :
  batch_feats reaction_feats ntypes acc
  = rxn_feats (λ nt, fts ← mapM (λ ft, dict_get ft nt) reaction_feats; cat fts)
      ntypes acc.
Proof.
  revert acc. induction ntypes as [|nt ntypes IH]; intros acc; simpl; [done|].
  destruct (mapM _ reaction_feats) as [fts|e]; simpl; [|done].
  destruct (cat fts) as [ft|e]; simpl; [|done]. apply IH.
Qed.

Lemma length_bind_mols (gs : list (Graph R)) :
  Forall (λ g, length (mols g) = 1) gs → length (gs ≫= mols) = length gs.
Proof.
  induction 1 as [|g gs Hg _ IH]; [done|].
  rewrite bind_cons, length_app, IH, Hg. done.
Qed.

(** The builder's result, reaction by reaction. *)
Lemma rxn_graphs_of_Ok (working : Graph R) feats reactions bg bf :
  rxn_graphs_of working feats reactions = Ok (bg, bf) →
  ∃ rs,
    Forall2 (λ rxn r, rxn_graph_of (unbatch working) (dict_keys feats) rxn = Ok r)
      reactions rs
    ∧ mols bg = (fst <$> rs) ≫= mols
    ∧ length (mols bg) = length reactions
    ∧ ∀ nt, nt ∈ dict_keys feats →
        ∃ fts ft, Forall2 (λ r ft, dict_get r.2 nt = Ok ft) rs fts
                  ∧ dict_get bf nt = Ok ft
                  ∧ rows ft = concat (rows <$> fts).
Proof.
  unfold rxn_graphs_of.
  intros (rs & Hrs & (bg' & Hbatch & (bf' & Hbf & [= <- <-])%bind_Ok)%bind_Ok)%bind_Ok.
  apply mapM_Ok in Hrs. apply batch_Ok in Hbatch as [Hmols _].
  exists rs. split; [done|]. split; [done|]. split.
  - rewrite Hmols, length_bind_mols, length_fmap.
    + symmetry. by eapply Forall2_length.
    + apply Forall_fmap, Forall_forall. intros [g fts] Hin.
      apply list_elem_of_lookup in Hin as [i Hi].
      destruct (Forall2_lookup_r _ _ _ _ _ Hrs Hi) as (rxn & _ & Hrxn).
      apply rxn_graph_of_Ok, unbatch_elem in Hrxn as (_ & _ & m & Hm & _).
      simpl. by rewrite Hm.
  - intros nt Hnt. rewrite batch_feats_rxn_feats in Hbf.
    destruct (rxn_feats_Ok _ _ _ _ Hbf) as [Hget _].
    destruct (Hget nt Hnt) as (ft & (fts & Hfts & Hcat)%bind_Ok & Hft).
    exists fts, ft. apply mapM_Ok, Forall2_fmap_l in Hfts.
    split; [done|]. split; [done|]. by apply cat_Ok in Hcat as [-> _].
Qed.
End Forward.

(** ** Where the reaction features live *)

Section Devices.
Context `{Scalar R}.

Lemma sub_device (a b t : Tensor R) : sub a b = Ok t → device t = device b.
Proof.
  unfold sub. case_decide as Hdev; [|done].
  destruct (broadcast_dim (nrows a) (nrows b)), (broadcast_dim (ncols a) (ncols b));
    try done.
  by intros [= <-].
Qed.

Lemma diff_ft_device mappings nt (reactants_ft products_ft t : Tensor R) :
  diff_ft mappings nt reactants_ft products_ft = Ok t → device t = device reactants_ft.
Proof.
  unfold diff_ft. case_decide.
  - by intros ->%sub_device.
  - by intros (idx & _ & (p & _ & ->%sub_device)%bind_Ok)%bind_Ok.
Qed.

Lemma rxn_ft_device (g : Graph R) products mappings has_bonds ft_name nt t :
  rxn_ft [g] products mappings has_bonds ft_name nt = Ok t →
  ∃ t0, get_ndata ft_name nt g = Ok t0 ∧ device t = device t0.
Proof.
  unfold rxn_ft. intros ([rf pf] & Hgather & ->%diff_ft_device)%bind_Ok.
  unfold gather_ft in Hgather.
  apply bind_Ok in Hgather as (rfs & Hrfs & (pfs & _ & (padded & _ & Hcat)%bind_Ok)%bind_Ok).
  apply bind_Ok in Hcat as (rf' & Hrf & (pf' & _ & [= <- <-])%bind_Ok).
  apply mapM_Ok in Hrfs. inversion Hrfs as [|? t0 ? ? Ht0 Hnil]; subst.
  inversion Hnil; subst. exists t0. split; [done|].
  apply cat_Ok in Hrf as [_ Hall]. by apply Forall_singleton in Hall as [-> _].
Qed.

Lemma component_get_ndata (working : Graph R) i m key nt t :
  get_ndata key nt (component working i m) = Ok t →
  ∃ t0, ndata working !! (nt, key) = Some t0 ∧ device t = device t0.
Proof.
  unfold get_ndata, component. simpl. case_decide; [|done].
  rewrite map_lookup_imap. destruct (ndata working !! (nt, key)) as [t0|]; [|done].
  simpl. intros [= <-]. by exists t0.
Qed.

Lemma assign_feats_devices (g : Graph R) (items : dict (Tensor R)) :
  (assign_feats g items).2 = Ok () →
  ∀ nt, nt ∈ dict_keys items →
    ∃ ft, ndata (assign_feats g items).1 !! (nt, "ft") = Some ft
          ∧ device ft = gdevice g.
Proof.
  revert g. induction items as [|[nt0 ft0] items IH]; intros g; simpl.
  - by intros _ nt ?%elem_of_nil.
  - destruct (set_ndata g nt0 "ft" ft0) as [g'|e] eqn:Hset; [|done].
    apply set_ndata_Ok in Hset as [-> Hdev]. intros Hok nt Hnt.
    destruct (decide (nt ∈ dict_keys items)) as [Hin|Hnotin]; [by apply (IH _ Hok)|].
    apply elem_of_cons in Hnt as [->|?]; [|done].
    exists ft0. split; [|done].
    destruct (assign_feats_frame
                (mkGraph (gdevice g) (gntypes g) (mols g) (<[(nt0, "ft") := ft0]> (ndata g)))
                items) as (_ & _ & _ & Hframe).
    rewrite <-Hframe; [apply lookup_insert_eq|]. by intros [_ ?].
Qed.

(** Features batched from a working graph whose ["ft"] features are on [dev]
    are on [dev]. *)
Lemma rxn_graphs_of_feats_device (working : Graph R) feats reactions bg bf dev :
  (∀ nt t0, nt ∈ dict_keys feats → ndata working !! (nt, "ft") = Some t0 →
     device t0 = dev) →
  rxn_graphs_of working feats reactions = Ok (bg, bf) →
  ∀ nt ft, dict_get bf nt = Ok ft → device ft = dev.
Proof.
  intros Hworking. unfold rxn_graphs_of.
  intros (rs & Hrs & (bg' & Hbatch & (bf' & Hbf & [= <- <-])%bind_Ok)%bind_Ok)%bind_Ok
    nt ft Hft.
  rewrite batch_feats_rxn_feats in Hbf.
  destruct (rxn_feats_Ok _ _ _ _ Hbf) as [Hin Hout].
  destruct (decide (nt ∈ dict_keys feats)) as [Hnt|Hnt];
    [|by rewrite (Hout _ Hnt) in Hft].
  destruct (Hin _ Hnt) as (ft' & (fts & Hfts & Hcat)%bind_Ok & Hft').
  assert (ft' = ft) as -> by congruence.
  apply cat_Ok in Hcat as [_ Hall].
  destruct rs as [|[g gfeats] rs]; [done|].
  apply mapM_Ok in Hfts. inversion Hfts as [|? ft0 ? ? Hft0 _]; subst.
  apply Forall_cons in Hall as [[<- _] _]. simpl in Hft0.
  apply mapM_Ok in Hrs. inversion Hrs as [|rxn ? ? ? Hrxn _]; subst.
  pose proof (rxn_graph_of_Ok _ _ _ _ _ Hrxn) as Hg.
  unfold unbatch in Hg. apply elem_of_lookup_imap in Hg as (i & m & -> & _).
  unfold rxn_graph_of in Hrxn.
  apply bind_Ok in Hrxn as (rcts & _ & (ps & _ & Hcreate)%bind_Ok).
  apply create_rxn_graph_Ok in Hcreate as [_ Hfeats].
  destruct (rxn_feats_Ok _ _ _ _ Hfeats) as [Hstep _].
  destruct (Hstep _ Hnt) as (t & Ht & Hget).
  assert (t = ft0) as -> by congruence.
  apply rxn_ft_device in Ht as (t1 & Ht1 & ->).
  apply component_get_ndata in Ht1 as (t0 & Ht0 & ->). by eapply Hworking.
Qed.

Lemma mol_graph_to_rxn_graph_assigned cuda_count (graph : Graph R) feats reactions built :
  (mol_graph_to_rxn_graph cuda_count graph feats reactions).2 = Ok built →
  ∃ graph0,
    gdevice graph0 = cuda 0
    ∧ (assign_feats graph0 feats).2 = Ok ()
    ∧ rxn_graphs_of (assign_feats graph0 feats).1 feats reactions = Ok built.
Proof.
  rewrite mol_graph_to_rxn_graph_copy. simpl.
  destruct (reachable _ _ _); [|done].
  destruct (assign_feats (copy_to (cuda 0) graph) feats).2 as [[]|e] eqn:Hassigned;
    [|done].
  simpl. intros Hbuilt. by exists (copy_to (cuda 0) graph).
Qed.

Lemma mol_graph_to_rxn_graph_feats_device cuda_count (graph : Graph R) feats
    reactions bg bf :
  (mol_graph_to_rxn_graph cuda_count graph feats reactions).2 = Ok (bg, bf) →
  ∀ nt ft, dict_get bf nt = Ok ft → device ft = cuda 0.
Proof.
  intros (graph0 & Hdev & Hassigned & Hbuilt)%mol_graph_to_rxn_graph_assigned.
  apply (rxn_graphs_of_feats_device (assign_feats graph0 feats).1 feats reactions bg);
    [|done].
  intros nt t0 Hnt Ht0.
  destruct (assign_feats_devices graph0 feats Hassigned nt Hnt) as (ft & Hft & Hftdev).
  congruence.
Qed.
End Devices.

(** C10, as the code has it.  The builder moves the graph, and only the
    graph, to cuda:0 before it attaches the features (the line that would
    move a feature is commented out).  Without a CUDA device the move fails
    for a graph that lives elsewhere, with the error that dgl raises, and so
    do [forward] and [feature_before_fc], whatever the layers.  When the builder returns, the
    reaction graph and the reaction features are on cuda:0 wherever the input
    graph was, and every feature handed in was on cuda:0 already: a feature
    on another device makes the assignment raise. *)
Theorem builder_needs_cuda `{Scalar R} cuda_count embedding gated_layers
    readout_layer fc_layers (graph : Graph R) feats reactions norm_atom norm_bond :
  (cuda_count = 0 → gdevice graph ≠ cuda 0 →
     (mol_graph_to_rxn_graph cuda_count graph feats reactions).2 = Raise DGLError
     ∧ raises (forward cuda_count embedding gated_layers readout_layer fc_layers
                 graph feats reactions norm_atom norm_bond).2
     ∧ raises (feature_before_fc cuda_count embedding gated_layers readout_layer
                 graph feats reactions norm_atom norm_bond).2)
  ∧ (∀ bg bf,
       (mol_graph_to_rxn_graph cuda_count graph feats reactions).2 = Ok (bg, bf) →
       gdevice bg = cuda 0
       ∧ (∀ nt ft, dict_get bf nt = Ok ft → device ft = cuda 0)
       ∧ (gdevice graph = cuda 0 ∨ 0 < cuda_count)
       ∧ Forall (λ item, device item.2 = cuda 0) feats)
  ∧ (∀ nt ft, (nt, ft) ∈ feats → device ft ≠ cuda 0 →
       raises (mol_graph_to_rxn_graph cuda_count graph feats reactions).2).
Proof.
  assert (Hno : ∀ feats', cuda_count = 0 → gdevice graph ≠ cuda 0 →
            (mol_graph_to_rxn_graph cuda_count graph feats' reactions).2
            = Raise DGLError).
  { intros feats' -> Hdev. rewrite mol_graph_to_rxn_graph_copy. unfold reachable.
    by rewrite bool_decide_eq_false_2 by done. }
  assert (Hok : ∀ bg bf,
       (mol_graph_to_rxn_graph cuda_count graph feats reactions).2 = Ok (bg, bf) →
       gdevice bg = cuda 0
       ∧ (∀ nt ft, dict_get bf nt = Ok ft → device ft = cuda 0)
       ∧ (gdevice graph = cuda 0 ∨ 0 < cuda_count)
       ∧ Forall (λ item, device item.2 = cuda 0) feats).
  { intros bg bf Hcall.
    pose proof (mol_graph_to_rxn_graph_feats_device _ _ _ _ _ _ Hcall) as Hbf.
    apply mol_graph_to_rxn_graph_Ok in Hcall
      as (working & Hdev & _ & _ & Havail & Hfeats & Hbuilt).
    apply rxn_graphs_of_device in Hbuilt. split; [congruence|done]. }
  split; [|split; [exact Hok|]].
  - intros Hcount Hdev. split; [by apply Hno|]. split.
    + unfold forward. destruct (_ ≫= _) as [feats'|e]; [|by exists e].
      pose proof (Hno feats' Hcount Hdev) as Hraise.
      destruct (mol_graph_to_rxn_graph cuda_count graph feats' reactions)
        as [after built]. simpl in *. subst built. by exists DGLError.
    + unfold feature_before_fc. destruct (_ ≫= _) as [feats'|e]; [|by exists e].
      pose proof (Hno feats' Hcount Hdev) as Hraise.
      destruct (mol_graph_to_rxn_graph cuda_count graph feats' reactions)
        as [after built]. simpl in *. subst built. by exists DGLError.
  - intros nt ft Hin Hdev. apply not_Ok_raises. intros [bg bf] Hbuilt.
    destruct (Hok bg bf Hbuilt) as (_ & _ & _ & Hall).
    rewrite Forall_forall in Hall. by apply Hdev, (Hall (nt, ft) Hin).
Qed.

Lemma builder_needs_cuda_witness :
  let graph := Example.batch0 cpu in
  let feats := Example.feats0 cpu in
  (gdevice graph ≠ cuda 0)
  ∧ (mol_graph_to_rxn_graph 0 graph feats [Example.dissociation]).2
    = Raise DGLError
  ∧ raises (forward 0 Example.embedding0 [Example.gated0] Example.readout0
              [Example.fc0] graph feats [Example.dissociation] None None).2.
Proof.
  intros graph feats.
  assert (Hdev : gdevice graph ≠ cuda 0) by (intros Heq; discriminate Heq).
  split; [exact Hdev|].
  destruct (proj1 (builder_needs_cuda 0 Example.embedding0 [Example.gated0]
                     Example.readout0 [Example.fc0] graph feats
                     [Example.dissociation] None None) eq_refl Hdev)
    as (Hbuilder & Hforward & _).
  exact (conj Hbuilder Hforward).
Defined.

(** C10 as stated fails on the features: a machine with one CUDA device, the
    batch and its features on the CPU.  The graph is moved to cuda:0, the
    features are not, and the assignment raises instead of building on
    cuda:0; with the same features on cuda:0 the builder returns. *)
Lemma cpu_features_counterexample :
  let graph := Example.batch0 cpu in
  (mol_graph_to_rxn_graph 1 graph (Example.feats0 cpu) [Example.dissociation]).2
  = Raise DGLError
  ∧ ∃ built,
      (mol_graph_to_rxn_graph 1 graph (Example.feats0 (cuda 0))
         [Example.dissociation]).2 = Ok built.
Proof.
  intros graph. split; [vm_compute; reflexivity|].
  eexists. vm_compute. reflexivity.
Qed.

(** * Further properties *)

(** ** Hidden sizes of the training script *)

Section ParseArgs.
Implicit Types (args : Args).

Lemma length_py_repeat {A} (l : list A) (n : Z) :
  length (py_repeat l n) = Z.to_nat n * length l.
Proof.
  unfold py_repeat. induction (Z.to_nat n) as [|k IH]; [done|].
  simpl. rewrite length_app, IH. done.
Qed.

Lemma last_py_repeat {A} (x : A) (n : Z) :
  (0 < n)%Z → last (py_repeat [x] n) = Some x.
Proof.
  intros Hn. unfold py_repeat. destruct (Z.to_nat n) as [|k] eqn:Hk; [lia|].
  clear. induction k as [|k IH]; [done|]. simpl in *. exact IH.
Qed.

Lemma py_index_last {A} (l : list A) x :
  py_index l (-1) = Ok x ↔ last l = Some x.
Proof.
  unfold py_index. rewrite (bool_decide_eq_true_2 (-1 < 0)%Z) by lia.
  rewrite last_lookup. destruct l as [|y l]; [done|].
  rewrite bool_decide_eq_true_2 by (simpl; lia).
  replace (Z.to_nat (-1 + Z.of_nat (length (y :: l)))) with (pred (length (y :: l)))
    by (simpl; lia).
  destruct ((y :: l) !! _); split; congruence.
Qed.

Lemma py_index_last_nil {A} : py_index (@nil A) (-1) = Raise IndexError.
Proof. done. Qed.

Lemma fc_size_bound (val : Z) (i : Z) : (8 ≤ (val `div` 2 ^ i) `max` 8)%Z.
Proof. lia. Qed.

Lemma fc_size_decreasing (val : Z) (i : nat) :
  ((val `div` 2 ^ Z.of_nat (S i)) `max` 8 ≤ (val `div` 2 ^ Z.of_nat i) `max` 8)%Z.
Proof.
  assert (0 < 2 ^ Z.of_nat i)%Z as Hpos by (apply Z.pow_pos_nonneg; lia).
  assert (2 ^ Z.of_nat (S i) = 2 * 2 ^ Z.of_nat i)%Z as ->
    by (rewrite Nat2Z.inj_succ, Z.pow_succ_r; lia).
  destruct (decide (0 ≤ val)%Z) as [Hval|Hval].
  - apply Z.max_le_compat_r, Z.div_le_compat_l; lia.
  - assert (val `div` (2 * 2 ^ Z.of_nat i) < 0)%Z
      by (apply Z.div_lt_upper_bound; lia).
    lia.
Qed.
Lemma py_repeat_singleton {A} (x : A) (n : Z) :
  py_repeat [x] n = replicate (Z.to_nat n) x.
Proof.
  unfold py_repeat. induction (Z.to_nat n) as [|k IH]; [done|].
  simpl in *. by rewrite IH.
Qed.
End ParseArgs.

(** X1. When [parse_args] returns, the layer counts are unchanged, the list
    of gated sizes has one entry per gated layer and the list of fully
    connected sizes one per fully connected layer (no entry for a count below
    zero), a list that did not have exactly one entry is kept as given, and
    a single gated size is repeated for every gated layer. *)
Theorem parse_args_lengths (args args' : Args) :
  parse_args args = Ok args' →
  gated_num_layers args' = gated_num_layers args
  ∧ fc_num_layers args' = fc_num_layers args
  ∧ Z.of_nat (length (gated_hidden_size args')) = (0 `max` gated_num_layers args)%Z
  ∧ Z.of_nat (length (fc_hidden_size args')) = (0 `max` fc_num_layers args)%Z
  ∧ (length (gated_hidden_size args) ≠ 1 →
     gated_hidden_size args' = gated_hidden_size args)
  ∧ (length (fc_hidden_size args) ≠ 1 →
     fc_hidden_size args' = fc_hidden_size args)
  ∧ (∀ size, gated_hidden_size args = [size] →
       gated_hidden_size args'
       = replicate (Z.to_nat (gated_num_layers args)) size).
Proof.
  unfold parse_args, len_is.
  intros (gated & Hgated & (fc & Hfc & [= <-])%bind_Ok)%bind_Ok. simpl.
  split; [done|]. split; [done|].
  assert (Z.of_nat (length gated) = (0 `max` gated_num_layers args)%Z
          ∧ (length (gated_hidden_size args) ≠ 1 → gated = gated_hidden_size args)
          ∧ (∀ size, gated_hidden_size args = [size] →
               gated = replicate (Z.to_nat (gated_num_layers args)) size))
    as (Hglen & Hgkeep & Hgrepeat).
  { destruct (decide (Z.of_nat (length (gated_hidden_size args)) = 1%Z)) as [Hone|Hone].
    - rewrite bool_decide_eq_true_2 in Hgated by done.
      injection Hgated as <-. rewrite length_py_repeat. split; [lia|]. split; [lia|].
      intros size ->. apply py_repeat_singleton.
    - rewrite bool_decide_eq_false_2 in Hgated by done.
      apply bind_Ok in Hgated as ([] & Hassert & [= <-]).
      unfold py_assert in Hassert.
      destruct (decide (Z.of_nat (length (gated_hidden_size args))
                        = gated_num_layers args)) as [Hlen|Hlen].
      + split; [lia|]. split; [done|]. intros size Hsize. by rewrite Hsize in Hone.
      + by rewrite bool_decide_eq_false_2 in Hassert. }
  assert (Z.of_nat (length fc) = (0 `max` fc_num_layers args)%Z
          ∧ (length (fc_hidden_size args) ≠ 1 → fc = fc_hidden_size args))
    as [Hflen Hfkeep].
  { destruct (decide (Z.of_nat (length (fc_hidden_size args)) = 1%Z)) as [Hone|Hone].
    - rewrite bool_decide_eq_true_2 in Hfc by done.
      apply bind_Ok in Hfc as (last & _ & [= <-]).
      rewrite length_fmap, length_seqZ. split; lia.
    - rewrite bool_decide_eq_false_2 in Hfc by done.
      apply bind_Ok in Hfc as ([] & Hassert & [= <-]).
      unfold py_assert in Hassert.
      destruct (decide (Z.of_nat (length (fc_hidden_size args))
                        = fc_num_layers args)) as [Hlen|Hlen].
      + split; [lia|done].
      + by rewrite bool_decide_eq_false_2 in Hassert. }
  done.
Qed.

Lemma parse_args_lengths_witness :
  let args := mkArgs 3 [64]%Z 4 [384; 192; 96; 48]%Z in
  ∃ args', parse_args args = Ok args'
    ∧ gated_hidden_size args' = [64; 64; 64]%Z
    ∧ Z.of_nat (length (gated_hidden_size args')) = 3%Z
    ∧ fc_hidden_size args' = [384; 192; 96; 48]%Z.
Proof.
  intros args.
  assert (Hrun : parse_args args = Ok (mkArgs 3 [64; 64; 64]%Z 4 [384; 192; 96; 48]%Z))
    by (vm_compute; reflexivity).
  eexists. split; [exact Hrun|]. split; [reflexivity|].
  destruct (parse_args_lengths _ _ Hrun) as (_ & _ & Hlen & _ & _ & Hkeep & _).
  split; [exact Hlen|]. apply Hkeep. simpl. lia.
Defined.

(** X2. When a single fully connected size is given, [parse_args] discards
    its value: the sizes it returns are computed from the last gated size,
    entry [i] being [max((2 * last) // 2 ** i, 8)].  They are all at least 8
    and never increase from one layer to the next. *)
Theorem parse_args_fc_sizes (args args' : Args) :
  length (fc_hidden_size args) = 1 →
  parse_args args = Ok args' →
  ∃ last_gated,
    last (gated_hidden_size args') = Some last_gated
    ∧ fc_hidden_size args'
      = (λ i, ((2 * last_gated) `div` 2 ^ i) `max` 8)%Z <$> seqZ 0 (fc_num_layers args)
    ∧ Forall (λ size, (8 ≤ size)%Z) (fc_hidden_size args')
    ∧ (∀ i a b, fc_hidden_size args' !! i = Some a →
                fc_hidden_size args' !! S i = Some b → (b ≤ a)%Z)
    ∧ ∀ size, parse_args (mkArgs (gated_num_layers args) (gated_hidden_size args)
                            (fc_num_layers args) [size]) = Ok args'.
Proof.
  intros Hone. unfold parse_args at 1, len_is.
  intros (gated & Hgated & (fc & Hfc & [= <-])%bind_Ok)%bind_Ok. simpl.
  rewrite (bool_decide_eq_true_2 (Z.of_nat (length (fc_hidden_size args)) = 1%Z)) in Hfc
    by lia.
  apply bind_Ok in Hfc as (last_gated & Hlast & [= <-]).
  exists last_gated. split; [by apply py_index_last|]. split; [done|]. split; [|split].
  - apply Forall_fmap, Forall_true. intros i. apply fc_size_bound.
  - intros i a b. rewrite !list_lookup_fmap.
    destruct (seqZ 0 (fc_num_layers args) !! i) as [j|] eqn:Hj; [|done].
    destruct (seqZ 0 (fc_num_layers args) !! S i) as [k|] eqn:Hk; [|done].
    apply lookup_seqZ in Hj as [-> _]. apply lookup_seqZ in Hk as [-> _].
    simpl. intros [= <-] [= <-]. rewrite !Z.add_0_l. apply fc_size_decreasing.
  - intros size. unfold parse_args, len_is. simpl. rewrite Hgated. simpl.
    rewrite Hlast. done.
Qed.

Lemma parse_args_fc_sizes_witness :
  let args := mkArgs 3 [64]%Z 4 [7]%Z in
  let args' := mkArgs 3 [64; 64; 64]%Z 4 [128; 64; 32; 16]%Z in
  parse_args args = Ok args'
  ∧ parse_args (mkArgs 3 [64]%Z 4 [1000]%Z) = Ok args'.
Proof.
  intros args args'.
  assert (Hrun : parse_args args = Ok args') by (vm_compute; reflexivity).
  split; [exact Hrun|].
  destruct (parse_args_fc_sizes args args' eq_refl Hrun) as (_ & _ & _ & _ & _ & Hany).
  exact (Hany 1000%Z).
Defined.

(** X3. With at least one gated layer, [parse_args] returns exactly when each
    list of sizes has one entry or as many entries as its layer count, and
    raises [AssertionError] otherwise.  With no gated layer, single sizes make
    it raise [IndexError]: the repeated gated list is empty and has no last
    entry to derive the fully connected sizes from. *)
Theorem parse_args_outcome (args : Args) :
  let fits (sizes : list Z) (n : Z) := length sizes = 1 ∨ Z.of_nat (length sizes) = n in
  ((0 < gated_num_layers args)%Z →
     fits (gated_hidden_size args) (gated_num_layers args) →
     fits (fc_hidden_size args) (fc_num_layers args) →
     ∃ args', parse_args args = Ok args')
  ∧ (¬ fits (gated_hidden_size args) (gated_num_layers args) →
     parse_args args = Raise AssertionError)
  ∧ (fits (gated_hidden_size args) (gated_num_layers args) →
     ¬ fits (fc_hidden_size args) (fc_num_layers args) →
     parse_args args = Raise AssertionError)
  ∧ ((gated_num_layers args ≤ 0)%Z →
     length (gated_hidden_size args) = 1 → length (fc_hidden_size args) = 1 →
     parse_args args = Raise IndexError).
Proof.
  intros fits. unfold fits.
  assert (Hgated : length (gated_hidden_size args) = 1
                   ∨ Z.of_nat (length (gated_hidden_size args)) = gated_num_layers args →
            ∃ gated,
              (if len_is (gated_hidden_size args) 1
               then Ok (py_repeat (gated_hidden_size args) (gated_num_layers args))
               else _ ← py_assert (len_is (gated_hidden_size args) (gated_num_layers args));
                    Ok (gated_hidden_size args)) = Ok gated
              ∧ ((0 < gated_num_layers args)%Z → ∃ x, last gated = Some x)).
  { intros Hfit. unfold len_is.
    destruct (decide (length (gated_hidden_size args) = 1)) as [Hone|Hone].
    - rewrite (bool_decide_eq_true_2 (Z.of_nat (length (gated_hidden_size args)) = 1%Z))
        by lia.
      eexists. split; [done|]. intros Hpos.
      destruct (gated_hidden_size args) as [|x [|y g]]; try done.
      exists x. by apply last_py_repeat.
    - rewrite (bool_decide_eq_false_2 (Z.of_nat (length (gated_hidden_size args)) = 1%Z))
        by lia.
      destruct Hfit as [?|Hn]; [done|]. rewrite (bool_decide_eq_true_2 _ Hn). simpl.
      eexists. split; [done|]. intros Hpos.
      destruct (gated_hidden_size args) as [|x g] eqn:Hg; [simpl in Hn; lia|].
      rewrite last_lookup. apply lookup_lt_is_Some_2. simpl. lia. }
  split; [|split; [|split]].
  - intros Hpos Hg Hf. destruct (Hgated Hg) as (gated & Hstep & Hlast).
    destruct (Hlast Hpos) as [x Hx]. apply py_index_last in Hx.
    unfold parse_args. rewrite Hstep. simpl. unfold len_is.
    destruct (decide (length (fc_hidden_size args) = 1)) as [Hone|Hone].
    + rewrite (bool_decide_eq_true_2 (Z.of_nat (length (fc_hidden_size args)) = 1%Z))
        by lia.
      rewrite Hx. simpl. by eexists.
    + rewrite (bool_decide_eq_false_2 (Z.of_nat (length (fc_hidden_size args)) = 1%Z))
        by lia.
      destruct Hf as [?|Hn]; [done|]. rewrite (bool_decide_eq_true_2 _ Hn). simpl.
      by eexists.
  - intros Hnofit. unfold parse_args, len_is.
    rewrite (bool_decide_eq_false_2 (Z.of_nat (length (gated_hidden_size args)) = 1%Z))
      by (intros ?; apply Hnofit; left; lia).
    rewrite (bool_decide_eq_false_2
               (Z.of_nat (length (gated_hidden_size args)) = gated_num_layers args))
      by (intros ?; apply Hnofit; by right).
    done.
  - intros Hg Hnofit. destruct (Hgated Hg) as (gated & Hstep & _).
    unfold parse_args. rewrite Hstep. simpl. unfold len_is.
    rewrite (bool_decide_eq_false_2 (Z.of_nat (length (fc_hidden_size args)) = 1%Z))
      by (intros ?; apply Hnofit; left; lia).
    rewrite (bool_decide_eq_false_2
               (Z.of_nat (length (fc_hidden_size args)) = fc_num_layers args))
      by (intros ?; apply Hnofit; by right).
    done.
  - intros Hn Hg1 Hf1. unfold parse_args, len_is.
    rewrite (bool_decide_eq_true_2 (Z.of_nat (length (gated_hidden_size args)) = 1%Z))
      by lia.
    simpl.
    rewrite (bool_decide_eq_true_2 (Z.of_nat (length (fc_hidden_size args)) = 1%Z))
      by lia.
    unfold py_repeat. replace (Z.to_nat (gated_num_layers args)) with 0 by lia.
    done.
Qed.

Lemma parse_args_outcome_witness :
  (∃ args', parse_args (mkArgs 5 [192; 384; 512; 384; 192]%Z 2 [384]%Z) = Ok args')
  ∧ parse_args (mkArgs 2 [5; 6; 7]%Z 4 [7]%Z) = Raise AssertionError
  ∧ parse_args (mkArgs 0 [5]%Z 4 [7]%Z) = Raise IndexError.
Proof.
  split; [|split].
  - apply (proj1 (parse_args_outcome (mkArgs 5 [192; 384; 512; 384; 192]%Z 2 [384]%Z)));
      simpl; [lia | by right | by left].
  - apply (proj1 (proj2 (parse_args_outcome (mkArgs 2 [5; 6; 7]%Z 4 [7]%Z)))).
    simpl. intros [?|?]; lia.
  - apply (proj2 (proj2 (proj2 (parse_args_outcome (mkArgs 0 [5]%Z 4 [7]%Z)))));
      simpl; [lia | reflexivity | reflexivity].
Defined.

(** ** Predictions and failed entries *)

Section AlignPredictions.
Context {A : Type}.
Implicit Types (predictions : list A) (failed : list bool).

Lemma py_index_raise {B} (l : list B) (i : Z) e :
  py_index l i = Raise e → e = IndexError.
Proof.
  unfold py_index. case_bool_decide; [|congruence].
  destruct (l !! _); congruence.
Qed.

Lemma fill_failed_Ok predictions failed idx pred out :
  (idx ≤ length predictions)%nat →
  fill_failed predictions failed idx pred = Ok out →
  ∃ body,
    out = pred ++ body
    ∧ length body = length failed
    ∧ (∀ i, body !! i = Some None ↔ failed !! i = Some true)
    ∧ omap id body = take (succeeded failed) (drop idx predictions)
    ∧ (idx + succeeded failed ≤ length predictions)%nat.
Proof.
  unfold succeeded.
  revert idx pred. induction failed as [|flag failed IH]; intros idx pred Hidx; simpl.
  - intros [= <-]. exists []. rewrite app_nil_r. repeat split; try done; simpl; lia.
  - destruct flag.
    + intros (body & -> & Hlen & Hnone & Hvals & Hbound)%IH; [|done].
      exists (None :: body). rewrite <-app_assoc. split; [done|].
      split; [simpl; lia|]. split; [|done].
      intros [|i]; simpl; [done|apply Hnone].
    + intros (x & Hx & Hrest)%bind_Ok. apply py_index_nat_inv in Hx.
      pose proof (lookup_lt_Some _ _ _ Hx) as Hlt.
      apply IH in Hrest as (body & -> & Hlen & Hnone & Hvals & Hbound); [|lia].
      exists (Some x :: body). rewrite <-app_assoc. split; [done|].
      split; [simpl; lia|]. rewrite filter_cons_True by done. simpl.
      split; [|split; [|lia]].
      * intros [|i]; simpl; [split; congruence|apply Hnone].
      * rewrite (drop_S _ _ _ Hx). simpl. f_equal. rewrite <-Nat.add_1_r. exact Hvals.
Qed.

Lemma fill_failed_total predictions failed idx pred :
  (idx + succeeded failed ≤ length predictions)%nat →
  ∃ out, fill_failed predictions failed idx pred = Ok out.
Proof.
  unfold succeeded.
  revert idx pred. induction failed as [|flag failed IH]; intros idx pred; simpl.
  - by eexists.
  - destruct flag; [apply IH|].
    rewrite filter_cons_True by done. simpl. intros Hbound.
    destruct (lookup_lt_is_Some_2 predictions idx) as [x Hx]; [lia|].
    rewrite (py_index_nat _ _ _ Hx). simpl. apply IH. lia.
Qed.

Lemma fill_failed_raise predictions failed idx pred e :
  fill_failed predictions failed idx pred = Raise e → e = IndexError.
Proof.
  revert idx pred. induction failed as [|flag failed IH]; intros idx pred; simpl; [done|].
  destruct flag; [apply IH|].
  destruct (py_index predictions (Z.of_nat idx)) as [x|e'] eqn:Hx; simpl; [apply IH|].
  intros [= <-]. by eapply py_index_raise.
Qed.
End AlignPredictions.

(** X4. When the alignment of [main] returns, the result has one entry per
    flag.  If the numbers of predictions and of flags differ, the entries
    flagged as failed, and only those, are [None], and the others carry the
    predictions in their order, surplus predictions being dropped.  If the
    numbers are equal, the predictions come back as they are, whatever the
    flags say. *)
Theorem align_predictions_shape {A} (predictions : list A) failed out :
  align_predictions predictions failed = Ok out →
  length out = length failed
  ∧ (length predictions ≠ length failed →
     (∀ i, out !! i = Some None ↔ failed !! i = Some true)
     ∧ omap id out = take (succeeded failed) predictions)
  ∧ (length predictions = length failed → out = Some <$> predictions).
Proof.
  unfold align_predictions. case_decide as Hlen.
  - intros (body & -> & Hbody & Hnone & Hvals & _)%fill_failed_Ok; [|lia].
    simpl. split; [done|]. split; [done|]. intros ?. by destruct Hlen.
  - intros [= <-]. rewrite length_fmap. split; [|split]; [|done..].
    destruct (decide (length predictions = length failed)); [done|]. by destruct Hlen.
Qed.

Lemma align_predictions_shape_witness :
  let predictions := [10; 20; 30]%Z in
  let failed := [false; true; false; true] in
  align_predictions predictions failed = Ok [Some 10; None; Some 20; None]%Z
  ∧ omap id [Some 10; None; Some 20; None]%Z = take (succeeded failed) predictions.
Proof.
  intros predictions failed.
  assert (Hrun : align_predictions predictions failed
                 = Ok [Some 10; None; Some 20; None]%Z) by reflexivity.
  split; [exact Hrun|].
  destruct (align_predictions_shape predictions failed _ Hrun) as (_ & Hdiff & _).
  apply Hdiff. simpl. lia.
Defined.

(** X5. The alignment fails only for want of predictions: when the numbers of
    predictions and of flags differ and fewer predictions are given than
    entries succeeded, it raises [IndexError]; in every other case it
    returns. *)
Theorem align_predictions_outcome {A} (predictions : list A) failed :
  (length predictions ≠ length failed → length predictions < succeeded failed →
     align_predictions predictions failed = Raise IndexError)
  ∧ (length predictions = length failed ∨ (succeeded failed ≤ length predictions)%nat →
     ∃ out, align_predictions predictions failed = Ok out).
Proof.
  unfold align_predictions. split.
  - intros Hlen Hfew. rewrite decide_True by done.
    destruct (fill_failed predictions failed 0 []) as [out|e] eqn:Hfill.
    + apply fill_failed_Ok in Hfill as (_ & _ & _ & _ & _ & Hbound); lia.
    + by apply fill_failed_raise in Hfill as ->.
  - intros Hok. case_decide as Hlen; [|by eexists].
    apply fill_failed_total. lia.
Qed.

Lemma align_predictions_outcome_witness :
  align_predictions [10]%Z [false; true; false] = Raise IndexError
  ∧ ∃ out, align_predictions [10; 20; 30; 40]%Z [false; true; false] = Ok out.
Proof.
  split.
  - apply (proj1 (align_predictions_outcome [10]%Z [false; true; false])); cbv; lia.
  - apply (proj2 (align_predictions_outcome [10; 20; 30; 40]%Z [false; true; false])).
    right. cbv. lia.
Defined.

(** ** Splitting and joining the bond features *)

Section SplitJoin.
Context `{Scalar R}.

Lemma cat_chunks dev (d : nat) (chunks : list (list (list R))) :
  chunks ≠ [] →
  cat (mkTensor dev d <$> chunks) = Ok (mkTensor dev d (concat chunks)).
Proof.
  intros Hne. destruct chunks as [|c chunks]; [done|].
  rewrite fmap_cons, cat_total by (apply Forall_fmap, Forall_true; done).
  rewrite <-fmap_cons, <-list_fmap_compose.
  by rewrite (list_fmap_ext _ id (c :: chunks)), list_fmap_id by done.
Qed.

Lemma concat_slices {A} (c : nat) (l : list A) (k : nat) :
  (length l ≤ k * c)%nat →
  concat ((λ i, take c (drop (i * c) l)) <$> seq 0 k) = l.
Proof.
  revert l. induction k as [|k IH]; intros l Hlen.
  - destruct l; [done|simpl in Hlen; lia].
  - rewrite <-cons_seq, fmap_cons, <-fmap_S_seq, <-list_fmap_compose.
    rewrite (list_fmap_ext _ (λ i, take c (drop (i * c) (drop c l))) (seq 0 k)).
    + simpl. rewrite IH by (rewrite length_drop; lia). apply take_drop.
    + intros i j _. simpl. by rewrite drop_drop.
Qed.

Lemma split_size_chunks (value : Tensor R) (c : nat) :
  c ≠ 0 →
  split_size value c
  = Ok (mkTensor (device value) (ncols value)
          <$> ((λ i, take c (drop (i * c) (rows value)))
                 <$> seq 0 (((nrows value + c - 1) `div` c) `max` 1))).
Proof.
  intros Hc. unfold split_size. rewrite decide_False by done.
  by rewrite <-list_fmap_compose.
Qed.

Lemma split_size_Ok (value : Tensor R) (c : nat) fts :
  split_size value c = Ok fts →
  Forall (λ t, device t = device value ∧ ncols t = ncols value ∧ (nrows t ≤ c)%nat) fts
  ∧ cat fts = Ok value
  ∧ (length fts = 1 ↔ (nrows value ≤ c)%nat).
Proof.
  destruct (decide (c = 0)) as [->|Hc].
  - unfold split_size. simpl. case_decide as Hn; [|done]. intros [= <-].
    split; [constructor; [|constructor]; repeat split; lia|]. split; [|simpl; lia].
    rewrite (cat_total value []) by constructor. simpl. rewrite app_nil_r.
    by destruct value.
  - rewrite split_size_chunks by done. intros [= <-].
    pose proof (Nat.div_mod_eq (nrows value + c - 1) c) as Hdiv.
    pose proof (Nat.mod_upper_bound (nrows value + c - 1) c Hc) as Hmod.
    set (q := (nrows value + c - 1) `div` c) in *.
    split; [|split].
    + apply Forall_fmap, Forall_fmap, Forall_true. intros i. simpl.
      split; [done|]. split; [done|]. unfold nrows. simpl. rewrite length_take. lia.
    + rewrite cat_chunks.
      * rewrite concat_slices; [by destruct value|]. unfold nrows in *. nia.
      * intros Hnil%fmap_nil_inv. apply (f_equal length) in Hnil.
        rewrite length_seq in Hnil. simpl in Hnil. lia.
    + rewrite !length_fmap, length_seq. split; intros Hone; nia.
Qed.

Lemma split_size_total (value : Tensor R) (c : nat) :
  (0 < c)%nat ∨ nrows value = 0 → ∃ fts, split_size value c = Ok fts.
Proof.
  intros Hc. unfold split_size. case_decide as Hzero; [|by eexists].
  rewrite decide_True by lia. by eexists.
Qed.

Lemma split_size_zero (value : Tensor R) :
  (0 < nrows value)%nat → split_size value 0 = Raise RuntimeError.
Proof. intros Hn. unfold split_size. simpl. rewrite decide_False by lia. done. Qed.
End SplitJoin.

(** X6. [_split_batched_output] gives [torch.split] the tensor of the
    molecules' bond counts.  For a batch of two or more molecules that is a
    TypeError.  For a single molecule the count is read as a chunk size: the
    call returns unless the count is zero and the tensor has rows; the chunks
    keep the tensor's device and width, have at most that many rows each,
    give the tensor back when joined with [torch.cat], and are a single chunk
    exactly when the tensor has no more rows than the molecule has bonds. *)
Theorem split_batched_output_round_trip `{Scalar R} (graph : Graph R) (value : Tensor R) :
  ((2 ≤ length (mols graph))%nat →
   _split_batched_output graph value = Raise TypeError)
  ∧ ∀ m, mols graph = [m] →
      ((0 < num_nodes m "bond")%nat ∨ nrows value = 0 →
       ∃ fts, _split_batched_output graph value = Ok fts)
      ∧ (num_nodes m "bond" = 0 → (0 < nrows value)%nat →
         _split_batched_output graph value = Raise RuntimeError)
      ∧ ∀ fts, _split_batched_output graph value = Ok fts →
          Forall (λ t, device t = device value ∧ ncols t = ncols value
                       ∧ (nrows t ≤ num_nodes m "bond")%nat) fts
          ∧ cat fts = Ok value
          ∧ (length fts = 1 ↔ (nrows value ≤ num_nodes m "bond")%nat).
Proof.
  split; [apply split_batched_output_many|].
  intros m Hm. unfold _split_batched_output, batch_num_nodes. rewrite Hm. simpl.
  split; [apply split_size_total|]. split.
  - intros ->. apply split_size_zero.
  - intros fts. apply split_size_Ok.
Qed.

Lemma split_batched_output_round_trip_witness :
  let graph := mkGraph cpu ["atom"; "bond"; "global"] [Example.water] ∅ in
  let value := mkTensor cpu 2 [[1; 1]; [2; 2]; [3; 3]; [4; 4]; [5; 5]]%Z in
  let fts := [mkTensor cpu 2 [[1; 1]; [2; 2]]%Z; mkTensor cpu 2 [[3; 3]; [4; 4]]%Z;
              mkTensor cpu 2 [[5; 5]]%Z] in
  num_nodes Example.water "bond" = 2
  ∧ _split_batched_output graph value = Ok fts
  ∧ cat fts = Ok value.
Proof.
  intros graph value fts.
  assert (Hsplit : _split_batched_output graph value = Ok fts)
    by (vm_compute; reflexivity).
  split; [vm_compute; reflexivity|]. split; [exact Hsplit|].
  destruct (proj2 (split_batched_output_round_trip graph value) Example.water eq_refl)
    as (_ & _ & Hchunks).
  exact (proj1 (proj2 (Hchunks fts Hsplit))).
Defined.

(** X7. [forward] is [feature_before_fc] followed by the fully connected
    layers: the same exception or the same readout features, passed through
    the layers in order, and the same effect on the caller's graph. *)
Theorem forward_after_feature_before_fc `{Scalar R} cuda_count embedding gated_layers
    readout_layer fc_layers (graph : Graph R) feats reactions norm_atom norm_bond :
  let before := feature_before_fc cuda_count embedding gated_layers readout_layer
                  graph feats reactions norm_atom norm_bond in
  let run := forward cuda_count embedding gated_layers readout_layer fc_layers
               graph feats reactions norm_atom norm_bond in
  run.1 = before.1
  ∧ run.2 = (feats ← before.2; run_fc fc_layers feats)
  ∧ (∀ e, before.2 = Raise e → run.2 = Raise e)
  ∧ (fc_layers = [] → run = before).
Proof.
  intros before run. unfold before, run, forward, feature_before_fc.
  destruct (_ ≫= _) as [feats'|e]; [|by repeat split].
  destruct (mol_graph_to_rxn_graph cuda_count graph feats' reactions)
    as [after [[bg bf]|e]]; simpl.
  - split; [done|]. split; [done|]. split; [by intros e ->|].
    intros ->. simpl. by destruct (readout_layer bg bf).
  - split; [done|]. split; [done|]. split; [by intros e' [= ->]|done].
Qed.

(** ** The reaction graphs *)

Section ReactionGraphs.
Context `{Scalar R}.

Lemma py_index_imap {A B} (f : nat → A → B) (l : list A) (i : Z) y :
  py_index (imap f l) i = Ok y →
  ∃ k x, l !! k = Some x ∧ y = f k x ∧ py_index l i = Ok x.
Proof.
  unfold py_index. rewrite length_imap. case_bool_decide; [|done].
  rewrite list_lookup_imap. destruct (l !! _) as [x|] eqn:Hx; [|done].
  simpl. intros [= <-]. by eexists _, x.
Qed.

Lemma rxn_graph_of_reactant (graphs : list (Graph R)) ntypes rxn g feats :
  rxn_graph_of graphs ntypes rxn = Ok (g, feats) →
  ∃ i, reactants rxn = [i] ∧ py_index graphs i = Ok g.
Proof.
  unfold rxn_graph_of.
  intros (rs & Hrs & (ps & Hps & Hcreate)%bind_Ok)%bind_Ok.
  apply create_rxn_graph_Ok in Hcreate as [-> _].
  apply mapM_Ok in Hrs. inversion Hrs as [|i g' is' ? Hg Hnil]; subst.
  inversion Hnil; subst. by exists i.
Qed.

Lemma rxn_graphs_of_mols (working : Graph R) feats reactions bg bf :
  rxn_graphs_of working feats reactions = Ok (bg, bf) →
  Forall2 (λ rxn m, ∃ i, reactants rxn = [i] ∧ py_index (mols working) i = Ok m)
    reactions (mols bg).
Proof.
  intros (rs & Hrs & -> & _)%rxn_graphs_of_Ok.
  induction Hrs as [|rxn [g gfeats] reactions rs Hrxn _ IH]; [constructor|].
  apply rxn_graph_of_reactant in Hrxn as (i & Hi & Hg).
  unfold unbatch in Hg. apply py_index_imap in Hg as (k & m & _ & -> & Hm).
  rewrite fmap_cons, bind_cons. simpl. constructor; [by exists i|exact IH].
Qed.
End ReactionGraphs.

(** X8. When the builder returns, the batched reaction graph is made of the
    reactants' molecules, one per reaction and in the order of the list:
    each reaction names exactly one reactant, and the component at its place
    is the molecule of the input batch at that index. *)
Theorem reaction_graph_is_reactant `{Scalar R} cuda_count (graph : Graph R) feats
    reactions bg bf :
  (mol_graph_to_rxn_graph cuda_count graph feats reactions).2 = Ok (bg, bf) →
  Forall2 (λ rxn m, ∃ i, reactants rxn = [i] ∧ py_index (mols graph) i = Ok m)
    reactions (mols bg)
  ∧ gntypes bg = gntypes graph.
Proof.
  intros Hcall.
  pose proof (mol_graph_to_rxn_graph_Ok _ _ _ _ _ Hcall)
    as (working & _ & Hnt & Hmols & _ & _ & Hbuilt).
  split.
  - rewrite <-Hmols. by eapply rxn_graphs_of_mols.
  - unfold rxn_graphs_of in Hbuilt.
    apply bind_Ok in Hbuilt
        as (rs & Hrs & (bg' & Hbatch & (bf' & _ & [= <- <-])%bind_Ok)%bind_Ok).
    destruct rs as [|[g gfeats] rs]; [done|]. simpl in Hbatch.
    destruct (forallb _ _); [|done]. injection Hbatch as <-. simpl.
    apply mapM_Ok in Hrs. inversion Hrs as [|rxn ? ? ? Hrxn _]; subst.
    apply rxn_graph_of_Ok, unbatch_elem in Hrxn as (_ & -> & _). done.
Qed.

Lemma reaction_graph_is_reactant_witness :
  ∃ bg bf,
    (mol_graph_to_rxn_graph 1 (Example.batch0 cpu) (Example.feats0 (cuda 0))
       [Example.dissociation; Example.dissociation]).2 = Ok (bg, bf)
    ∧ mols bg = [Example.water; Example.water].
Proof.
  assert (∃ built,
            (mol_graph_to_rxn_graph 1 (Example.batch0 cpu) (Example.feats0 (cuda 0))
               [Example.dissociation; Example.dissociation]).2 = Ok built)
    as [[bg bf] Hcall] by (eexists; vm_compute; reflexivity).
  exists bg, bf. split; [exact Hcall|].
  destruct (reaction_graph_is_reactant _ _ _ _ _ _ Hcall) as [Hmols _].
  inversion Hmols as [|rxn1 m1 ? ms1 (i1 & Hi1 & Hm1) Hrest]; subst.
  inversion Hrest as [|rxn2 m2 ? ms2 (i2 & Hi2 & Hm2) Hnil]; subst.
  inversion Hnil; subst.
  injection Hi1 as <-. injection Hi2 as <-.
  injection Hm1 as <-. injection Hm2 as <-. reflexivity.
Defined.

(** ** Rows of the reaction features *)

Section Rows.
Context `{Scalar R}.

Lemma length_expand {A} (n : nat) (l : list A) :
  length l = 1 ∨ length l = n → length (expand n l) = n.
Proof.
  intros [Hone|Hn]; [|by rewrite expand_id].
  destruct l as [|x [|y l]]; try done. simpl. apply length_replicate.
Qed.

Lemma sub_Ok_rows (a b t : Tensor R) :
  sub a b = Ok t →
  (nrows a = nrows b ∧ nrows t = nrows b)
  ∨ (nrows a = 1 ∧ nrows t = nrows b)
  ∨ (nrows b = 1 ∧ nrows t = nrows a).
Proof.
  unfold sub, broadcast_dim. case_decide; [|done].
  destruct (decide (nrows a = nrows b)) as [Hab|Hab];
    [|destruct (decide (nrows a = 1)) as [Ha|Ha];
      [|destruct (decide (nrows b = 1)) as [Hb|Hb]; [|done]]];
    (destruct (decide (ncols a = ncols b));
      [|destruct (decide (ncols a = 1)); [|destruct (decide (ncols b = 1)); [|done]]]);
    intros [= <-]; unfold nrows in *; simpl;
    rewrite length_zip_with, !length_expand by (lia || (right; lia) || (left; lia));
    lia.
Qed.

Lemma index_rows_Ok (t : Tensor R) idx t' :
  index_rows t idx = Ok t' → nrows t' = length idx.
Proof.
  unfold index_rows. intros (sel & Hsel & [= <-])%bind_Ok.
  unfold nrows. simpl. by apply mapM_Ok_length in Hsel.
Qed.

Lemma rxn_ft_global_rows (reactants products : list (Graph R)) mappings has_bonds
    ft_name t :
  rxn_ft reactants products mappings has_bonds ft_name "global" = Ok t → nrows t = 1.
Proof.
  unfold rxn_ft. intros ([rf pf] & _ & Hdiff)%bind_Ok.
  unfold diff_ft in Hdiff. rewrite decide_True in Hdiff by done.
  apply sub_Ok_rows in Hdiff. unfold nrows, sum_dim0 in *. simpl in Hdiff. lia.
Qed.
End Rows.

(** X9. Whatever the numbers of molecules and of global rows, a global
    reaction feature that is returned has exactly one row; so the builder's
    batched global feature has one row per reaction. *)
Theorem global_feature_one_row `{Scalar R} cuda_count (graph : Graph R) feats
    reactions bg bf :
  (mol_graph_to_rxn_graph cuda_count graph feats reactions).2 = Ok (bg, bf) →
  "global" ∈ dict_keys feats →
  ∃ ft, dict_get bf "global" = Ok ft ∧ nrows ft = length reactions.
Proof.
  intros Hcall Hglobal.
  pose proof (mol_graph_to_rxn_graph_Ok _ _ _ _ _ Hcall)
    as (working & _ & _ & _ & _ & _ & Hbuilt).
  apply rxn_graphs_of_Ok in Hbuilt as (rs & Hrs & _ & _ & Hfeats).
  destruct (Hfeats _ Hglobal) as (fts & ft & Hfts & Hft & Hrows).
  exists ft. split; [done|]. unfold nrows. rewrite Hrows, length_concat_rows.
  rewrite (Forall2_length _ _ _ Hrs). clear Hrows Hft Hfeats Hcall.
  revert fts Hfts. induction Hrs as [|rxn [g gfeats] reactions rs Hrxn _ IH];
    intros fts Hfts; inversion Hfts as [|? t ? fts' Ht Hfts']; subst; [done|].
  rewrite fmap_cons. simpl. rewrite (IH _ Hfts').
  enough (nrows t = 1) as -> by done.
  unfold rxn_graph_of in Hrxn.
  apply bind_Ok in Hrxn as (rcts & _ & (ps & _ & Hcreate)%bind_Ok).
  apply create_rxn_graph_Ok in Hcreate as [_ Hgfeats].
  destruct (rxn_feats_Ok _ _ _ _ Hgfeats) as [Hstep _].
  destruct (Hstep _ Hglobal) as (t' & Ht' & Hget). simpl in Ht.
  assert (t' = t) as -> by congruence. by eapply rxn_ft_global_rows.
Qed.

Lemma global_feature_one_row_witness :
  ∃ bg bf ft,
    (mol_graph_to_rxn_graph 1 (Example.batch0 cpu) (Example.feats0 (cuda 0))
       [Example.dissociation; Example.dissociation]).2 = Ok (bg, bf)
    ∧ dict_get bf "global" = Ok ft ∧ nrows ft = 2.
Proof.
  assert (∃ built,
            (mol_graph_to_rxn_graph 1 (Example.batch0 cpu) (Example.feats0 (cuda 0))
               [Example.dissociation; Example.dissociation]).2 = Ok built)
    as [[bg bf] Hcall] by (eexists; vm_compute; reflexivity).
  destruct (global_feature_one_row _ _ _ _ _ _ Hcall) as (ft & Hft & Hrows).
  { right. right. left. }
  exists bg, bf, ft. exact (conj Hcall (conj Hft Hrows)).
Defined.

(** X10. For the atom and the bond type, a reaction feature that is returned
    went through the length check, and its rows are those of the reactant
    when the map has one entry per reactant row.  The map is not compared
    with the reactant, though: a map of one entry is broadcast over all the
    reactant's rows, and a reactant with one row over all the map's entries. *)
Theorem rxn_ft_rows `{Scalar R} (reactants products : list (Graph R)) mappings
    has_bonds ft_name nt reactants_ft products_ft ft :
  nt ≠ "global" →
  gather_ft reactants products has_bonds ft_name nt = Ok (reactants_ft, products_ft) →
  rxn_ft reactants products mappings has_bonds ft_name nt = Ok ft →
  ∃ idx,
    mappings !! nt = Some idx
    ∧ length idx = nrows products_ft
    ∧ ((length idx = nrows reactants_ft ∧ nrows ft = nrows reactants_ft)
       ∨ (length idx = 1 ∧ nrows ft = nrows reactants_ft)
       ∨ (nrows reactants_ft = 1 ∧ nrows ft = length idx)).
Proof.
  intros Hnt Hgather. rewrite (rxn_ft_gathered _ _ _ _ _ _ _ _ Hgather).
  destruct (mappings !! nt) as [idx|] eqn:Hidx; cycle 1.
  { unfold diff_ft. by rewrite decide_False, Hidx by done. }
  rewrite (diff_ft_checked _ _ _ _ idx) by done.
  case_decide as Hlen; [|done].
  intros (p & Hp%index_rows_Ok & Hsub%sub_Ok_rows)%bind_Ok.
  exists idx. split; [done|]. split; [done|]. lia.
Qed.

Lemma rxn_ft_rows_witness :
  let one_entry : gmap string (list Z) := {["atom" := [0%Z]]} in
  ∃ ft,
    rxn_ft [Example.reactant] [Example.product2] one_entry Example.has_bonds0
      "ft" "atom" = Ok ft
    ∧ nrows ft = 3.
Proof.
  intros one_entry.
  assert (Hgather : gather_ft [Example.reactant] [Example.product2]
                      Example.has_bonds0 "ft" "atom"
                    = Ok (mkTensor (cuda 0) 2 [[1; 2]; [3; 4]; [5; 6]]%Z,
                          mkTensor (cuda 0) 2 [[50; 60]]%Z))
    by (vm_compute; reflexivity).
  assert (∃ ft, rxn_ft [Example.reactant] [Example.product2] one_entry
                  Example.has_bonds0 "ft" "atom" = Ok ft) as [ft Hft]
    by (eexists; vm_compute; reflexivity).
  exists ft. split; [exact Hft|].
  destruct (rxn_ft_rows _ _ one_entry _ _ "atom" _ _ _ ltac:(discriminate) Hgather Hft)
    as (idx & Hidx & Hlen & Hrows).
  assert (idx = [0%Z]) as ->.
  { apply (inj Some). rewrite <-Hidx. apply lookup_singleton_eq. }
  unfold nrows in Hrows. simpl in Hrows. unfold nrows. lia.
Defined.

(** ** Products, flags and node types the loop does not expect *)

Section Edges.
Context `{Scalar R}.

Lemma mapM_app {A B} (f : A → result B) (l k : list A) :
  mapM f (l ++ k) = (xs ← mapM f l; ys ← mapM f k; Ok (xs ++ ys)).
Proof.
  induction l as [|x l IH]; simpl.
  - by destruct (mapM f k).
  - destruct (f x) as [y|e]; simpl; [|done]. rewrite IH.
    destruct (mapM f l) as [xs|e]; simpl; [|done]. by destruct (mapM f k).
Qed.

Lemma compress_app_l {A} (data extra : list A) (selectors : list bool) :
  (length selectors ≤ length data)%nat →
  compress (data ++ extra) selectors = compress data selectors.
Proof.
  revert selectors. induction data as [|d data IH]; intros [|s selectors]; simpl;
    try done; try lia.
  - by destruct extra.
  - intros Hlen. rewrite IH by lia. done.
Qed.

Lemma rxn_ft_unmapped (reactants products : list (Graph R)) mappings has_bonds
    ft_name nt :
  nt ≠ "global" → mappings !! nt = None →
  raises (rxn_ft reactants products mappings has_bonds ft_name nt).
Proof.
  intros Hnt Hnone. unfold rxn_ft.
  destruct (gather_ft _ _ _ _ _) as [[rf pf]|e]; [|by exists e]. simpl.
  unfold diff_ft. rewrite decide_False, Hnone by done. by exists KeyError.
Qed.

Lemma rxn_ft_no_products (reactants : list (Graph R)) mappings has_bonds ft_name nt :
  nt ≠ "bond" → raises (rxn_ft reactants [] mappings has_bonds ft_name nt).
Proof.
  intros Hnt. unfold rxn_ft, gather_ft. apply bind_raises.
  destruct (mapM _ reactants) as [rfs|e]; [|by exists e]. simpl.
  rewrite decide_False by done. simpl.
  destruct (cat rfs) as [rf|e]; [|by exists e]. by exists RuntimeError.
Qed.
End Edges.

(** X11. For the bond type the flags [has_bonds["products"]] are paired with
    the products by position and the pairing stops at the shorter list: the
    products beyond the last flag count for nothing, as if they were not
    there (their features are still looked up). *)
Theorem surplus_products_ignored `{Scalar R} (reactants products extra : list (Graph R))
    mappings has_bonds ft_name extra_ft :
  (length (hb_products has_bonds) ≤ length products)%nat →
  mapM (get_ndata ft_name "bond") extra = Ok extra_ft →
  gather_ft reactants (products ++ extra) has_bonds ft_name "bond"
  = gather_ft reactants products has_bonds ft_name "bond"
  ∧ rxn_ft reactants (products ++ extra) mappings has_bonds ft_name "bond"
    = rxn_ft reactants products mappings has_bonds ft_name "bond".
Proof.
  intros Hlen Hextra.
  assert (Hgather : gather_ft reactants (products ++ extra) has_bonds ft_name "bond"
                    = gather_ft reactants products has_bonds ft_name "bond").
  { unfold gather_ft. destruct (mapM _ reactants) as [rfs|e]; [|done]. simpl.
    rewrite mapM_app, Hextra.
    destruct (mapM _ products) as [pfs|e] eqn:Hpfs; [|done]. simpl.
    destruct (py_index rfs 0) as [r0|e]; [|done]. simpl.
    rewrite compress_app_l; [done|]. by rewrite (mapM_Ok_length _ _ _ Hpfs). }
  split; [done|]. unfold rxn_ft. by rewrite Hgather.
Qed.

Lemma surplus_products_ignored_witness :
  let has_bonds := mkHasBonds [true] [true] in
  rxn_ft [Example.reactant] ([Example.product1] ++ [Example.product1])
    Example.mappings0 has_bonds "ft" "bond"
  = rxn_ft [Example.reactant] [Example.product1] Example.mappings0 has_bonds "ft" "bond".
Proof.
  intros has_bonds.
  assert (Hextra : mapM (get_ndata "ft" "bond") [Example.product1]
                   = Ok [mkTensor (cuda 0) 2 [[7; 7]]%Z]) by (vm_compute; reflexivity).
  refine (proj2 (surplus_products_ignored [Example.reactant] [Example.product1]
                   [Example.product1] Example.mappings0 has_bonds "ft" _ _ Hextra)).
  simpl. lia.
Defined.

(** X12. The builder knows three node types.  Its correspondence maps are
    those of atom and bond, and global is pooled; a feature map with any
    other key makes it raise, whatever the reactions. *)
Theorem unsupported_node_type `{Scalar R} cuda_count (graph : Graph R) feats reactions nt :
  nt ∈ dict_keys feats →
  nt ∉ ["atom"; "bond"; "global"] →
  raises (mol_graph_to_rxn_graph cuda_count graph feats reactions).2.
Proof.
  intros Hin Hnt. apply not_Ok_raises. intros [bg bf] Hcall.
  apply mol_graph_to_rxn_graph_Ok in Hcall as (working & _ & _ & _ & _ & _ & Hbuilt).
  unfold rxn_graphs_of in Hbuilt.
  apply bind_Ok in Hbuilt as (rs & Hrs & (bg' & Hbatch & _)%bind_Ok).
  destruct rs as [|[g gfeats] rs]; [done|].
  apply mapM_Ok in Hrs. inversion Hrs as [|rxn ? ? ? Hrxn _]; subst.
  unfold rxn_graph_of in Hrxn.
  apply bind_Ok in Hrxn as (rcts & _ & (ps & _ & Hcreate)%bind_Ok).
  apply create_rxn_graph_Ok in Hcreate as [_ Hgfeats].
  destruct (rxn_feats_Ok _ _ _ _ Hgfeats) as [Hstep _].
  destruct (Hstep _ Hin) as (t & Ht & _).
  destruct (rxn_ft_unmapped [g] ps
              (<["bond" := bond_mapping_as_list rxn]>
                 {["atom" := atom_mapping_as_list rxn]})
              {| hb_reactants := (λ _, true) <$> rcts;
                 hb_products := (λ mp, bool_decide (0 < size mp)) <$> bond_mapping rxn |}
              "ft" nt) as [e He].
  - intros ->. apply Hnt. right. right. left.
  - rewrite lookup_insert_ne by (intros <-; apply Hnt; right; left).
    apply lookup_singleton_ne. intros <-. apply Hnt. left.
  - congruence.
Qed.

Lemma unsupported_node_type_witness :
  let feats := Example.feats0 (cuda 0) ++ [("ring", mkTensor (cuda 0) 2 [])] in
  raises (mol_graph_to_rxn_graph 1 (Example.batch0 (cuda 0)) feats
            [Example.dissociation]).2.
Proof.
  intros feats.
  apply (unsupported_node_type 1 (Example.batch0 (cuda 0)) feats
           [Example.dissociation] "ring").
  - right. right. right. left.
  - intros Hin. apply elem_of_cons in Hin as [Heq|Hin]; [discriminate Heq|].
    apply elem_of_cons in Hin as [Heq|Hin]; [discriminate Heq|].
    apply elem_of_cons in Hin as [Heq|Hin]; [discriminate Heq|].
    exact (proj1 (elem_of_nil _) Hin).
Defined.

(** X13. An empty list of reactions never gives an empty batch: the builder
    raises, and when the graph is on cuda:0 and the features could be
    attached, the exception is that of [dgl.batch] on no graph. *)
Theorem no_reactions_raises `{Scalar R} cuda_count (graph : Graph R) feats :
  raises (mol_graph_to_rxn_graph cuda_count graph feats []).2
  ∧ (gdevice graph = cuda 0 → (assign_feats graph feats).2 = Ok () →
     (mol_graph_to_rxn_graph cuda_count graph feats []).2 = Raise DGLError).
Proof.
  split.
  - apply not_Ok_raises. intros [bg bf] Hcall.
    apply mol_graph_to_rxn_graph_Ok in Hcall as (working & _ & _ & _ & _ & _ & Hbuilt).
    done.
  - intros Hdev Hassigned. rewrite mol_graph_to_rxn_graph_copy. simpl.
    unfold reachable. rewrite bool_decide_eq_true_2 by done. simpl.
    rewrite (assign_feats_outcome (copy_to (cuda 0) graph) graph) by done.
    by rewrite Hassigned.
Qed.

Lemma no_reactions_raises_witness :
  (mol_graph_to_rxn_graph 1 (Example.batch0 (cuda 0)) (Example.feats0 (cuda 0)) []).2
  = Raise DGLError.
Proof.
  apply (proj2 (no_reactions_raises 1 (Example.batch0 (cuda 0))
                  (Example.feats0 (cuda 0)))); [reflexivity|].
  vm_compute. reflexivity.
Defined.

(** X14. A reaction without products cannot be built: for every node type but
    bond there is nothing to concatenate, so the builder raises as soon as
    the features have a key other than bond. *)
Theorem no_products_raises `{Scalar R} cuda_count (graph : Graph R) feats reactions
    rxn nt :
  rxn ∈ reactions →
  products rxn = [] →
  nt ∈ dict_keys feats → nt ≠ "bond" →
  (∀ reactants mappings has_bonds ntypes ft_name,
     nt ∈ ntypes →
     raises (create_rxn_graph (R:=R) reactants [] mappings has_bonds ntypes ft_name))
  ∧ raises (mol_graph_to_rxn_graph cuda_count graph feats reactions).2.
Proof.
  intros Hrxn Hproducts Hin Hnt.
  assert (Hcreate : ∀ reactants mappings has_bonds ntypes ft_name,
     nt ∈ ntypes →
     raises (create_rxn_graph (R:=R) reactants [] mappings has_bonds ntypes ft_name)).
  { intros reactants mappings has_bonds ntypes ft_name Hntypes.
    apply (create_rxn_graph_raises _ _ _ _ _ _ nt Hntypes).
    by apply rxn_ft_no_products. }
  split; [exact Hcreate|].
  apply (mol_graph_to_rxn_graph_raises _ _ _ _ rxn Hrxn). intros graphs.
  unfold rxn_graph_of. rewrite Hproducts.
  destruct (mapM _ (reactants rxn)) as [rcts|e]; [|by exists e]. simpl.
  by apply Hcreate.
Qed.

Lemma no_products_raises_witness :
  let rxn := mkReaction [0%Z] [] [] [0; 1; 2]%Z [0; 1]%Z in
  raises (mol_graph_to_rxn_graph 1 (Example.batch0 (cuda 0)) (Example.feats0 (cuda 0))
            [Example.dissociation; rxn]).2.
Proof.
  intros rxn.
  refine (proj2 (no_products_raises 1 (Example.batch0 (cuda 0))
                   (Example.feats0 (cuda 0)) [Example.dissociation; rxn] rxn "atom"
                   _ eq_refl _ _)).
  - right. left.
  - left.
  - intros Heq. discriminate Heq.
Defined.

(** ** Keys of the result, and a batch of reactions taken apart *)

Section Compose.
Context `{Scalar R}.

Lemma dict_keys_set_new {V} (d : dict V) k v :
  k ∉ dict_keys d → dict_keys (dict_set k v d) = dict_keys d ++ [k].
Proof.
  induction d as [|[k0 v0] d IH]; intros Hk; [done|].
  change (dict_keys ((k0, v0) :: d)) with (k0 :: dict_keys d) in *.
  apply not_elem_of_cons in Hk as [Hne Hk].
  cbn [dict_set]. rewrite decide_False by congruence.
  change (dict_keys ((k0, v0) :: dict_set k v d))
    with (k0 :: dict_keys (dict_set k v d)).
  by rewrite IH.
Qed.

Lemma rxn_feats_keys step ntypes acc (feats : dict (Tensor R)) :
  rxn_feats step ntypes acc = Ok feats →
  NoDup (dict_keys acc ++ ntypes) →
  dict_keys feats = dict_keys acc ++ ntypes.
Proof.
  revert acc. induction ntypes as [|nt ntypes IH]; intros acc; simpl.
  - intros [= <-] _. by rewrite app_nil_r.
  - intros (t & _ & Hrest)%bind_Ok Hnodup.
    assert (nt ∉ dict_keys acc) as Hnew.
    { apply NoDup_app in Hnodup as (_ & Hdisj & _).
      intros Hin. apply (Hdisj _ Hin). by left. }
    rewrite (IH _ Hrest); rewrite dict_keys_set_new by done.
    + by rewrite <- app_assoc.
    + by rewrite <- app_assoc.
Qed.

Lemma batchable_shift (g1 g2 h : Graph R) :
  batchable g1 g2 → batchable g1 h → batchable g2 h.
Proof.
  unfold batchable.
  intros (Hd2 & Hn2 & Hdom2 & Hc2)%bool_decide_unpack
         (Hdh & Hnh & Hdomh & Hch)%bool_decide_unpack.
  apply bool_decide_pack.
  split; [congruence|]. split; [congruence|]. split; [congruence|].
  intros k t2 Hk2.
  assert (is_Some (ndata g1 !! k)) as [t1 Hk1].
  { apply elem_of_dom. rewrite <- Hdom2. apply elem_of_dom. by eexists. }
  pose proof (Hc2 k t1 Hk1) as Heq. pose proof (Hch k t1 Hk1) as Hh.
  cbv beta in Heq, Hh. rewrite Hk2 in Heq. injection Heq as Heq.
  cbv beta. by rewrite Heq.
Qed.

Lemma batch_app (gs1 gs2 : list (Graph R)) bg :
  gs1 ≠ [] → gs2 ≠ [] →
  batch (gs1 ++ gs2) = Ok bg →
  ∃ bg1 bg2,
    batch gs1 = Ok bg1 ∧ batch gs2 = Ok bg2
    ∧ mols bg = mols bg1 ++ mols bg2
    ∧ gntypes bg1 = gntypes bg ∧ gntypes bg2 = gntypes bg
    ∧ gdevice bg1 = gdevice bg ∧ gdevice bg2 = gdevice bg.
Proof.
  destruct gs1 as [|g1 rest1]; [done|]. destruct gs2 as [|g2 rest2]; [done|].
  intros _ _ Hbatch.
  change ((g1 :: rest1) ++ g2 :: rest2) with (g1 :: (rest1 ++ g2 :: rest2)) in Hbatch.
  unfold batch in *.
  destruct (forallb (batchable g1) (rest1 ++ g2 :: rest2)) eqn:Hall; [|done].
  injection Hbatch as <-.
  apply Is_true_true, forallb_True, Forall_app in Hall as [Hall1 Hall2].
  apply Forall_cons in Hall2 as [Hg2 Hall2].
  assert (forallb (batchable g1) rest1 = true) as ->
    by by apply Is_true_true, forallb_True.
  assert (forallb (batchable g2) rest2 = true) as ->.
  { apply Is_true_true, forallb_True. eapply Forall_impl; [exact Hall2|].
    intros h. by apply batchable_shift. }
  eexists _, _. split; [done|]. split; [done|].
  apply bool_decide_unpack in Hg2 as (Hd & Hn & _).
  cbn [mols gntypes gdevice]. split; [|done].
  rewrite !bind_cons, bind_app, bind_cons. by rewrite <- app_assoc.
Qed.

Lemma cat_app (ts1 ts2 : list (Tensor R)) t :
  ts1 ≠ [] → ts2 ≠ [] →
  cat (ts1 ++ ts2) = Ok t →
  ∃ t1 t2,
    cat ts1 = Ok t1 ∧ cat ts2 = Ok t2
    ∧ rows t = rows t1 ++ rows t2
    ∧ (device t1 = device t ∧ ncols t1 = ncols t)
    ∧ (device t2 = device t ∧ ncols t2 = ncols t).
Proof.
  intros Hne1 Hne2 Hcat. destruct (cat_Ok _ _ Hcat) as [Hrows Hall].
  apply Forall_app in Hall as [Hall1 Hall2].
  destruct ts1 as [|a ts1]; [done|]. destruct ts2 as [|b ts2]; [done|].
  apply Forall_cons in Hall1 as [[Hda Hca] Hall1].
  apply Forall_cons in Hall2 as [[Hdb Hcb] Hall2].
  rewrite (cat_total a ts1), (cat_total b ts2).
  - eexists _, _. split; [done|]. split; [done|].
    cbn [rows device ncols]. rewrite Hrows, fmap_app, concat_app. done.
  - eapply Forall_impl; [exact Hall2|]. intros x [? ?]. split; congruence.
  - eapply Forall_impl; [exact Hall1|]. intros x [? ?]. split; congruence.
Qed.

Lemma rxn_graphs_of_app (working : Graph R) feats reactions1 reactions2 bg bf :
  reactions1 ≠ [] → reactions2 ≠ [] →
  rxn_graphs_of working feats (reactions1 ++ reactions2) = Ok (bg, bf) →
  ∃ bg1 bf1 bg2 bf2,
    rxn_graphs_of working feats reactions1 = Ok (bg1, bf1)
    ∧ rxn_graphs_of working feats reactions2 = Ok (bg2, bf2)
    ∧ mols bg = mols bg1 ++ mols bg2
    ∧ ∀ nt, nt ∈ dict_keys feats →
        ∃ t t1 t2,
          dict_get bf nt = Ok t ∧ dict_get bf1 nt = Ok t1 ∧ dict_get bf2 nt = Ok t2
          ∧ rows t = rows t1 ++ rows t2.
Proof.
  intros Hne1 Hne2. unfold rxn_graphs_of. rewrite mapM_app.
  intros (rs & Hrs & (bg' & Hbatch & (bf' & Hbf & [= <- <-])%bind_Ok)%bind_Ok)%bind_Ok.
  apply bind_Ok in Hrs as (rs1 & Hrs1 & (rs2 & Hrs2 & [= <-])%bind_Ok).
  rewrite Hrs1, Hrs2.
  assert (rs1 ≠ []) as Hrs1ne.
  { intros ->. apply mapM_Ok_length in Hrs1. by destruct reactions1. }
  assert (rs2 ≠ []) as Hrs2ne.
  { intros ->. apply mapM_Ok_length in Hrs2. by destruct reactions2. }
  rewrite fmap_app in Hbatch.
  apply batch_app in Hbatch as (bg1 & bg2 & Hbg1 & Hbg2 & Hmols & _);
    [|by destruct rs1|by destruct rs2].
  rewrite batch_feats_rxn_feats in Hbf.
  destruct (rxn_feats_Ok _ _ _ _ Hbf) as [Hstep _].
  assert (∀ nt, nt ∈ dict_keys feats →
            ∃ t t1 t2,
              dict_get bf' nt = Ok t
              ∧ (fts ← mapM (λ ft, dict_get ft nt) (snd <$> rs1); cat fts) = Ok t1
              ∧ (fts ← mapM (λ ft, dict_get ft nt) (snd <$> rs2); cat fts) = Ok t2
              ∧ rows t = rows t1 ++ rows t2) as Hsplit.
  { intros nt Hnt. destruct (Hstep _ Hnt) as (t & Ht & Hget).
    rewrite fmap_app, mapM_app in Ht.
    apply bind_Ok in Ht as (fts & Hfts & Hcat).
    apply bind_Ok in Hfts as (fts1 & Hfts1 & (fts2 & Hfts2 & [= <-])%bind_Ok).
    apply cat_app in Hcat as (t1 & t2 & Ht1 & Ht2 & Hrows & _).
    - exists t, t1, t2. rewrite Hfts1, Hfts2. done.
    - intros ->. apply mapM_Ok_length in Hfts1. rewrite length_fmap in Hfts1.
      by destruct rs1.
    - intros ->. apply mapM_Ok_length in Hfts2. rewrite length_fmap in Hfts2.
      by destruct rs2. }
  destruct (rxn_feats_total
              (λ nt, fts ← mapM (λ ft, dict_get ft nt) (snd <$> rs1); cat fts)
              (dict_keys feats) []) as [bf1 Hbf1].
  { intros nt Hnt. destruct (Hsplit _ Hnt) as (_ & t1 & _ & _ & Ht1 & _).
    by exists t1. }
  destruct (rxn_feats_total
              (λ nt, fts ← mapM (λ ft, dict_get ft nt) (snd <$> rs2); cat fts)
              (dict_keys feats) []) as [bf2 Hbf2].
  { intros nt Hnt. destruct (Hsplit _ Hnt) as (_ & _ & t2 & _ & _ & Ht2 & _).
    by exists t2. }
  exists bg1, bf1, bg2, bf2.
  cbn [mbind result_bind]. rewrite Hbg1, Hbg2. cbn [mbind result_bind].
  rewrite !batch_feats_rxn_feats, Hbf1, Hbf2.
  split; [done|]. split; [done|]. split; [done|].
  intros nt Hnt. destruct (Hsplit _ Hnt) as (t & t1 & t2 & Hget & Ht1 & Ht2 & Hrows).
  exists t, t1, t2. split; [done|].
  destruct (rxn_feats_Ok _ _ _ _ Hbf1) as [Hstep1 _].
  destruct (rxn_feats_Ok _ _ _ _ Hbf2) as [Hstep2 _].
  destruct (Hstep1 _ Hnt) as (t1' & Ht1' & Hget1).
  destruct (Hstep2 _ Hnt) as (t2' & Ht2' & Hget2).
  rewrite Hget1, Hget2. split; [congruence|]. split; [congruence|done].
Qed.
End Compose.

(** X15. The builder returns a feature for exactly the node types it was given,
    in the order of the input dictionary, and so does the dictionary of every
    single reaction. *)
Theorem feature_keys_preserved `{Scalar R} cuda_count (graph : Graph R) feats
    reactions bg bf :
  NoDup (dict_keys feats) →
  (mol_graph_to_rxn_graph cuda_count graph feats reactions).2 = Ok (bg, bf) →
  dict_keys bf = dict_keys feats
  ∧ ∀ graphs rxn g fts,
      rxn_graph_of graphs (dict_keys feats) rxn = Ok (g, fts) →
      dict_keys fts = dict_keys feats.
Proof.
  intros Hnodup Hcall. split.
  - apply mol_graph_to_rxn_graph_Ok in Hcall as (working & _ & _ & _ & _ & _ & Hbuilt).
    unfold rxn_graphs_of in Hbuilt.
    apply bind_Ok in Hbuilt
        as (rs & _ & (bg' & _ & (bf' & Hbf & [= <- <-])%bind_Ok)%bind_Ok).
    rewrite batch_feats_rxn_feats in Hbf. by apply rxn_feats_keys in Hbf.
  - intros graphs rxn g fts Hrxn. unfold rxn_graph_of in Hrxn.
    apply bind_Ok in Hrxn as (rcts & _ & (ps & _ & Hcreate)%bind_Ok).
    apply create_rxn_graph_Ok in Hcreate as [_ Hfts].
    by apply rxn_feats_keys in Hfts.
Qed.

Lemma feature_keys_preserved_witness :
  ∃ bg bf,
    (mol_graph_to_rxn_graph 1 (Example.batch0 (cuda 0)) (Example.feats0 (cuda 0))
       [Example.dissociation]).2 = Ok (bg, bf)
    ∧ dict_keys bf = ["atom"; "bond"; "global"].
Proof.
  assert (∃ built,
            (mol_graph_to_rxn_graph 1 (Example.batch0 (cuda 0)) (Example.feats0 (cuda 0))
               [Example.dissociation]).2 = Ok built)
    as [[bg bf] Hcall] by (eexists; vm_compute; reflexivity).
  exists bg, bf. split; [exact Hcall|].
  refine (proj1 (feature_keys_preserved 1 _ _ _ bg bf _ Hcall)).
  apply (@bool_decide_unpack (NoDup (dict_keys (Example.feats0 (cuda 0)))) _).
  vm_compute. exact I.
Defined.

(** X16. A list of reactions can be built in two calls.  When the builder
    returns for [reactions1 ++ reactions2], both non-empty, it returns for
    each part on the same graph and features, and the joint result is the
    two results one after the other: the molecules of the batched graph, and
    for every node type the rows of the feature. *)
Theorem builder_splits `{Scalar R} cuda_count (graph : Graph R) feats
    reactions1 reactions2 bg bf :
  reactions1 ≠ [] → reactions2 ≠ [] →
  (mol_graph_to_rxn_graph cuda_count graph feats (reactions1 ++ reactions2)).2
  = Ok (bg, bf) →
  ∃ bg1 bf1 bg2 bf2,
    (mol_graph_to_rxn_graph cuda_count graph feats reactions1).2 = Ok (bg1, bf1)
    ∧ (mol_graph_to_rxn_graph cuda_count graph feats reactions2).2 = Ok (bg2, bf2)
    ∧ mols bg = mols bg1 ++ mols bg2
    ∧ ∀ nt, nt ∈ dict_keys feats →
        ∃ t t1 t2,
          dict_get bf nt = Ok t ∧ dict_get bf1 nt = Ok t1 ∧ dict_get bf2 nt = Ok t2
          ∧ rows t = rows t1 ++ rows t2.
Proof.
  intros Hne1 Hne2. unfold mol_graph_to_rxn_graph.
  destruct (graph_to _ _ _) as [[same graph0]|e]; [|done].
  destruct (assign_feats graph0 feats) as [graph1 [[]|e]]; simpl; [|done].
  by apply rxn_graphs_of_app.
Qed.

Lemma builder_splits_witness :
  ∃ bg bf bf1 bf2 t t1 t2,
    (mol_graph_to_rxn_graph 1 (Example.batch0 (cuda 0)) (Example.feats0 (cuda 0))
       ([Example.dissociation] ++ [Example.dissociation])).2 = Ok (bg, bf)
    ∧ dict_get bf "atom" = Ok t ∧ dict_get bf1 "atom" = Ok t1
    ∧ dict_get bf2 "atom" = Ok t2 ∧ rows t = rows t1 ++ rows t2.
Proof.
  assert (∃ built,
            (mol_graph_to_rxn_graph 1 (Example.batch0 (cuda 0)) (Example.feats0 (cuda 0))
               ([Example.dissociation] ++ [Example.dissociation])).2 = Ok built)
    as [[bg bf] Hcall] by (eexists; vm_compute; reflexivity).
  assert ([Example.dissociation] ≠ []) as Hne by (intros Heq; discriminate Heq).
  destruct (builder_splits 1 _ _ _ _ bg bf Hne Hne Hcall)
    as (bg1 & bf1 & bg2 & bf2 & _ & _ & _ & Hrows).
  destruct (Hrows "atom") as (t & t1 & t2 & Ht & Ht1 & Ht2 & Hcat).
  - left.
  - exists bg, bf, bf1, bf2, t, t1, t2.
    exact (conj Hcall (conj Ht (conj Ht1 (conj Ht2 Hcat)))).
Defined.

(** ** The correspondence map as a list of row indices *)

Section Mapping.
Context `{Scalar R}.


End Mapping.



(** ** One prediction per reaction, in the order of the list *)

Section Predictions.
Context `{Scalar R}.

Lemma run_fc_map (fs : list (list R → list R)) fc_layers (t t' : Tensor R) :
  fc_contract fs fc_layers → run_fc fc_layers t = Ok t' →
  rows t' = fc_row fs <$> rows t.
Proof.
  intros Hfc. revert t. induction Hfc as [|f layer fs layers Hlayer _ IH]; intros t; simpl.
  - intros [= <-]. by rewrite list_fmap_id.
  - intros (t1 & Ht1 & Hrest)%bind_Ok.
    rewrite (IH _ Hrest), (Hlayer _ _ Ht1), <-list_fmap_compose. done.
Qed.

Lemma assign_feats_rows (g : Graph R) (items : dict (Tensor R)) :
  (assign_feats g items).2 = Ok () →
  ∀ nt, nt ∈ dict_keys items →
    ∃ ft, ndata (assign_feats g items).1 !! (nt, "ft") = Some ft
          ∧ nrows ft = num_nodes_of g nt.
Proof.
  revert g. induction items as [|[nt0 ft0] items IH]; intros g; simpl.
  - by intros _ nt ?%elem_of_nil.
  - destruct (set_ndata g nt0 "ft" ft0) as [g'|e] eqn:Hset; [|done].
    assert (nrows ft0 = num_nodes_of g nt0) as Hrows.
    { unfold set_ndata in Hset. case_decide; [|done].
      case_decide as Hok; [|done]. by destruct Hok. }
    apply set_ndata_Ok in Hset as [-> _]. intros Hok nt Hnt.
    destruct (decide (nt ∈ dict_keys items)) as [Hin|Hnotin]; [by apply (IH _ Hok)|].
    apply elem_of_cons in Hnt as [->|?]; [|done].
    exists ft0. split; [|done].
    destruct (assign_feats_frame
                (mkGraph (gdevice g) (gntypes g) (mols g) (<[(nt0, "ft") := ft0]> (ndata g)))
                items) as (_ & _ & _ & Hframe).
    rewrite <-Hframe; [apply lookup_insert_eq|]. by intros [_ ?].
Qed.

Lemma sum_list_take_lookup (l : list nat) (k x : nat) :
  l !! k = Some x → (sum_list (take k l) + x ≤ sum_list l)%nat.
Proof.
  revert k. induction l as [|y l IH]; intros [|k] Hk; simpl in *; try done.
  - injection Hk as ->. lia.
  - specialize (IH _ Hk). lia.
Qed.

(** A component of a graph whose feature has one row per node holds that
    component's rows. *)
Lemma component_rows (working : Graph R) k m nt t t0 :
  mols working !! k = Some m →
  ndata working !! (nt, "ft") = Some t →
  nrows t = num_nodes_of working nt →
  get_ndata "ft" nt (component working k m) = Ok t0 →
  nrows t0 = num_nodes m nt.
Proof.
  intros Hk Ht Hrows. unfold get_ndata, component. simpl. case_decide; [|done].
  rewrite map_lookup_imap, Ht. simpl. intros [= <-].
  unfold nrows, slice_rows in *. simpl. rewrite length_take, length_drop.
  pose proof (sum_list_take_lookup (batch_num_nodes working nt) k (num_nodes m nt)) as Hsum.
  unfold batch_num_nodes in Hsum at 1. rewrite list_lookup_fmap, Hk in Hsum.
  specialize (Hsum eq_refl). unfold node_offset, num_nodes_of in *. lia.
Qed.

Lemma rxn_ft_mapped_rows (g : Graph R) products mappings has_bonds ft_name nt
    ft t0 idx :
  nt ≠ "global" →
  get_ndata ft_name nt g = Ok t0 →
  mappings !! nt = Some idx →
  length idx = nrows t0 →
  rxn_ft [g] products mappings has_bonds ft_name nt = Ok ft →
  nrows ft = nrows t0.
Proof.
  intros Hnt Ht0 Hidx Hlen. unfold rxn_ft.
  intros ([rf pf] & Hgather & Hdiff)%bind_Ok.
  assert (nrows rf = nrows t0) as Hrf.
  { unfold gather_ft in Hgather.
    apply bind_Ok in Hgather
        as (rfs & Hrfs & (pfs & _ & (padded & _ & Hcat)%bind_Ok)%bind_Ok).
    apply bind_Ok in Hcat as (rf' & Hcat & (pf' & _ & [= <- <-])%bind_Ok).
    apply mapM_Ok in Hrfs. inversion Hrfs as [|? t1 ? ? Ht1 Hnil]; subst.
    inversion Hnil; subst. assert (t1 = t0) as -> by congruence.
    rewrite cat_singleton in Hcat. by injection Hcat as <-. }
  rewrite (diff_ft_checked _ _ _ _ idx) in Hdiff by done.
  case_decide as Hcheck; [|done].
  apply bind_Ok in Hdiff as (p & Hp%index_rows_Ok & Hsub%sub_Ok_rows). lia.
Qed.

(** The reaction graph of a descriptor that fits the batch has one molecule,
    and its features have one row per node. *)
Lemma rxn_graph_of_aligned (graph working : Graph R) (feats : dict (Tensor R))
    rxn g fts :
  mols working = mols graph →
  (∀ nt, nt ∈ dict_keys feats →
     ∃ t, ndata working !! (nt, "ft") = Some t ∧ nrows t = num_nodes_of working nt) →
  reaction_fits graph rxn →
  rxn_graph_of (unbatch working) (dict_keys feats) rxn = Ok (g, fts) →
  length (mols g) = 1 ∧ aligned g fts.
Proof.
  intros Hmols Hworking Hfits Hrxn.
  destruct (rxn_graph_of_reactant _ _ _ _ _ Hrxn) as (i & Hi & Hg).
  unfold unbatch in Hg. apply py_index_imap in Hg as (k & m & Hk & -> & Hm).
  rewrite Hmols in Hm. destruct (Hfits i m Hi Hm) as (Hglob & Hatom & Hbond).
  split; [done|]. intros nt ft Hget.
  assert (num_nodes_of (component working k m) nt = num_nodes m nt) as ->.
  { unfold num_nodes_of, batch_num_nodes. simpl. lia. }
  unfold rxn_graph_of in Hrxn.
  apply bind_Ok in Hrxn as (rcts & _ & (ps & _ & Hcreate)%bind_Ok).
  apply create_rxn_graph_Ok in Hcreate as [_ Hfeats].
  destruct (rxn_feats_Ok _ _ _ _ Hfeats) as [Hin Hout].
  destruct (decide (nt ∈ dict_keys feats)) as [Hnt|Hnt];
    [|by rewrite (Hout _ Hnt) in Hget].
  destruct (Hin _ Hnt) as (ft' & Hft & Hget').
  assert (ft' = ft) as -> by congruence.
  destruct (decide (nt = "global")) as [->|Hnotglobal].
  { by rewrite (rxn_ft_global_rows _ _ _ _ _ _ Hft). }
  destruct (rxn_ft_device _ _ _ _ _ _ _ Hft) as (t0 & Ht0 & _).
  destruct (Hworking _ Hnt) as (t & Ht & Hrows).
  pose proof (component_rows _ _ _ _ _ _ Hk Ht Hrows Ht0) as Hn.
  rewrite <-Hn.
  destruct (decide (nt = "bond")) as [->|Hnotbond].
  { eapply rxn_ft_mapped_rows; [done|exact Ht0| |by rewrite Hn|exact Hft].
    apply lookup_insert_eq. }
  destruct (decide (nt = "atom")) as [->|Hnotatom].
  { eapply rxn_ft_mapped_rows; [done|exact Ht0| |by rewrite Hn|exact Hft].
    rewrite lookup_insert_ne by done. apply lookup_singleton_eq. }
  destruct (rxn_ft_unmapped [component working k m] ps
              (<["bond" := bond_mapping_as_list rxn]>
                 {["atom" := atom_mapping_as_list rxn]})
              {| hb_reactants := (λ _, true) <$> rcts;
                 hb_products := (λ mp, bool_decide (0 < size mp)) <$> bond_mapping rxn |}
              "ft" nt) as [e He]; [done| |congruence].
  rewrite lookup_insert_ne by done. by apply lookup_singleton_ne.
Qed.
End Predictions.

(** C6.  When [forward] returns, with a readout that pools per graph and
    fully connected layers that work row by row, the prediction has one row
    per reaction descriptor.  For descriptors that fit the batch (one global
    node per reactant, maps with one entry per reactant atom and bond) the
    rows are in the order of the list: row [k] is the readout of the reaction
    graph and features that the builder makes for descriptor [k] from the
    copy of the input graph on cuda:0, passed through the layers. *)
Theorem forward_rows `{Scalar R} cuda_count embedding gated_layers readout_layer
    fs fc_layers (graph : Graph R) feats reactions norm_atom norm_bond prediction :
  readout_contract readout_layer →
  fc_contract fs fc_layers →
  (forward cuda_count embedding gated_layers readout_layer fc_layers
     graph feats reactions norm_atom norm_bond).2 = Ok prediction →
  nrows prediction = length reactions
  ∧ ∃ feats',
      layer_feats embedding gated_layers graph feats norm_atom norm_bond
        (length gated_layers) = Ok feats'
      ∧ (Forall (reaction_fits graph) reactions →
         let working := (assign_feats (copy_to (cuda 0) graph) feats').1 in
         Forall2 (λ rxn row, ∃ g fts pooled v,
                    rxn_graph_of (unbatch working) (dict_keys feats') rxn = Ok (g, fts)
                    ∧ readout_layer g fts = Ok pooled
                    ∧ rows pooled = [v]
                    ∧ row = fc_row fs v)
           reactions (rows prediction)).
Proof.
  intros [Hcount Hpool] Hfc. unfold forward.
  destruct (_ ≫= _) as [feats'|e] eqn:Hlayers; [|done].
  rewrite mol_graph_to_rxn_graph_copy. simpl.
  destruct (reachable _ _ _); [|done].
  set (moved := copy_to (cuda 0) graph).
  destruct (assign_feats moved feats').2 as [[]|e] eqn:Hassigned; [|done]. simpl.
  intros ([bg bf] & Hbuilt & (pooled & Hpooled & Hfcs)%bind_Ok)%bind_Ok.
  pose proof (run_fc_map _ _ _ _ Hfc Hfcs) as Hrows.
  destruct (rxn_graphs_of_Ok _ _ _ _ _ Hbuilt) as (_ & _ & _ & Hlen & _).
  split.
  { unfold nrows. rewrite Hrows, length_fmap.
    rewrite <-Hlen. apply (Hcount _ _ _ Hpooled). }
  exists feats'. split; [unfold layer_feats; by rewrite firstn_all|].
  intros Hfits. set (working := (assign_feats moved feats').1) in *.
  rewrite Hrows. apply Forall2_fmap_r.
  unfold rxn_graphs_of in Hbuilt.
  apply bind_Ok in Hbuilt
      as (rs & Hrs & (bg' & Hbatch & (bf' & Hbf & [= <- <-])%bind_Ok)%bind_Ok).
  apply mapM_Ok in Hrs.
  assert (Forall (λ r, length (mols r.1) = 1 ∧ aligned r.1 r.2) rs) as Hgood.
  { apply Forall_forall. intros [g fts] Hin.
    apply list_elem_of_lookup in Hin as [j Hj].
    destruct (Forall2_lookup_r _ _ _ _ _ Hrs Hj) as (rxn & Hrxn & Hgraph).
    apply (rxn_graph_of_aligned graph working feats' rxn); [| | |exact Hgraph].
    - destruct (assign_feats_frame moved feats') as (_ & _ & Hm & _).
      unfold working. by rewrite <-Hm.
    - intros nt Hnt.
      destruct (assign_feats_rows moved feats' Hassigned nt Hnt) as (t & Ht & Hn).
      exists t. split; [done|]. rewrite Hn. unfold num_nodes_of, batch_num_nodes.
      destruct (assign_feats_frame moved feats') as (_ & _ & Hm & _).
      unfold working. by rewrite <-Hm.
    - rewrite Forall_forall in Hfits. apply Hfits.
      by eapply list_elem_of_lookup_2. }
  pose proof (Hpool rs (dict_keys feats') bg' bf' pooled Hgood Hbatch Hbf Hpooled)
    as Hreadout.
  eapply Forall2_trans; [|exact Hrs|exact Hreadout].
  intros rxn [g fts] v Hrxn (one & Hone & Hv). by exists g, fts, one, v.
Qed.

(** The layers of the worked batch meet the contracts. *)

Section ExampleLayers.

Lemma split_rows_lengths_concat {A} (ls : list (list (list A))) :
  split_rows (concat ls) (length <$> ls) = ls.
Proof.
  induction ls as [|l ls IH]; [done|].
  rewrite fmap_cons. cbn [concat split_rows].
  by rewrite take_app_length, drop_app_length, IH.
Qed.

Lemma bind_sum_dim0 dev (d : nat) (ls : list (list (list Z))) :
  (mkTensor dev d <$> ls) ≫= (rows ∘ sum_dim0)
  = (λ l, foldl row_add (replicate d 0%Z) l) <$> ls.
Proof.
  induction ls as [|l ls IH]; [done|].
  rewrite !fmap_cons, bind_cons, IH. done.
Qed.

(** The node counts of graphs batched together are the row counts of their
    aligned features. *)
Lemma batch_num_nodes_aligned (gfs : list (Graph Z * dict (Tensor Z))) fts nt :
  Forall (λ gf, length (mols gf.1) = 1 ∧ aligned gf.1 gf.2) gfs →
  Forall2 (λ gf ft, dict_get gf.2 nt = Ok ft) gfs fts →
  (λ m, num_nodes m nt) <$> ((fst <$> gfs) ≫= mols) = nrows <$> fts.
Proof.
  intros Hgood Hfts. induction Hfts as [|[g f] ft gfs fts Hft _ IH]; [done|].
  apply Forall_cons in Hgood as [[Hone Haligned] Hgood].
  rewrite !fmap_cons, bind_cons, fmap_app, (IH Hgood). simpl in *.
  destruct (mols g) as [|m [|m' ms]] eqn:Hm; try done. simpl.
  rewrite (Haligned nt ft Hft). unfold num_nodes_of, batch_num_nodes.
  rewrite Hm. simpl. f_equal. lia.
Qed.

Lemma readout0_single (g : Graph Z) (f : dict (Tensor Z)) ft :
  length (mols g) = 1 → aligned g f → dict_get f "global" = Ok ft →
  ∃ pooled, Example.readout0 g f = Ok pooled
    ∧ rows pooled = [foldl row_add (replicate (ncols ft) 0%Z) (rows ft)].
Proof.
  intros Hone Haligned Hft. unfold Example.readout0. rewrite Hft. simpl.
  pose proof (Haligned _ _ Hft) as Hrows. unfold num_nodes_of in Hrows.
  unfold split. rewrite decide_True by done. simpl. eexists. split; [done|]. simpl.
  unfold batch_num_nodes in *. destruct (mols g) as [|m [|m' ms]]; try done.
  simpl in *. rewrite take_ge by (unfold nrows in Hrows; lia). done.
Qed.

Lemma readout0_contract : readout_contract Example.readout0.
Proof.
  split.
  - intros graph feats t. unfold Example.readout0.
    intros (glob & _ & (chunks & Hchunks & [= <-])%bind_Ok)%bind_Ok.
    apply split_Ok in Hchunks as (Hlen & _). unfold batch_num_nodes in Hlen.
    rewrite length_fmap in Hlen. unfold nrows. simpl. rewrite <-Hlen. clear.
    induction chunks as [|c chunks IH]; [done|].
    rewrite bind_cons, length_app, IH. done.
  - intros gfs ntypes bg bf t Hgood Hbatch Hbf. unfold Example.readout0 at 1.
    intros (glob & Hglob & (chunks & Hchunks & [= <-])%bind_Ok)%bind_Ok.
    rewrite batch_feats_rxn_feats in Hbf.
    destruct (rxn_feats_Ok _ _ _ _ Hbf) as [Hin Hout].
    destruct (decide ("global" ∈ ntypes)) as [Hnt|Hnt];
      [|by rewrite (Hout _ Hnt) in Hglob].
    destruct (Hin _ Hnt) as (glob' & (fts & Hfts & Hcat)%bind_Ok & Hget).
    assert (glob' = glob) as -> by congruence.
    apply mapM_Ok, Forall2_fmap_l in Hfts.
    apply cat_Ok in Hcat as [Hrows Hall].
    apply batch_Ok in Hbatch as [Hmols _].
    unfold split in Hchunks. case_decide as Hsum; [|done]. injection Hchunks as <-.
    unfold batch_num_nodes. rewrite Hmols.
    rewrite (batch_num_nodes_aligned gfs fts "global" Hgood Hfts).
    rewrite Hrows. change (nrows <$> fts) with ((length ∘ rows) <$> fts).
    rewrite (list_fmap_compose rows length), split_rows_lengths_concat.
    cbn [rows]. rewrite bind_sum_dim0. apply Forall2_fmap_r, Forall2_fmap_r.
    apply Forall2_same_length_lookup_2; [by eapply Forall2_length|].
    intros i [g f] ft Hi Hj.
    destruct (Forall_lookup_1 _ _ _ _ Hgood Hi) as [Hone Haligned].
    pose proof (Forall2_lookup_lr _ _ _ _ _ _ Hfts Hi Hj) as Hft.
    destruct (Forall_lookup_1 _ _ _ _ Hall Hj) as [_ Hcols]. simpl in *.
    destruct (readout0_single g f ft Hone Haligned Hft) as (pooled & Hpooled & Hrow).
    exists pooled. split; [done|]. by rewrite Hrow, Hcols.
Qed.

Lemma fc0_contract : fc_contract [λ row, [foldr Z.add 0%Z row]] [Example.fc0].
Proof. constructor; [|constructor]. by intros t t' [= <-]. Qed.
End ExampleLayers.

Lemma forward_rows_witness :
  let graph := Example.batch1 cpu in
  let feats := Example.feats1 (cuda 0) in
  let reactions := [Example.dissociation; Example.hydroxyl_dissociation] in
  let prediction := mkTensor (cuda 0) 1 [[4]; [6]]%Z in
  let fs := [λ row : list Z, [foldr Z.add 0%Z row]] in
  (forward 1 Example.embedding0 [Example.gated0] Example.readout0 [Example.fc0]
     graph feats reactions None None).2 = Ok prediction
  ∧ Forall (reaction_fits graph) reactions
  ∧ nrows prediction = length reactions
  ∧ ∃ feats',
      layer_feats Example.embedding0 [Example.gated0] graph feats None None 1
      = Ok feats'
      ∧ Forall2 (λ rxn row, ∃ g fts pooled v,
                   rxn_graph_of
                     (unbatch (assign_feats (copy_to (cuda 0) graph) feats').1)
                     (dict_keys feats') rxn = Ok (g, fts)
                   ∧ Example.readout0 g fts = Ok pooled
                   ∧ rows pooled = [v]
                   ∧ row = fc_row fs v)
          reactions (rows prediction).
Proof.
  intros graph feats reactions prediction fs.
  assert (Hrun : (forward 1 Example.embedding0 [Example.gated0] Example.readout0
                    [Example.fc0] graph feats reactions None None).2 = Ok prediction)
    by (vm_compute; reflexivity).
  assert (Hfits : Forall (reaction_fits graph) reactions).
  { constructor; [|constructor; [|constructor]].
    - intros i m Hi Hm. injection Hi as <-. vm_compute in Hm. injection Hm as <-.
      vm_compute. exact (conj eq_refl (conj eq_refl eq_refl)).
    - intros i m Hi Hm. injection Hi as <-. vm_compute in Hm. injection Hm as <-.
      vm_compute. exact (conj eq_refl (conj eq_refl eq_refl)). }
  split; [exact Hrun|]. split; [exact Hfits|].
  destruct (forward_rows 1 Example.embedding0 [Example.gated0] Example.readout0
              fs [Example.fc0] graph feats reactions None None prediction
              readout0_contract fc0_contract Hrun)
    as (Hcount & feats' & Hlayers & Horder).
  split; [exact Hcount|]. exists feats'.
  exact (conj Hlayers (Horder Hfits)).
Defined.

(** ** The layer trace of a single molecule *)

Section SingleTrace.
Context `{Scalar R}.

Lemma split_batched_output_Ok (graph : Graph R) (value : Tensor R) fts :
  _split_batched_output graph value = Ok fts →
  ∃ m, mols graph = [m] ∧ split_size value (num_nodes m "bond") = Ok fts.
Proof.
  unfold _split_batched_output, batch_num_nodes.
  destruct (mols graph) as [|m [|m' ms]]; simpl; [done| |done].
  intros Hsplit. by exists m.
Qed.
End SingleTrace.

(** X18. [feature_at_each_layer] returns for a graph of a single molecule
    only.  Its dict then has the keys [0 .. N] for [N] gated layers, and
    entry [i] holds the bond features after the embedding and the first [i]
    gated layers, cut into chunks of at most as many rows as the molecule has
    bond nodes: joined again they are that feature. *)
Theorem layer_trace_single `{Scalar R} embedding (gated_layers : list GatedLayer)
    (graph : Graph R) feats reactions norm_atom norm_bond all_feats :
  feature_at_each_layer embedding gated_layers graph feats reactions
    norm_atom norm_bond = Ok all_feats →
  ∃ m, mols graph = [m]
    ∧ size all_feats = 1 + length gated_layers
    ∧ (∀ i, is_Some (all_feats !! i) ↔ (i ≤ length gated_layers)%nat)
    ∧ ∀ i fts, all_feats !! i = Some fts →
        ∃ feats_i bond,
          layer_feats embedding gated_layers graph feats norm_atom norm_bond i
          = Ok feats_i
          ∧ dict_get feats_i "bond" = Ok bond
          ∧ cat fts = Ok bond
          ∧ Forall (λ t, (nrows t ≤ num_nodes m "bond")%nat) fts
          ∧ (length fts = 1 ↔ (nrows bond ≤ num_nodes m "bond")%nat).
Proof.
  unfold feature_at_each_layer.
  intros (feats0 & Hemb & (bond0 & Hbond0 & (fts0 & Hfts0 & Htrace)%bind_Ok)%bind_Ok)%bind_Ok.
  simpl in Htrace.
  destruct (trace_gated_Ok _ _ _ _ _ _ _ _ Htrace) as (Hsize & Hlow & Hhigh & Hmid).
  { intros j Hj. rewrite lookup_insert_ne by lia. apply lookup_empty. }
  rewrite map_size_insert_None, map_size_empty in Hsize by apply lookup_empty.
  assert (Hentry : ∀ i, (i ≤ length gated_layers)%nat →
            ∃ feats_i bond fts,
              layer_feats embedding gated_layers graph feats norm_atom norm_bond i
              = Ok feats_i
              ∧ dict_get feats_i "bond" = Ok bond
              ∧ _split_batched_output graph bond = Ok fts
              ∧ all_feats !! i = Some fts).
  { intros [|i] Hi; unfold layer_feats; rewrite Hemb; simpl.
    - exists feats0, bond0, fts0. rewrite Hlow by lia.
      by rewrite lookup_insert_eq.
    - destruct (Hmid i) as (feats_i & bond & fts & ? & ? & ? & ?); [lia|].
      by exists feats_i, bond, fts. }
  destruct (split_batched_output_Ok _ _ _ Hfts0) as (m & Hm & _).
  exists m. split; [done|]. split; [lia|]. split.
  - intros i. split.
    + intros [fts Hfts]. destruct (decide (i ≤ length gated_layers)%nat); [done|].
      rewrite Hhigh in Hfts by lia. done.
    + intros Hi. destruct (Hentry i Hi) as (_ & _ & fts & _ & _ & _ & ->). by eexists.
  - intros i fts Hfts.
    assert (i ≤ length gated_layers)%nat as Hi.
    { destruct (decide (i ≤ length gated_layers)%nat); [done|].
      rewrite Hhigh in Hfts by lia. done. }
    destruct (Hentry i Hi) as (feats_i & bond & fts' & Hfeats & Hbond & Hsplit & Hfts').
    assert (fts' = fts) as -> by congruence.
    destruct (split_batched_output_Ok _ _ _ Hsplit) as (m' & Hm' & Hchunks).
    assert (m' = m) as -> by congruence.
    destruct (split_size_Ok _ _ _ Hchunks) as (Hall & Hcat & Hone).
    exists feats_i, bond. split; [done|]. split; [done|]. split; [done|].
    split; [|done]. eapply Forall_impl; [exact Hall|]. by intros t (_ & _ & ?).
Qed.

Lemma layer_trace_single_witness :
  let graph := mkGraph cpu ["atom"; "bond"; "global"] [Example.water] ∅ in
  let feats := [("bond", mkTensor cpu 2 [[1; 1]; [2; 2]]%Z)] in
  ∃ all_feats,
    feature_at_each_layer Example.embedding0 [Example.gated0; Example.gated0]
      graph feats [] None None = Ok all_feats
    ∧ size all_feats = 3
    ∧ (∀ i, is_Some (all_feats !! i) ↔ (i ≤ 2)%nat).
Proof.
  intros graph feats.
  assert (∃ all_feats,
            feature_at_each_layer Example.embedding0 [Example.gated0; Example.gated0]
              graph feats [] None None = Ok all_feats) as [all_feats Hrun]
    by (eexists; vm_compute; reflexivity).
  exists all_feats. split; [exact Hrun|].
  destruct (layer_trace_single Example.embedding0 [Example.gated0; Example.gated0]
              graph feats [] None None all_feats Hrun) as (m & _ & Hsize & Hkeys & _).
  exact (conj Hsize Hkeys).
Defined.
